(** * FinaiFlow identity core: a shallow embedding of the services

  The development follows the Python sources:
  - [app/core/security.py]            -> [Security]
  - [app/models/*.py]                 -> [User], [AuthToken], [OAuth2Account],
                                         [TwoFactorAuth], [Tenant]
  - [app/core/redis.py]               -> [RedisCache]
  - [app/services/auth_service.py]    -> [AuthService]
  - [app/services/passwordless_service.py] -> [PasswordlessService]
  - [app/services/totp_service.py]    -> [TOTPService]
  - [app/services/oauth_service.py]   -> [OAuth2Service]

  Conventions.  A [datetime] is a number of seconds ([Z]); one service
  call reads the clock once ([now]).  A table is the list of its rows; an
  ORM object is identified by its primary key, and [commit] writes a
  mutated object back over the row with that key.  A service call returns
  its outcome (a value or the exception it raises) together with the
  committed database.  Signed tokens, digests and Fernet ciphertexts are
  symbolic (free constructors), the usual ideal model of the
  cryptographic libraries. *)

From Stdlib Require Import String Ascii List ZArith Bool Lia DecimalString.
From Stdlib Require DecimalPos DecimalZ.
Import ListNotations.

Local Open Scope string_scope.
Local Open Scope Z_scope.

(* ================================================================== *)
(** * Python values, exceptions and outcomes                           *)
(* ================================================================== *)

Module Py.

(** The exception classes that occur in the modelled code.  The first
    five are [app/core/exceptions.py]; the others are raised by the
    interpreter or by libraries ([DBAPIError] is SQLAlchemy's wrapper of
    an error of the database driver). *)
Inductive exn : Type :=
| AuthenticationError (message : string)
| ValidationError (message : string)
| NotFoundError (message : string)
| ExternalServiceError (message : string)
| ValueError (message : string)
| MultipleResultsFound
| OperationalError
| UnboundLocalError (name : string)
| AttributeError (message : string)
| DBAPIError.

Inductive result (A : Type) : Type :=
| Ok (a : A)
| Raise (e : exn).
Arguments Ok {A} a.
Arguments Raise {A} e.

Definition bind {A B} (r : result A) (k : A -> result B) : result B :=
  match r with
  | Ok a => k a
  | Raise e => Raise e
  end.

Definition is_ok {A} (r : result A) : bool :=
  match r with Ok _ => true | Raise _ => false end.

(** [datetime] and [timedelta], in seconds. *)
Definition datetime := Z.
Definition seconds (n : Z) : Z := n.
Definition minutes (n : Z) : Z := 60 * n.
Definition hours (n : Z) : Z := 3600 * n.
Definition days (n : Z) : Z := 86400 * n.

(** Truth value of an [Optional[str]]: [None] and [""] are false. *)
Definition truthy_str (s : option string) : bool :=
  match s with
  | None => false
  | Some s => negb (String.eqb s "")
  end.

(** [str.upper] on ASCII letters (other bytes are kept).  The texts are
    byte strings; on a text with characters outside ASCII Python's
    [upper], [lower] and [strip] also act on those, which the functions
    below do not follow. *)
Definition upper_ascii (c : ascii) : ascii :=
  let n := nat_of_ascii c in
  if (Nat.leb 97 n && Nat.leb n 122)%bool then ascii_of_nat (n - 32) else c.

Fixpoint upper (s : string) : string :=
  match s with
  | EmptyString => EmptyString
  | String c s' => String (upper_ascii c) (upper s')
  end.

(** [str.lower] on ASCII letters. *)
Definition lower_ascii (c : ascii) : ascii :=
  let n := nat_of_ascii c in
  if (Nat.leb 65 n && Nat.leb n 90)%bool then ascii_of_nat (n + 32) else c.

Fixpoint lower (s : string) : string :=
  match s with
  | EmptyString => EmptyString
  | String c s' => String (lower_ascii c) (lower s')
  end.

(** [a or b] on [Optional[str]] values. *)
Definition or_str (a b : option string) : option string :=
  if truthy_str a then a else b.

(** [s.split(' ')[0]] and [' '.join(s.split(' ')[1:])]: the text before
    the first space, and the text after it. *)
Fixpoint before_space (s : string) : string :=
  match s with
  | EmptyString => EmptyString
  | String c s' =>
      if Ascii.eqb c " "%char then EmptyString else String c (before_space s')
  end.

Fixpoint after_space (s : string) : string :=
  match s with
  | EmptyString => EmptyString
  | String c s' => if Ascii.eqb c " "%char then s' else after_space s'
  end.

(** The ASCII characters [str.strip] removes: tab, LF, VT, FF, CR,
    FS, GS, RS, US and space. *)
Definition is_space (c : ascii) : bool :=
  let n := nat_of_ascii c in
  ((Nat.leb 9 n && Nat.leb n 13) || (Nat.leb 28 n && Nat.leb n 32))%bool.

Fixpoint lstrip (s : string) : string :=
  match s with
  | EmptyString => EmptyString
  | String c s' => if is_space c then lstrip s' else s
  end.

(** [rstrip]: a character is dropped when it is a space and all that
    follows it is dropped too. *)
Fixpoint rstrip (s : string) : string :=
  match s with
  | EmptyString => EmptyString
  | String c s' =>
      match rstrip s' with
      | EmptyString => if is_space c then EmptyString else String c EmptyString
      | r => String c r
      end
  end.

Definition strip (s : string) : string := rstrip (lstrip s).

(** [x in xs] for a list of strings. *)
Definition str_in (x : string) (xs : list string) : bool :=
  existsb (String.eqb x) xs.

End Py.
Export Py.

Declare Scope py_scope.
Notation "'let*' x ':=' e 'in' k" := (Py.bind e (fun x => k))
  (at level 10, x name, e at level 100, k at level 200) : py_scope.
Local Open Scope py_scope.

(* ================================================================== *)
(** * SQLAlchemy: result sets and primary keys                         *)
(* ================================================================== *)

Module Sql.

(** [Result.scalar_one_or_none()]: no row gives [None], one row gives
    that row, more than one row raises [MultipleResultsFound]. *)
Definition scalar_one_or_none {A} (rows : list A) : result (option A) :=
  match rows with
  | [] => Ok None
  | [r] => Ok (Some r)
  | _ :: _ :: _ => Raise MultipleResultsFound
  end.

Section Table.
Context {A : Type} (pk : A -> string).

(** [session.get(Model, key)], for a key that the column type takes
    (the text of a UUID); for another text the database raises. *)
Definition get (key : string) (rows : list A) : option A :=
  find (fun r => String.eqb (pk r) key) rows.

(** Flushing a mutated object: the row with its key is overwritten. *)
Definition write (obj : A) (rows : list A) : list A :=
  map (fun r => if String.eqb (pk r) (pk obj) then obj else r) rows.

(** [session.add(obj)] followed by a flush. *)
Definition add (obj : A) (rows : list A) : list A := rows ++ [obj].

(** Primary keys are unique. *)
Definition pk_unique (rows : list A) : Prop := NoDup (map pk rows).
End Table.

End Sql.

(* ================================================================== *)
(** * app/core/config.py                                               *)
(* ================================================================== *)

Record Settings : Type := {
  SECRET_KEY : string;
  ACCESS_TOKEN_EXPIRE_MINUTES : Z;
  REFRESH_TOKEN_EXPIRE_DAYS : Z
}.

(** The process-wide collaborators the modules import as globals: the
    settings object, passlib's [pwd_context], pyotp's code generator
    ([None] when the library raises, for instance on a secret that is not
    base32) and [unicodedata.normalize('NFKC', s)], which pyotp applies
    to both sides before it compares two codes. *)
Class Globals : Type := {
  settings : Settings;
  pwd_context_verify : string -> string -> bool;
  pwd_context_hash : string -> string;
  generate_otp : string -> Z -> option string;
  nfkc : string -> string
}.

(* ================================================================== *)
(** * app/core/security.py                                             *)
(* ================================================================== *)

Module Security.

(** The claim set of a signed token (the dict passed to [jwt.encode]);
    a key that is absent from the dict is [None]. *)
Record payload : Type := {
  sub : option string;
  email : option string;
  tenant_id : option string;
  is_superuser : option bool;
  is_tenant_admin : option bool;
  exp : option Z;
  type : option string
}.

(** A token string: either the encoding of a claim set signed with a
    key, or any other string. *)
Inductive token : Type :=
| Signed (key : string) (claims : payload)
| Malformed (text : string).

(** [hashlib.sha256(token.encode()).hexdigest()], collision free. *)
Inductive digest : Type :=
| sha256 (t : token).

Definition payload_eq_dec (p q : payload) : {p = q} + {p <> q}.
Proof.
  repeat decide equality; try apply Z.eq_dec; try apply string_dec.
Defined.

Definition token_eq_dec (s t : token) : {s = t} + {s <> t}.
Proof.
  decide equality; try apply string_dec; apply payload_eq_dec.
Defined.

Definition digest_eq_dec (a b : digest) : {a = b} + {a <> b}.
Proof.
  decide equality; apply token_eq_dec.
Defined.

Definition digest_eqb (a b : digest) : bool :=
  if digest_eq_dec a b then true else false.

(** The failures of [jwt.decode]: [jwt.ExpiredSignatureError], and
    every other decoding error of the library (a bad signature, a text
    that is no token), which PyJWT raises as subclasses of
    [jwt.InvalidTokenError]. *)
Inductive jwt_error : Type :=
| ExpiredSignatureError
| InvalidTokenError.

(** [jwt.decode(token, key, algorithms=[ALGORITHM])]: the signature is
    checked first, then the [exp] claim when there is one. *)
Definition jwt_decode (now : datetime) (key : string) (t : token)
  : jwt_error + payload :=
  match t with
  | Malformed _ => inl InvalidTokenError
  | Signed k p =>
      if String.eqb k key then
        match exp p with
        | Some e => if e <=? now then inl ExpiredSignatureError else inr p
        | None => inr p
        end
      else inl InvalidTokenError
  end.

Section WithGlobals.
Context `{G : Globals}.

Definition create_access_token (now : datetime) (data : payload) : token :=
  let expire := now + minutes (ACCESS_TOKEN_EXPIRE_MINUTES settings) in
  Signed (SECRET_KEY settings)
    {| sub := sub data; email := email data; tenant_id := tenant_id data;
       is_superuser := is_superuser data;
       is_tenant_admin := is_tenant_admin data;
       exp := Some expire; type := Some "access" |}.

Definition create_refresh_token (now : datetime) (data : payload) : token :=
  let expire := now + days (REFRESH_TOKEN_EXPIRE_DAYS settings) in
  Signed (SECRET_KEY settings)
    {| sub := sub data; email := email data; tenant_id := tenant_id data;
       is_superuser := is_superuser data;
       is_tenant_admin := is_tenant_admin data;
       exp := Some expire; type := Some "refresh" |}.

(** What evaluating the handler [except jwt.JWTError] (line 78) raises:
    the module imports PyJWT, which has no attribute of that name. *)
Definition no_JWTError : exn :=
  AttributeError "module 'jwt' has no attribute 'JWTError'".

(** [verify_token].  An exception raised in the [try] block is matched
    against the handlers in order.  [jwt.ExpiredSignatureError] is
    caught by the first one.  For every other exception -- the
    [AuthenticationError] of the type check (line 72) and the other
    errors of [jwt.decode] -- the first handler does not match and the
    second one is looked up, which raises [AttributeError] in place of
    the error that was on its way. *)
Definition verify_token (now : datetime) (t : token) (token_type : string)
  : result payload :=
  match jwt_decode now (SECRET_KEY settings) t with
  | inr p =>
      match type p with
      | Some ty =>
          if String.eqb ty token_type then Ok p
          else Raise no_JWTError
      | None => Raise no_JWTError
      end
  | inl ExpiredSignatureError => Raise (AuthenticationError "Token has expired")
  | inl InvalidTokenError => Raise no_JWTError
  end.

Definition hash_token (t : token) : digest := sha256 t.

End WithGlobals.

End Security.

(* ================================================================== *)
(** * app/models                                                       *)
(* ================================================================== *)

Module User.

Record t : Type := {
  id : string;
  is_active : bool;
  email : string;
  first_name : string;
  last_name : string;
  hashed_password : option string;
  is_email_verified : bool;
  email_verification_token : option string;
  failed_login_attempts : Z;
  locked_until : option datetime;
  password_reset_token : option string;
  password_reset_expires : option datetime;
  avatar_url : option string;
  is_superuser : bool;
  is_tenant_admin : bool;
  tenant_id : string
}.

Definition with_failed_login_attempts (n : Z) (u : t) : t :=
  {| id := id u; is_active := is_active u; email := email u;
     first_name := first_name u; last_name := last_name u;
     hashed_password := hashed_password u;
     is_email_verified := is_email_verified u;
     email_verification_token := email_verification_token u;
     failed_login_attempts := n;
     locked_until := locked_until u;
     password_reset_token := password_reset_token u;
     password_reset_expires := password_reset_expires u;
     avatar_url := avatar_url u; is_superuser := is_superuser u;
     is_tenant_admin := is_tenant_admin u; tenant_id := tenant_id u |}.

Definition with_locked_until (l : option datetime) (u : t) : t :=
  {| id := id u; is_active := is_active u; email := email u;
     first_name := first_name u; last_name := last_name u;
     hashed_password := hashed_password u;
     is_email_verified := is_email_verified u;
     email_verification_token := email_verification_token u;
     failed_login_attempts := failed_login_attempts u;
     locked_until := l;
     password_reset_token := password_reset_token u;
     password_reset_expires := password_reset_expires u;
     avatar_url := avatar_url u; is_superuser := is_superuser u;
     is_tenant_admin := is_tenant_admin u; tenant_id := tenant_id u |}.

Definition with_email_verified (u : t) : t :=
  {| id := id u; is_active := is_active u; email := email u;
     first_name := first_name u; last_name := last_name u;
     hashed_password := hashed_password u;
     is_email_verified := true;
     email_verification_token := None;
     failed_login_attempts := failed_login_attempts u;
     locked_until := locked_until u;
     password_reset_token := password_reset_token u;
     password_reset_expires := password_reset_expires u;
     avatar_url := avatar_url u; is_superuser := is_superuser u;
     is_tenant_admin := is_tenant_admin u; tenant_id := tenant_id u |}.

Definition with_password_reset (h : string) (u : t) : t :=
  {| id := id u; is_active := is_active u; email := email u;
     first_name := first_name u; last_name := last_name u;
     hashed_password := Some h;
     is_email_verified := is_email_verified u;
     email_verification_token := email_verification_token u;
     failed_login_attempts := failed_login_attempts u;
     locked_until := locked_until u;
     password_reset_token := None;
     password_reset_expires := None;
     avatar_url := avatar_url u; is_superuser := is_superuser u;
     is_tenant_admin := is_tenant_admin u; tenant_id := tenant_id u |}.

Section WithGlobals.
Context `{G : Globals}.

Definition verify_password (u : t) (password : string) : bool :=
  match hashed_password u with
  | None => false
  | Some h => pwd_context_verify password h
  end.

(** [set_password] followed by clearing the reset fields, as
    [verify_password_reset] does. *)
Definition set_password_and_clear_reset (password : string) (u : t) : t :=
  with_password_reset (pwd_context_hash password) u.
End WithGlobals.

End User.

Module AuthToken.

Record t : Type := {
  id : string;
  token_type : string;
  token_hash : Security.digest;
  expires_at : datetime;
  is_revoked : bool;
  user_agent : option string;
  ip_address : option string;
  last_used_at : option datetime;
  user_id : string
}.

Definition with_is_revoked (b : bool) (r : t) : t :=
  {| id := id r; token_type := token_type r; token_hash := token_hash r;
     expires_at := expires_at r; is_revoked := b;
     user_agent := user_agent r; ip_address := ip_address r;
     last_used_at := last_used_at r; user_id := user_id r |}.

Definition with_last_used_at (l : option datetime) (r : t) : t :=
  {| id := id r; token_type := token_type r; token_hash := token_hash r;
     expires_at := expires_at r; is_revoked := is_revoked r;
     user_agent := user_agent r; ip_address := ip_address r;
     last_used_at := l; user_id := user_id r |}.

(** [is_expired]: [datetime.utcnow() > self.expires_at] *)
Definition is_expired (now : datetime) (r : t) : bool := expires_at r <? now.

Definition is_valid (now : datetime) (r : t) : bool :=
  negb (is_revoked r || is_expired now r).

End AuthToken.

(** What a provider returns (the JSON documents of the token and the
  user-info endpoints, with the keys the service reads). *)
Module Provider.

(** A scalar value of the answer: providers send a string or a number
    under ['id'], and a string or a null under ['name']. *)
Inductive json : Type :=
| JNull
| JBool (b : bool)
| JNumber (n : Z)
| JString (s : string).

(** [user_info]: a key that is absent is [None].  The keys that are
    read with [.get(key)] do not tell an absent key from a null; ['name']
    is read with [.get('name', '')], which does. *)
Record user_info : Type := {
  id : option json;
  email : option string;
  name : option json;
  given_name : option string;
  family_name : option string;
  login : option string;
  username : option string;
  avatar_url : option string;
  picture : option string
}.

Record tokens : Type := {
  access_token : option string;
  refresh_token : option string;
  expires_in : option Z
}.

(** [str(v)] for [v = user_info.get('id')]: a missing key and a JSON
    null are both Python's [None], whose [str] is the text "None". *)
Definition str (v : option json) : string :=
  match v with
  | None => "None"
  | Some JNull => "None"
  | Some (JBool true) => "True"
  | Some (JBool false) => "False"
  | Some (JNumber n) => NilZero.string_of_int (Z.to_int n)
  | Some (JString s) => s
  end.

End Provider.

Module OAuth2Account.

Record t : Type := {
  id : string;
  provider : string;
  provider_user_id : string;
  provider_username : option string;
  provider_email : option string;
  access_token : option string;
  refresh_token : option string;
  expires_at : option datetime;
  provider_data : option Provider.user_info;
  user_id : string
}.

(** The three assignments of the "account exists" branch. *)
Definition with_tokens (a r : option string) (e : option datetime) (o : t) : t :=
  {| id := id o; provider := provider o;
     provider_user_id := provider_user_id o;
     provider_username := provider_username o;
     provider_email := provider_email o;
     access_token := a; refresh_token := r; expires_at := e;
     provider_data := provider_data o; user_id := user_id o |}.

End OAuth2Account.

(** [encryption.encrypt] / [encryption.decrypt]: Fernet under the one
  process-wide key, so decryption of a stored value returns what was
  encrypted. *)
Module Encryption.

Inductive ciphertext (A : Type) : Type :=
| Fernet (plain : A).
Arguments Fernet {A} plain.

Definition encrypt {A} (data : A) : ciphertext A := Fernet data.
Definition decrypt {A} (c : ciphertext A) : A :=
  match c with Fernet data => data end.

(** The number of characters of the Fernet token of a plaintext of [n]
    bytes: the url-safe base64 text, padding included, of one version
    byte, eight bytes of time, the sixteen of the IV, the plaintext
    padded to the next multiple of sixteen, and the thirty-two of the
    HMAC. *)
Definition token_length (n : Z) : Z :=
  4 * ((57 + 16 * (n / 16 + 1) + 2) / 3).

(** [len(encryption.encrypt(data))] *)
Definition text_length (c : ciphertext string) : Z :=
  match c with
  | Fernet plain => token_length (Z.of_nat (String.length plain))
  end.

End Encryption.

Module TwoFactorAuth.

(** [backup_codes] holds the encrypted [json.dumps] of the list of
    codes; [json.loads] of the decrypted text is that list. *)
Record t : Type := {
  id : string;
  secret_key : Encryption.ciphertext string;
  backup_codes : Encryption.ciphertext (list string);
  is_enabled : bool;
  last_used_at : option datetime;
  user_id : string
}.

(** [secret_key = Column(String(32), ...)]: the width of the column;
    [backup_codes] is a [Text] column, without one. *)
Definition secret_key_size : Z := 32.

Definition with_is_enabled (b : bool) (r : t) : t :=
  {| id := id r; secret_key := secret_key r; backup_codes := backup_codes r;
     is_enabled := b; last_used_at := last_used_at r; user_id := user_id r |}.

Definition with_last_used_at (l : option datetime) (r : t) : t :=
  {| id := id r; secret_key := secret_key r; backup_codes := backup_codes r;
     is_enabled := is_enabled r; last_used_at := l; user_id := user_id r |}.

Definition with_backup_codes (c : Encryption.ciphertext (list string)) (r : t) : t :=
  {| id := id r; secret_key := secret_key r; backup_codes := c;
     is_enabled := is_enabled r; last_used_at := last_used_at r;
     user_id := user_id r |}.

Definition with_secret_key (c : Encryption.ciphertext string) (r : t) : t :=
  {| id := id r; secret_key := c; backup_codes := backup_codes r;
     is_enabled := is_enabled r; last_used_at := last_used_at r;
     user_id := user_id r |}.

End TwoFactorAuth.

Module Tenant.

Record t : Type := {
  id : string;
  is_active : bool;
  name : string;
  subdomain : string;
  is_suspended : bool
}.

End Tenant.

(** The committed contents of the tables the services touch. *)
Module Db.

Record t : Type := {
  users : list User.t;
  auth_tokens : list AuthToken.t;
  oauth2_accounts : list OAuth2Account.t;
  two_factor_auth : list TwoFactorAuth.t;
  tenants : list Tenant.t
}.

Definition with_users (us : list User.t) (d : t) : t :=
  {| users := us; auth_tokens := auth_tokens d;
     oauth2_accounts := oauth2_accounts d;
     two_factor_auth := two_factor_auth d; tenants := tenants d |}.

Definition with_auth_tokens (ts : list AuthToken.t) (d : t) : t :=
  {| users := users d; auth_tokens := ts;
     oauth2_accounts := oauth2_accounts d;
     two_factor_auth := two_factor_auth d; tenants := tenants d |}.

Definition with_oauth2_accounts (os : list OAuth2Account.t) (d : t) : t :=
  {| users := users d; auth_tokens := auth_tokens d;
     oauth2_accounts := os;
     two_factor_auth := two_factor_auth d; tenants := tenants d |}.

Definition with_two_factor_auth (fs : list TwoFactorAuth.t) (d : t) : t :=
  {| users := users d; auth_tokens := auth_tokens d;
     oauth2_accounts := oauth2_accounts d;
     two_factor_auth := fs; tenants := tenants d |}.

(** Committing one mutated object. *)
Definition commit_user (u : User.t) (d : t) : t :=
  with_users (Sql.write User.id u (users d)) d.

Definition commit_auth_token (r : AuthToken.t) (d : t) : t :=
  with_auth_tokens (Sql.write AuthToken.id r (auth_tokens d)) d.

Definition commit_oauth2_account (o : OAuth2Account.t) (d : t) : t :=
  with_oauth2_accounts (Sql.write OAuth2Account.id o (oauth2_accounts d)) d.

Definition commit_two_factor_auth (r : TwoFactorAuth.t) (d : t) : t :=
  with_two_factor_auth (Sql.write TwoFactorAuth.id r (two_factor_auth d)) d.

End Db.

(* ================================================================== *)
(** * app/services/auth_service.py                                     *)
(* ================================================================== *)

Module AuthService.

Record TokenResponse : Type := {
  access_token : Security.token;
  refresh_token : Security.token;
  token_type : string;
  expires_in : Z
}.

(** How the storage layer behaves during one call: it works, or the
    driver raises on the first statement, or it raises on commit. *)
Inductive storage : Type :=
| Healthy
| FailsOnExecute
| FailsOnCommit.

Definition execute {A} (st : storage) (rows : list A) : result (list A) :=
  match st with
  | FailsOnExecute => Raise OperationalError
  | _ => Ok rows
  end.

(** [commit]: the pending state [d'] becomes the committed one, or the
    driver raises and the committed state stays [d]. *)
Definition commit (st : storage) (d d' : Db.t) : result unit * Db.t :=
  match st with
  | FailsOnCommit => (Raise OperationalError, d)
  | _ => (Ok tt, d')
  end.

Section WithGlobals.
Context `{G : Globals}.

Definition locked (user : User.t) (now : datetime) : bool :=
  match User.locked_until user with
  | Some t => now <? t
  | None => false
  end.

Definition select_user_by_email (d : Db.t) (email : string)
  : result (option User.t) :=
  Sql.scalar_one_or_none
    (filter (fun u => String.eqb (User.email u) email) (Db.users d)).

Definition select_user_by_id (d : Db.t) (user_id : string)
  : result (option User.t) :=
  Sql.scalar_one_or_none
    (filter (fun u => String.eqb (User.id u) user_id) (Db.users d)).

(** The object after a password mismatch (lines 55-59). *)
Definition record_failed_attempt (user : User.t) (now : datetime) : User.t :=
  let user1 :=
    User.with_failed_login_attempts (User.failed_login_attempts user + 1) user in
  if 5 <=? User.failed_login_attempts user1
  then User.with_locked_until (Some (now + minutes 30)) user1
  else user1.

(** The object after a successful login (lines 75-76). *)
Definition reset_failed_attempts (user : User.t) : User.t :=
  User.with_locked_until None (User.with_failed_login_attempts 0 user).

Definition authenticate_user (d : Db.t) (email password : string)
    (now : datetime) : result User.t * Db.t :=
  match select_user_by_email d email with
  | Raise e => (Raise e, d)
  | Ok None => (Raise (AuthenticationError "Invalid credentials"), d)
  | Ok (Some user) =>
      if locked user now then
        (Raise (AuthenticationError "Account is temporarily locked"), d)
      else if negb (User.verify_password user password) then
        let user' := record_failed_attempt user now in
        (Raise (AuthenticationError "Invalid credentials"),
         Db.commit_user user' d)
      else
        let user' := reset_failed_attempts user in
        (Ok user', Db.commit_user user' d)
  end.

Definition token_data (user : User.t) : Security.payload :=
  {| Security.sub := Some (User.id user);
     Security.email := Some (User.email user);
     Security.tenant_id := Some (User.tenant_id user);
     Security.is_superuser := Some (User.is_superuser user);
     Security.is_tenant_admin := Some (User.is_tenant_admin user);
     Security.exp := None; Security.type := None |}.

Definition sub_only (user : User.t) : Security.payload :=
  {| Security.sub := Some (User.id user);
     Security.email := None; Security.tenant_id := None;
     Security.is_superuser := None; Security.is_tenant_admin := None;
     Security.exp := None; Security.type := None |}.

(** [create_tokens]; [new_id] is the primary key the new row gets. *)
Definition create_tokens (d : Db.t) (user : User.t)
    (ip_address user_agent : string) (new_id : string) (now : datetime)
  : TokenResponse * Db.t :=
  let access := Security.create_access_token now (token_data user) in
  let refresh := Security.create_refresh_token now (sub_only user) in
  let db_token :=
    {| AuthToken.id := new_id;
       AuthToken.token_type := "refresh";
       AuthToken.token_hash := Security.hash_token refresh;
       AuthToken.expires_at :=
         now + days (REFRESH_TOKEN_EXPIRE_DAYS settings);
       AuthToken.is_revoked := false;
       AuthToken.user_agent := Some user_agent;
       AuthToken.ip_address := Some ip_address;
       AuthToken.last_used_at := None;
       AuthToken.user_id := User.id user |} in
  ({| access_token := access; refresh_token := refresh;
      token_type := "bearer";
      expires_in := ACCESS_TOKEN_EXPIRE_MINUTES settings * 60 |},
   Db.with_auth_tokens (Sql.add db_token (Db.auth_tokens d)) d).

(** The query of [refresh_access_token] (lines 137-143). *)
Definition select_refresh_token (d : Db.t) (h : Security.digest)
  : list AuthToken.t :=
  filter (fun r => Security.digest_eqb (AuthToken.token_hash r) h
                   && String.eqb (AuthToken.token_type r) "refresh"
                   && negb (AuthToken.is_revoked r))
         (Db.auth_tokens d).

(** The body of the [try] block of [refresh_access_token]. *)
Definition refresh_body (d : Db.t) (refresh_token : Security.token)
    (now : datetime) : result (TokenResponse * Db.t) :=
  let* payload := Security.verify_token now refresh_token "refresh" in
  let user_id := Security.sub payload in
  if negb (truthy_str user_id) then
    Raise (AuthenticationError "Invalid token payload")
  else
  let* db_token :=
    Sql.scalar_one_or_none
      (select_refresh_token d (Security.hash_token refresh_token)) in
  match db_token with
  | None => Raise (AuthenticationError "Invalid or expired refresh token")
  | Some db_token =>
      if AuthToken.is_expired now db_token then
        Raise (AuthenticationError "Invalid or expired refresh token")
      else
      let* user :=
        select_user_by_id d (match user_id with Some i => i | None => "" end) in
      match user with
      | None => Raise (AuthenticationError "User not found or inactive")
      | Some user =>
          if negb (User.is_active user) then
            Raise (AuthenticationError "User not found or inactive")
          else
            let db_token' := AuthToken.with_last_used_at (Some now) db_token in
            let access :=
              Security.create_access_token now (token_data user) in
            Ok ({| access_token := access;
                   refresh_token := refresh_token;
                   token_type := "bearer";
                   expires_in := ACCESS_TOKEN_EXPIRE_MINUTES settings * 60 |},
                Db.commit_auth_token db_token' d)
      end
  end.

(** [refresh_access_token]: every exception of the body is replaced by
    one [AuthenticationError]; nothing was committed in that case. *)
Definition refresh_access_token (d : Db.t) (refresh_token : Security.token)
    (now : datetime) : result TokenResponse * Db.t :=
  match refresh_body d refresh_token now with
  | Ok (response, d') => (Ok response, d')
  | Raise _ => (Raise (AuthenticationError "Token refresh failed"), d)
  end.

(** The query of [revoke_token] (lines 198-204). *)
Definition select_token_of_user (d : Db.t) (h : Security.digest)
    (user_id : string) : list AuthToken.t :=
  filter (fun r => Security.digest_eqb (AuthToken.token_hash r) h
                   && String.eqb (AuthToken.user_id r) user_id
                   && String.eqb (AuthToken.token_type r) "refresh")
         (Db.auth_tokens d).

Definition revoke_token_body (st : storage) (d : Db.t)
    (refresh_token : Security.token) (user_id : string)
  : result bool * Db.t :=
  match execute st (select_token_of_user d
                      (Security.hash_token refresh_token) user_id) with
  | Raise e => (Raise e, d)
  | Ok rows =>
      match Sql.scalar_one_or_none rows with
      | Raise e => (Raise e, d)
      | Ok None => (Ok false, d)
      | Ok (Some db_token) =>
          match commit st d
                  (Db.commit_auth_token
                     (AuthToken.with_is_revoked true db_token) d) with
          | (Raise e, d') => (Raise e, d')
          | (Ok _, d') => (Ok true, d')
          end
      end
  end.

(** [revoke_token]: [except Exception: ... return False]. *)
Definition revoke_token (st : storage) (d : Db.t)
    (refresh_token : Security.token) (user_id : string)
  : result bool * Db.t :=
  match revoke_token_body st d refresh_token user_id with
  | (Raise _, d') => (Ok false, d')
  | r => r
  end.

(** The query of [revoke_all_user_tokens] (lines 227-233). *)
Definition select_active_tokens (d : Db.t) (user_id : string)
  : list AuthToken.t :=
  filter (fun r => String.eqb (AuthToken.user_id r) user_id
                   && String.eqb (AuthToken.token_type r) "refresh"
                   && negb (AuthToken.is_revoked r))
         (Db.auth_tokens d).

(** The [for] loop (lines 236-239): every selected object is marked,
    and counted. *)
Fixpoint revoke_each (tokens : list AuthToken.t) (count : Z) (d : Db.t)
  : Z * Db.t :=
  match tokens with
  | [] => (count, d)
  | token :: rest =>
      revoke_each rest (count + 1)
        (Db.commit_auth_token (AuthToken.with_is_revoked true token) d)
  end.

Definition revoke_all_body (st : storage) (d : Db.t) (user_id : string)
  : result Z * Db.t :=
  match execute st (select_active_tokens d user_id) with
  | Raise e => (Raise e, d)
  | Ok tokens =>
      let (count, pending) := revoke_each tokens 0 d in
      match commit st d pending with
      | (Raise e, d') => (Raise e, d')
      | (Ok _, d') => (Ok count, d')
      end
  end.

(** [revoke_all_user_tokens]: [except Exception: ... return 0]. *)
Definition revoke_all_user_tokens (st : storage) (d : Db.t)
    (user_id : string) : result Z * Db.t :=
  match revoke_all_body st d user_id with
  | (Raise _, d') => (Ok 0, d')
  | r => r
  end.

End WithGlobals.

End AuthService.

(* ================================================================== *)
(** * app/core/redis.py                                                *)
(* ================================================================== *)

Module RedisCache.

(** Whether a call reaches the Redis server. *)
Inductive link : Type :=
| Up
| Down.

(** The JSON object the passwordless flows store under a token key. *)
Record token_data : Type := {
  user_id : option string;
  email : option string;
  ip_address : option string;
  created_at : option datetime
}.

(** The server: keys with their value and the time they expire. *)
Definition t : Type := list (string * (token_data * datetime)).

Definition lookup (now : datetime) (key : string) (c : t) : option token_data :=
  match find (fun e => String.eqb (fst e) key) c with
  | Some (_, (v, expires)) => if now <? expires then Some v else None
  | None => None
  end.

Definition remove (key : string) (c : t) : t :=
  filter (fun e => negb (String.eqb (fst e) key)) c.

(** [get]: [None] for a missing or expired key, and [None] as well when
    the call raises ([except Exception: ... return None]). *)
Definition get (l : link) (now : datetime) (key : string) (c : t)
  : option token_data :=
  match l with
  | Up => lookup now key c
  | Down => None
  end.

(** [set]: [setex(key, expire, value)]; [False] when the call raises. *)
Definition set (l : link) (now : datetime) (key : string) (value : token_data)
    (expire : Z) (c : t) : bool * t :=
  match l with
  | Up => (true, (key, (value, now + expire)) :: remove key c)
  | Down => (false, c)
  end.

(** [delete]: [False] when the call raises, and the key stays. *)
Definition delete (l : link) (key : string) (c : t) : bool * t :=
  match l with
  | Up => (true, remove key c)
  | Down => (false, c)
  end.

End RedisCache.

(* ================================================================== *)
(** * app/services/passwordless_service.py                             *)
(* ================================================================== *)

Module PasswordlessService.

Section WithGlobals.
Context `{G : Globals}.

Definition magic_link_key (token : string) : string := "magic_link:" ++ token.
Definition email_verify_key (token : string) : string := "email_verify:" ++ token.
Definition password_reset_key (token : string) : string := "password_reset:" ++ token.

(** [self.db.get(User, user_id)] with the [user_id] read from the cached
    object. *)
Definition get_user (d : Db.t) (user_id : option string) : option User.t :=
  match user_id with
  | Some i => Sql.get User.id i (Db.users d)
  | None => None
  end.

(** The [try] block of [verify_magic_link]; [l_get] and [l_del] say
    whether its two cache calls reach the server.  The result of
    [cache.delete] is not looked at. *)
Definition verify_magic_link_body (l_get l_del : RedisCache.link)
    (c : RedisCache.t) (d : Db.t) (token : string) (now : datetime)
  : result User.t * RedisCache.t :=
  match RedisCache.get l_get now (magic_link_key token) c with
  | None => (Raise (AuthenticationError "Invalid or expired magic link"), c)
  | Some token_data =>
      match get_user d (RedisCache.user_id token_data) with
      | None => (Raise (AuthenticationError "User not found or inactive"), c)
      | Some user =>
          if negb (User.is_active user) then
            (Raise (AuthenticationError "User not found or inactive"), c)
          else
            (Ok user, snd (RedisCache.delete l_del (magic_link_key token) c))
      end
  end.

Definition verify_magic_link (l_get l_del : RedisCache.link)
    (c : RedisCache.t) (d : Db.t) (token : string) (now : datetime)
  : result User.t * RedisCache.t :=
  match verify_magic_link_body l_get l_del c d token now with
  | (Raise _, c') =>
      (Raise (AuthenticationError "Invalid or expired magic link"), c')
  | r => r
  end.

(** [update(User).where(User.id == user_id).values(...)]: the updated
    table and the row count. *)
Definition mark_email_verified (user_id : option string) (users : list User.t)
  : list User.t * nat :=
  let hit (u : User.t) :=
    match user_id with
    | Some i => String.eqb (User.id u) i
    | None => false
    end in
  (map (fun u => if hit u then User.with_email_verified u else u) users,
   length (filter hit users)).

(** [verify_email] and [verify_password_reset]: every exception raised
    in the [try] block is replaced by one [ValidationError], and nothing
    was committed in that case. *)
Definition verify_email (l_get l_del : RedisCache.link)
    (c : RedisCache.t) (d : Db.t) (token : string) (now : datetime)
  : result bool * (Db.t * RedisCache.t) :=
  match RedisCache.get l_get now (email_verify_key token) c with
  | None => (Raise (ValidationError "Email verification failed"), (d, c))
  | Some token_data =>
      let (users', rowcount) :=
        mark_email_verified (RedisCache.user_id token_data) (Db.users d) in
      if Nat.eqb rowcount 0 then
        (Raise (ValidationError "Email verification failed"), (d, c))
      else
        (Ok true,
         (Db.with_users users' d,
          snd (RedisCache.delete l_del (email_verify_key token) c)))
  end.

Definition verify_password_reset (l_get l_del : RedisCache.link)
    (c : RedisCache.t) (d : Db.t) (token new_password : string)
    (now : datetime) : result bool * (Db.t * RedisCache.t) :=
  match RedisCache.get l_get now (password_reset_key token) c with
  | None => (Raise (ValidationError "Password reset failed"), (d, c))
  | Some token_data =>
      match get_user d (RedisCache.user_id token_data) with
      | None => (Raise (ValidationError "Password reset failed"), (d, c))
      | Some user =>
          let user' := User.set_password_and_clear_reset new_password user in
          (Ok true,
           (Db.commit_user user' d,
            snd (RedisCache.delete l_del (password_reset_key token) c)))
      end
  end.

(** ** [verify_magic_link] as a coroutine

    The function gives control back to the event loop at each [await]:
    after [cache.get], after [db.get] and after [cache.delete].  A
    coroutine is the program point it is suspended at; [resume] runs it
    to its next [await] on the shared cache. *)
Inductive coroutine : Type :=
| AwaitCacheGet
| AwaitDbGet (token_data : option RedisCache.token_data)
| AwaitCacheDelete (user : User.t)
| Returned (user : User.t)
| Raised (e : exn).

Definition resume (d : Db.t) (token : string) (now : datetime)
    (k : coroutine) (c : RedisCache.t) : coroutine * RedisCache.t :=
  match k with
  | AwaitCacheGet =>
      (AwaitDbGet (RedisCache.get RedisCache.Up now (magic_link_key token) c), c)
  | AwaitDbGet None =>
      (Raised (AuthenticationError "Invalid or expired magic link"), c)
  | AwaitDbGet (Some token_data) =>
      match get_user d (RedisCache.user_id token_data) with
      | None => (Raised (AuthenticationError "Invalid or expired magic link"), c)
      | Some user =>
          if negb (User.is_active user) then
            (Raised (AuthenticationError "Invalid or expired magic link"), c)
          else (AwaitCacheDelete user, c)
      end
  | AwaitCacheDelete user =>
      (Returned user,
       snd (RedisCache.delete RedisCache.Up (magic_link_key token) c))
  | Returned user => (Returned user, c)
  | Raised e => (Raised e, c)
  end.

(** Two requests for the same token on one event loop; the schedule says
    which one runs next ([true]: the first). *)
Fixpoint interleave (d : Db.t) (token : string) (now : datetime)
    (schedule : list bool) (k1 k2 : coroutine) (c : RedisCache.t)
  : coroutine * coroutine * RedisCache.t :=
  match schedule with
  | [] => (k1, k2, c)
  | true :: rest =>
      let (k1', c') := resume d token now k1 c in
      interleave d token now rest k1' k2 c'
  | false :: rest =>
      let (k2', c') := resume d token now k2 c in
      interleave d token now rest k1 k2' c'
  end.

End WithGlobals.

End PasswordlessService.

(* ================================================================== *)
(** * app/services/totp_service.py                                     *)
(* ================================================================== *)

Module TOTPService.

Section WithGlobals.
Context `{G : Globals}.

(** pyotp: [interval = 30]; [timecode] is [int(timestamp / interval)]. *)
Definition interval : Z := 30.
Definition timecode (now : datetime) : Z := Z.quot now interval.

(** [range(-window, window + 1)] *)
Definition window_range (window : Z) : list Z :=
  map (fun k => Z.of_nat k - window) (seq 0 (Z.to_nat (2 * window + 1))).

(** [pyotp.TOTP(secret).verify(code, valid_window=window)]: the code is
    compared with the code of each time step of the window in turn, by
    [utils.strings_equal], which compares the NFKC normal forms of the
    two texts; [None] when generating a code raises. *)
Fixpoint verify_steps (secret_key code : string) (tc : Z) (offsets : list Z)
  : option bool :=
  match offsets with
  | [] => Some false
  | i :: rest =>
      match generate_otp secret_key (tc + i) with
      | None => None
      | Some otp =>
          if String.eqb (nfkc code) (nfkc otp) then Some true
          else verify_steps secret_key code tc rest
      end
  end.

(** [verify_totp_code]: [except Exception: ... return False]. *)
Definition verify_totp_code (secret_key code : string) (now : datetime)
    (window : Z) : bool :=
  match verify_steps secret_key code (timecode now) (window_range window) with
  | Some b => b
  | None => false
  end.

(** The default of the [window] parameter, which every caller uses. *)
Definition default_window : Z := 1.

Definition verify_backup_code (backup_codes : list string) (code : string)
  : bool * list string :=
  let code_upper := strip (upper code) in
  if str_in code_upper backup_codes then
    (true, filter (fun c => negb (String.eqb c code_upper)) backup_codes)
  else (false, backup_codes).

Definition select_2fa (d : Db.t) (user_id : string) : list TwoFactorAuth.t :=
  filter (fun r => String.eqb (TwoFactorAuth.user_id r) user_id)
         (Db.two_factor_auth d).

Definition select_enabled_2fa (d : Db.t) (user_id : string)
  : list TwoFactorAuth.t :=
  filter (fun r => String.eqb (TwoFactorAuth.user_id r) user_id
                   && TwoFactorAuth.is_enabled r)
         (Db.two_factor_auth d).

Record setup_data : Type := {
  setup_secret_key : string;
  setup_backup_codes : list string
}.

(** [setup_2fa]; the freshly generated secret and backup codes and the
    primary key of a new row are inputs.  The QR image is left out.
    The commit (line 110) sends the new or the updated row to
    PostgreSQL, which refuses a text that is longer than its column:
    the commit raises, the function has no handler, and nothing is
    stored. *)
Definition setup_2fa (d : Db.t) (user_id : string)
    (secret_key : string) (backup_codes : list string) (new_id : string)
  : result setup_data * Db.t :=
  match Sql.get User.id user_id (Db.users d) with
  | None => (Raise (NotFoundError "User not found"), d)
  | Some _ =>
      match Sql.scalar_one_or_none (select_2fa d user_id) with
      | Raise e => (Raise e, d)
      | Ok existing_2fa =>
          let encrypted_secret := Encryption.encrypt secret_key in
          let encrypted_backup_codes := Encryption.encrypt backup_codes in
          let d' :=
            match existing_2fa with
            | Some existing =>
                Db.commit_two_factor_auth
                  (TwoFactorAuth.with_is_enabled false
                     (TwoFactorAuth.with_backup_codes encrypted_backup_codes
                        (TwoFactorAuth.with_secret_key encrypted_secret existing)))
                  d
            | None =>
                Db.with_two_factor_auth
                  (Sql.add
                     {| TwoFactorAuth.id := new_id;
                        TwoFactorAuth.secret_key := encrypted_secret;
                        TwoFactorAuth.backup_codes := encrypted_backup_codes;
                        TwoFactorAuth.is_enabled := false;
                        TwoFactorAuth.last_used_at := None;
                        TwoFactorAuth.user_id := user_id |}
                     (Db.two_factor_auth d))
                  d
            end in
          if TwoFactorAuth.secret_key_size
             <? Encryption.text_length encrypted_secret then
            (Raise DBAPIError, d)
          else
            (Ok {| setup_secret_key := secret_key;
                   setup_backup_codes := backup_codes |}, d')
      end
  end.

Definition verify_2fa_setup (d : Db.t) (user_id code : string) (now : datetime)
  : result bool * Db.t :=
  match Sql.scalar_one_or_none (select_2fa d user_id) with
  | Raise e => (Raise e, d)
  | Ok None => (Raise (NotFoundError "2FA setup not found"), d)
  | Ok (Some two_factor_auth) =>
      let secret_key := Encryption.decrypt (TwoFactorAuth.secret_key two_factor_auth) in
      if verify_totp_code secret_key code now default_window then
        (Ok true,
         Db.commit_two_factor_auth
           (TwoFactorAuth.with_is_enabled true two_factor_auth) d)
      else (Ok false, d)
  end.

Definition disable_2fa (d : Db.t) (user_id code : string) (now : datetime)
  : result bool * Db.t :=
  match Sql.scalar_one_or_none (select_2fa d user_id) with
  | Raise e => (Raise e, d)
  | Ok None => (Ok false, d)
  | Ok (Some two_factor_auth) =>
      if negb (TwoFactorAuth.is_enabled two_factor_auth) then (Ok false, d)
      else
        let secret_key := Encryption.decrypt (TwoFactorAuth.secret_key two_factor_auth) in
        let backup_codes := Encryption.decrypt (TwoFactorAuth.backup_codes two_factor_auth) in
        let is_valid_totp := verify_totp_code secret_key code now default_window in
        let is_valid_backup := fst (verify_backup_code backup_codes code) in
        if is_valid_totp || is_valid_backup then
          (Ok true,
           Db.commit_two_factor_auth
             (TwoFactorAuth.with_is_enabled false two_factor_auth) d)
        else (Ok false, d)
  end.

(** [verify_2fa_login].  The only binding of the name [datetime] in this
    function is the [from datetime import datetime] inside the TOTP
    branch (line 198), which makes [datetime] a local variable of the
    whole function; the module has no import of it.  The backup-code
    branch reads it at line 208 without having bound it, so the
    interpreter raises [UnboundLocalError] there, before the commit. *)
Definition verify_2fa_login (d : Db.t) (user_id code : string) (now : datetime)
  : result bool * Db.t :=
  match Sql.scalar_one_or_none (select_enabled_2fa d user_id) with
  | Raise e => (Raise e, d)
  | Ok None => (Ok false, d)
  | Ok (Some two_factor_auth) =>
      let secret_key := Encryption.decrypt (TwoFactorAuth.secret_key two_factor_auth) in
      let backup_codes := Encryption.decrypt (TwoFactorAuth.backup_codes two_factor_auth) in
      if verify_totp_code secret_key code now default_window then
        (Ok true,
         Db.commit_two_factor_auth
           (TwoFactorAuth.with_last_used_at (Some now) two_factor_auth) d)
      else
        let (is_valid_backup, updated_codes) :=
          verify_backup_code backup_codes code in
        if is_valid_backup then
          (Raise (UnboundLocalError "datetime"), d)
        else (Ok false, d)
  end.

(** [regenerate_backup_codes]; the new codes are an input. *)
Definition regenerate_backup_codes (d : Db.t) (user_id code : string)
    (new_backup_codes : list string) (now : datetime)
  : result (option (list string)) * Db.t :=
  match Sql.scalar_one_or_none (select_enabled_2fa d user_id) with
  | Raise e => (Raise e, d)
  | Ok None => (Ok None, d)
  | Ok (Some two_factor_auth) =>
      let secret_key := Encryption.decrypt (TwoFactorAuth.secret_key two_factor_auth) in
      if negb (verify_totp_code secret_key code now default_window) then (Ok None, d)
      else
        (Ok (Some new_backup_codes),
         Db.commit_two_factor_auth
           (TwoFactorAuth.with_backup_codes
              (Encryption.encrypt new_backup_codes) two_factor_auth) d)
  end.

(** The calls of the service that write the [two_factor_auth] table. *)
Inductive call : Type :=
| SetupCall (user_id secret_key : string) (backup_codes : list string) (new_id : string)
| VerifySetupCall (user_id code : string)
| DisableCall (user_id code : string)
| VerifyLoginCall (user_id code : string)
| RegenerateCall (user_id code : string) (new_backup_codes : list string).

Definition run (d : Db.t) (c : call) (now : datetime) : Db.t :=
  match c with
  | SetupCall user_id secret_key backup_codes new_id =>
      snd (setup_2fa d user_id secret_key backup_codes new_id)
  | VerifySetupCall user_id code => snd (verify_2fa_setup d user_id code now)
  | DisableCall user_id code => snd (disable_2fa d user_id code now)
  | VerifyLoginCall user_id code => snd (verify_2fa_login d user_id code now)
  | RegenerateCall user_id code new_backup_codes =>
      snd (regenerate_backup_codes d user_id code new_backup_codes now)
  end.

End WithGlobals.

End TOTPService.

(* ================================================================== *)
(** * app/services/oauth_service.py                                    *)
(* ================================================================== *)

Module OAuth2Service.

(** The interface the three provider classes implement; the results of
    the network calls are theirs to decide. *)
Record OAuth2Provider : Type := {
  exchange_code : string -> string -> result Provider.tokens;
  get_user_info : string -> result Provider.user_info
}.

(** [self.providers] *)
Record providers : Type := {
  google : OAuth2Provider;
  github : OAuth2Provider;
  microsoft : OAuth2Provider
}.

Definition get_provider (ps : providers) (provider_name : string)
  : result OAuth2Provider :=
  let key := lower provider_name in
  if String.eqb key "google" then Ok (google ps)
  else if String.eqb key "github" then Ok (github ps)
  else if String.eqb key "microsoft" then Ok (microsoft ps)
  else Raise (ValueError ("Unsupported OAuth2 provider: " ++ provider_name)).

(** The query on [(provider, provider_user_id)] (lines 270-275). *)
Definition select_oauth_account (d : Db.t) (provider_name provider_user_id : string)
  : list OAuth2Account.t :=
  filter (fun o => String.eqb (OAuth2Account.provider o) provider_name
                   && String.eqb (OAuth2Account.provider_user_id o) provider_user_id)
         (Db.oauth2_accounts d).

Definition select_user_by_email (d : Db.t) (email : string) : list User.t :=
  filter (fun u => String.eqb (User.email u) email) (Db.users d).

(** [expires_at] after the [if 'expires_in' in tokens] assignment. *)
Definition new_expires_at (tokens : Provider.tokens) (now : datetime)
    (old : option datetime) : option datetime :=
  match Provider.expires_in tokens with
  | Some n => Some (now + seconds n)
  | None => old
  end.

Definition text (s : option string) : string :=
  match s with Some s => s | None => "" end.

(** The [OAuth2Account(...)] both creating branches build. *)
Definition new_oauth_account (new_id provider_name provider_user_id email : string)
    (user_info : Provider.user_info) (access_token : string)
    (tokens : Provider.tokens) (user : User.t) (now : datetime)
  : OAuth2Account.t :=
  {| OAuth2Account.id := new_id;
     OAuth2Account.provider := provider_name;
     OAuth2Account.provider_user_id := provider_user_id;
     OAuth2Account.provider_username :=
       or_str (Provider.login user_info) (Provider.username user_info);
     OAuth2Account.provider_email := Some email;
     OAuth2Account.access_token := Some access_token;
     OAuth2Account.refresh_token := Provider.refresh_token tokens;
     OAuth2Account.expires_at := new_expires_at tokens now None;
     OAuth2Account.provider_data := Some user_info;
     OAuth2Account.user_id := User.id user |}.

(** The receiver of [.split(' ')] in [user_info.get('name', '').split(' ')]:
    the empty text when the key is absent, the value when it is a text.
    A null, which Microsoft's normalised answer carries for a missing
    [displayName], and the other values that are no text have no
    [split]. *)
Definition name_to_split (user_info : Provider.user_info) : result string :=
  match Provider.name user_info with
  | None => Ok ""
  | Some (Provider.JString s) => Ok s
  | Some Provider.JNull =>
      Raise (AttributeError "'NoneType' object has no attribute 'split'")
  | Some (Provider.JBool _) =>
      Raise (AttributeError "'bool' object has no attribute 'split'")
  | Some (Provider.JNumber _) =>
      Raise (AttributeError "'int' object has no attribute 'split'")
  end.

(** Lines 327 and 328.  The operand after an [or] is evaluated only when
    the one before it is falsy. *)
Definition first_name_of (user_info : Provider.user_info) : result string :=
  if truthy_str (Provider.given_name user_info) then
    Ok (text (Provider.given_name user_info))
  else
    let* full_name := name_to_split user_info in
    Ok (text (or_str (Some (before_space full_name)) (Some "User"))).

Definition last_name_of (user_info : Provider.user_info) : result string :=
  if truthy_str (Provider.family_name user_info) then
    Ok (text (Provider.family_name user_info))
  else
    let* full_name := name_to_split user_info in
    Ok (text (or_str (Some (after_space full_name)) (Some "Name"))).

(** The answers from which the names can be taken: the name is absent
    or a text, or both the given and the family name are there and the
    name is not looked at. *)
Definition names_readable (user_info : Provider.user_info) : Prop :=
  Provider.name user_info = None
  \/ (exists s, Provider.name user_info = Some (Provider.JString s))
  \/ (truthy_str (Provider.given_name user_info) = true
      /\ truthy_str (Provider.family_name user_info) = true).

(** The names, then the [User(...)] of the last branch with the column
    defaults. *)
Definition new_user (new_id email tenant_id : string)
    (user_info : Provider.user_info) : result User.t :=
  let* first_name := first_name_of user_info in
  let* last_name := last_name_of user_info in
  Ok
  {| User.id := new_id;
     User.is_active := true;
     User.email := email;
     User.first_name := first_name;
     User.last_name := last_name;
     User.hashed_password := None;
     User.is_email_verified := true;
     User.email_verification_token := None;
     User.failed_login_attempts := 0;
     User.locked_until := None;
     User.password_reset_token := None;
     User.password_reset_expires := None;
     User.avatar_url :=
       or_str (Provider.avatar_url user_info) (Provider.picture user_info);
     User.is_superuser := false;
     User.is_tenant_admin := false;
     User.tenant_id := tenant_id |}.

(** Lines 269-367: the three ways to the principal, once the subject id
    and the email passed the check. *)
Definition link_or_create (d : Db.t) (provider_name provider_user_id email : string)
    (user_info : Provider.user_info) (access_token : string)
    (tokens : Provider.tokens) (tenant_id new_user_id new_account_id : string)
    (now : datetime) : result User.t * Db.t :=
  match Sql.scalar_one_or_none
          (select_oauth_account d provider_name provider_user_id) with
  | Raise e => (Raise e, d)
  | Ok (Some oauth_account) =>
      let oauth_account' :=
        OAuth2Account.with_tokens (Some access_token)
          (Provider.refresh_token tokens)
          (new_expires_at tokens now (OAuth2Account.expires_at oauth_account))
          oauth_account in
      match Sql.get User.id (OAuth2Account.user_id oauth_account) (Db.users d) with
      | None => (Raise (AuthenticationError "User account is inactive"), d)
      | Some user =>
          if negb (User.is_active user) then
            (Raise (AuthenticationError "User account is inactive"), d)
          else (Ok user, Db.commit_oauth2_account oauth_account' d)
      end
  | Ok None =>
      match Sql.scalar_one_or_none (select_user_by_email d email) with
      | Raise e => (Raise e, d)
      | Ok (Some user) =>
          let oauth_account :=
            new_oauth_account new_account_id provider_name provider_user_id
              email user_info access_token tokens user now in
          (Ok user,
           Db.with_oauth2_accounts
             (Sql.add oauth_account (Db.oauth2_accounts d)) d)
      | Ok None =>
          match Sql.get Tenant.id tenant_id (Db.tenants d) with
          | None => (Raise (AuthenticationError "Invalid tenant"), d)
          | Some tenant =>
              if negb (Tenant.is_active tenant) then
                (Raise (AuthenticationError "Invalid tenant"), d)
              else
                match new_user new_user_id email tenant_id user_info with
                | Raise e => (Raise e, d)
                | Ok user =>
                    let oauth_account :=
                      new_oauth_account new_account_id provider_name
                        provider_user_id email user_info access_token tokens
                        user now in
                    (Ok user,
                     Db.with_oauth2_accounts
                       (Sql.add oauth_account (Db.oauth2_accounts d))
                       (Db.with_users (Sql.add user (Db.users d)) d))
                end
          end
      end
  end.

(** [authenticate_with_code]; [new_user_id] and [new_account_id] are the
    primary keys new rows get. *)
Definition authenticate_with_code (ps : providers) (d : Db.t)
    (provider_name code redirect_uri tenant_id : string)
    (new_user_id new_account_id : string) (now : datetime)
  : result User.t * Db.t :=
  match get_provider ps provider_name with
  | Raise e => (Raise e, d)
  | Ok provider =>
      match exchange_code provider code redirect_uri with
      | Raise e => (Raise e, d)
      | Ok tokens =>
          if negb (truthy_str (Provider.access_token tokens)) then
            (Raise (AuthenticationError "Failed to obtain access token"), d)
          else
            let access_token := text (Provider.access_token tokens) in
            match get_user_info provider access_token with
            | Raise e => (Raise e, d)
            | Ok user_info =>
                let provider_user_id := Provider.str (Provider.id user_info) in
                let email := Provider.email user_info in
                if negb (truthy_str (Some provider_user_id))
                   || negb (truthy_str email) then
                  (Raise (AuthenticationError
                            "Incomplete user information from provider"), d)
                else
                  link_or_create d provider_name provider_user_id (text email)
                    user_info access_token tokens tenant_id
                    new_user_id new_account_id now
            end
      end
  end.

(** The provider registered under [provider_name] answered the code
    exchange with [tokens], which hold an access token, and the user-info
    request made with that token with [user_info]. *)
Definition provider_answers (ps : providers)
    (provider_name code redirect_uri : string)
    (tokens : Provider.tokens) (user_info : Provider.user_info) : Prop :=
  exists provider,
    get_provider ps provider_name = Ok provider
    /\ exchange_code provider code redirect_uri = Ok tokens
    /\ truthy_str (Provider.access_token tokens) = true
    /\ get_user_info provider (text (Provider.access_token tokens))
       = Ok user_info.

End OAuth2Service.

(* ================================================================== *)
(** * app/services/totp_service.py: the status query                   *)
(* ================================================================== *)

Module TOTPStatus.

(** [is_2fa_enabled]: whether the query for an enabled credential of the
    principal gives a row. *)
Definition is_2fa_enabled (d : Db.t) (user_id : string) : result bool :=
  let* row := Sql.scalar_one_or_none (TOTPService.select_enabled_2fa d user_id) in
  Ok (match row with Some _ => true | None => false end).

End TOTPStatus.

(* ================================================================== *)
(** * app/middleware/auth.py                                           *)
(* ================================================================== *)

Module AuthMiddleware.

(** fastapi's [HTTPException], with the two fields the handlers set. *)
Record HTTPException : Type := {
  status_code : Z;
  detail : string
}.

(** What a dependency gives the endpoint: a value, or the
    [HTTPException] it raised. *)
Inductive outcome (A : Type) : Type :=
| Returns (a : A)
| Rejects (e : HTTPException).
Arguments Returns {A} a.
Arguments Rejects {A} e.

Section WithGlobals.
Context `{G : Globals}.

(** The [try] block of [get_current_user] (lines 31-48). *)
Definition current_user_body (d : Db.t) (token : Security.token)
    (now : datetime) : result User.t :=
  let* payload := Security.verify_token now token "access" in
  let user_id := Security.sub payload in
  if negb (truthy_str user_id) then
    Raise (AuthenticationError "Invalid token payload")
  else
    let* user :=
      AuthService.select_user_by_id d
        (match user_id with Some i => i | None => "" end) in
    match user with
    | None => Raise (AuthenticationError "User not found or inactive")
    | Some user =>
        if negb (User.is_active user) then
          Raise (AuthenticationError "User not found or inactive")
        else Ok user
    end.

(** [get_current_user]; [credentials] is the bearer token of the
    request, if it has one. *)
Definition get_current_user (d : Db.t) (credentials : option Security.token)
    (now : datetime) : outcome User.t :=
  match credentials with
  | None =>
      Rejects {| status_code := 401; detail := "Authentication required" |}
  | Some token =>
      match current_user_body d token now with
      | Ok user => Returns user
      | Raise (AuthenticationError _) =>
          Rejects {| status_code := 401; detail := "Invalid or expired token" |}
      | Raise _ =>
          Rejects {| status_code := 401; detail := "Authentication failed" |}
      end
  end.

(** The three dependencies built on [get_current_user]. *)
Definition get_current_active_user (d : Db.t)
    (credentials : option Security.token) (now : datetime) : outcome User.t :=
  match get_current_user d credentials now with
  | Returns current_user =>
      if negb (User.is_active current_user) then
        Rejects {| status_code := 400; detail := "Inactive user" |}
      else Returns current_user
  | Rejects e => Rejects e
  end.

Definition get_current_superuser (d : Db.t)
    (credentials : option Security.token) (now : datetime) : outcome User.t :=
  match get_current_user d credentials now with
  | Returns current_user =>
      if negb (User.is_superuser current_user) then
        Rejects {| status_code := 403; detail := "Not enough permissions" |}
      else Returns current_user
  | Rejects e => Rejects e
  end.

Definition get_current_tenant_admin (d : Db.t)
    (credentials : option Security.token) (now : datetime) : outcome User.t :=
  match get_current_user d credentials now with
  | Returns current_user =>
      if negb (User.is_superuser current_user
               || User.is_tenant_admin current_user) then
        Rejects {| status_code := 403;
                   detail := "Tenant admin permissions required" |}
      else Returns current_user
  | Rejects e => Rejects e
  end.

End WithGlobals.

End AuthMiddleware.

(* ================================================================== *)
(** * app/tasks/cleanup.py                                             *)
(* ================================================================== *)

Module Cleanup.

(** [cleanup_expired_tokens]:
    [delete(AuthToken).where(AuthToken.expires_at < utcnow())] and a
    commit; the number of deleted rows and the table that is left. *)
Definition cleanup_expired_tokens (now : datetime) (d : Db.t) : nat * Db.t :=
  let expired (r : AuthToken.t) := AuthToken.expires_at r <? now in
  (length (filter expired (Db.auth_tokens d)),
   Db.with_auth_tokens (filter (fun r => negb (expired r)) (Db.auth_tokens d)) d).

End Cleanup.

(* ================================================================== *)
(** * Text operations the middlewares use                              *)
(* ================================================================== *)

Module Text.

(** [sep in s], for a separator of one character. *)
Fixpoint contains (sep : ascii) (s : string) : bool :=
  match s with
  | EmptyString => false
  | String c s' => Ascii.eqb c sep || contains sep s'
  end.

(** [s.split(sep)]: the pieces between the separators, in order; a text
    without separator is its own single piece, the empty text too. *)
Fixpoint split (sep : ascii) (s : string) : list string :=
  match s with
  | EmptyString => [EmptyString]
  | String c s' =>
      if Ascii.eqb c sep then EmptyString :: split sep s'
      else
        match split sep s' with
        | piece :: pieces => String c piece :: pieces
        | [] => [String c EmptyString]
        end
  end.

(** [s.lstrip(chars)] and [s.rstrip(chars)], the set of characters given
    as a predicate. *)
Fixpoint lstrip_of (drop : ascii -> bool) (s : string) : string :=
  match s with
  | EmptyString => EmptyString
  | String c s' => if drop c then lstrip_of drop s' else s
  end.

Fixpoint rstrip_of (drop : ascii -> bool) (s : string) : string :=
  match s with
  | EmptyString => EmptyString
  | String c s' =>
      match rstrip_of drop s' with
      | EmptyString => if drop c then EmptyString else String c EmptyString
      | r => String c r
      end
  end.

Definition strip_of (drop : ascii -> bool) (s : string) : string :=
  rstrip_of drop (lstrip_of drop s).

(** The characters [str.strip()] removes from a header value, which
    arrives decoded as latin-1: tab to CR, FS to space, NEL and the
    no-break space. *)
Definition is_space (c : ascii) : bool :=
  let n := nat_of_ascii c in
  ((Nat.leb 9 n && Nat.leb n 13) || (Nat.leb 28 n && Nat.leb n 32)
   || Nat.eqb n 133 || Nat.eqb n 160)%bool.

(** [str(n)] of an [int]. *)
Definition str (n : Z) : string := NilZero.string_of_int (Z.to_int n).

End Text.

(* ================================================================== *)
(** * app/core/redis.py: the counters                                  *)
(* ================================================================== *)

Module Counters.

(** The integer keys of the Redis server (those of the rate limiter; the
    token keys of the passwordless flows are [RedisCache.t]): a key with
    its value and, once [EXPIRE] was called on it, the time it expires. *)
Definition t : Type := list (string * (Z * option datetime)).

Definition lookup (now : datetime) (key : string) (c : t)
  : option (Z * option datetime) :=
  match find (fun e => String.eqb (fst e) key) c with
  | Some (_, (n, Some expires)) =>
      if now <? expires then Some (n, Some expires) else None
  | Some (_, (n, None)) => Some (n, None)
  | None => None
  end.

Definition remove (key : string) (c : t) : t :=
  filter (fun e => negb (String.eqb (fst e) key)) c.

(** [cache.get]: [GET] and [json.loads] of the decimal text of the
    counter (never the empty text, so [if value:] holds); [None] for a
    missing or expired key, and when the call raises. *)
Definition get (l : RedisCache.link) (now : datetime) (key : string) (c : t)
  : option Z :=
  match l with
  | RedisCache.Up => option_map fst (lookup now key c)
  | RedisCache.Down => None
  end.

(** The range of a Redis integer. *)
Definition in_range (n : Z) : bool :=
  (-9223372036854775808 <=? n) && (n <=? 9223372036854775807).

(** [cache.increment]: [INCRBY key amount].  A missing key counts from
    zero and gets no expiry; a live key keeps the expiry it has.  [0]
    when the call raises, which the server makes it do on overflow. *)
Definition increment (l : RedisCache.link) (now : datetime) (key : string)
    (amount : Z) (c : t) : Z * t :=
  match l with
  | RedisCache.Up =>
      let (n, expires) :=
        match lookup now key c with
        | Some v => v
        | None => (0, None)
        end in
      if in_range (n + amount) then
        (n + amount, (key, (n + amount, expires)) :: remove key c)
      else (0, c)
  | RedisCache.Down => (0, c)
  end.

(** [cache.expire]: [EXPIRE key seconds], true when the key exists;
    [False] when the call raises. *)
Definition expire (l : RedisCache.link) (now : datetime) (key : string)
    (seconds : Z) (c : t) : bool * t :=
  match l with
  | RedisCache.Up =>
      match lookup now key c with
      | Some (n, _) => (true, (key, (n, Some (now + seconds))) :: remove key c)
      | None => (false, c)
      end
  | RedisCache.Down => (false, c)
  end.

End Counters.

(* ================================================================== *)
(** * app/middleware/rate_limit.py                                     *)
(* ================================================================== *)

Module RateLimitMiddleware.

(** The fields [__init__] copies from the settings. *)
Record t : Type := {
  enabled : bool;
  requests_per_window : Z;
  window_seconds : Z
}.

(** What the limiter reads of a request: the path, the user in
    [request.state.current_user] ([None] when the attribute is missing
    or false), the [X-Forwarded-For] header and [request.client.host]
    ([None] when [request.client] is). *)
Record Request : Type := {
  path : string;
  current_user : option User.t;
  x_forwarded_for : option string;
  client_host : option string
}.

Definition get_client_identifier (request : Request) : string :=
  match current_user request with
  | Some user => "user:" ++ User.id user
  | None =>
      if truthy_str (x_forwarded_for request) then
        "ip:" ++ Text.strip_of Text.is_space
                   (hd "" (Text.split ","
                             (match x_forwarded_for request with
                              | Some forwarded_for => forwarded_for
                              | None => ""
                              end)))
      else
        "ip:" ++ match client_host request with
                 | Some host => host
                 | None => "unknown"
                 end
  end.

(** The key of a client in the window that contains [now]. *)
Definition rate_key (self : t) (client_id : string) (now : datetime) : string :=
  "rate_limit:" ++ client_id ++ ":" ++ Text.str (now / window_seconds self).

(** [x or 0] on the result of [cache.get]. *)
Definition or_zero (x : option Z) : Z :=
  match x with
  | Some n => if n =? 0 then 0 else n
  | None => 0
  end.

(** The answer of [check_rate_limit], and the value it leaves in
    [request.state.rate_limit_remaining] when it sets it. *)
Record verdict : Type := {
  allowed : bool;
  rate_limit_remaining : option Z
}.

(** [check_rate_limit] at the time [now], the clock in whole seconds
    (for a positive window the index [time.time() // window] of the
    fractional clock is the same); [l_get], [l_incr] and [l_expire] say
    whether its three cache calls reach the server.  A window of zero
    seconds makes [//] raise [ZeroDivisionError], which the
    [except Exception] clause turns into [True]. *)
Definition check_rate_limit (self : t) (l_get l_incr l_expire : RedisCache.link)
    (now : datetime) (request : Request) (c : Counters.t)
  : verdict * Counters.t :=
  let client_id := get_client_identifier request in
  if window_seconds self =? 0 then
    ({| allowed := true; rate_limit_remaining := None |}, c)
  else
    let rate_key := rate_key self client_id now in
    let current_count := or_zero (Counters.get l_get now rate_key c) in
    if requests_per_window self <=? current_count then
      ({| allowed := false; rate_limit_remaining := None |}, c)
    else
      let c1 := snd (Counters.increment l_incr now rate_key 1 c) in
      let c2 := snd (Counters.expire l_expire now rate_key
                       (window_seconds self) c1) in
      ({| allowed := true;
          rate_limit_remaining :=
            Some (requests_per_window self - current_count - 1) |}, c2).

(** What [__call__] does with the request: hand it to the application,
    or answer it with the 429 response and its two headers. *)
Inductive handled : Type :=
| PassedOn
| TooManyRequests (status : Z) (detail x_ratelimit_limit x_ratelimit_window : string).

Definition call (self : t) (l_get l_incr l_expire : RedisCache.link)
    (is_http : bool) (now : datetime) (request : Request) (c : Counters.t)
  : handled * Counters.t :=
  if is_http && enabled self then
    if str_in (path request) ["/health"; "/metrics"] then (PassedOn, c)
    else
      let (v, c') := check_rate_limit self l_get l_incr l_expire now request c in
      if negb (allowed v) then
        (TooManyRequests 429 "Rate limit exceeded. Please try again later."
           (Text.str (requests_per_window self))
           (Text.str (window_seconds self)), c')
      else (PassedOn, c')
  else (PassedOn, c).

(** A client sending the same request at each of the given times, every
    cache call reaching the server: the verdicts, and the counters that
    are left. *)
Fixpoint replay (self : t) (request : Request) (times : list datetime)
    (c : Counters.t) : list verdict * Counters.t :=
  match times with
  | [] => ([], c)
  | now :: later =>
      let (v, c1) :=
        check_rate_limit self RedisCache.Up RedisCache.Up RedisCache.Up
          now request c in
      let (vs, c2) := replay self request later c1 in
      (v :: vs, c2)
  end.

End RateLimitMiddleware.

(* ================================================================== *)
(** * app/middleware/tenant.py                                         *)
(* ================================================================== *)

Module TenantMiddleware.

(** What the resolver reads of a request: the [host] and [X-Tenant-ID]
    headers and the path. *)
Record Request : Type := {
  host : option string;
  x_tenant_id : option string;
  path : string
}.

(** The dict [resolve_tenant] returns: built from a tenant row (its
    [tenant_id] and [schema_name] are columns of the row), or the
    default with [tenant_id] "default", no tenant and schema "public". *)
Inductive tenant_info : Type :=
| OfTenant (tenant : Tenant.t)
| DefaultTenant.

Definition live (r : Tenant.t) : bool :=
  Tenant.is_active r && negb (Tenant.is_suspended r).

(** [get_tenant_by_subdomain], in a session of its own; every exception,
    the one of [scalar_one_or_none] included, gives [None]. *)
Definition get_tenant_by_subdomain (st : AuthService.storage) (d : Db.t)
    (subdomain : string) : option Tenant.t :=
  match
    (let* rows :=
       AuthService.execute st
         (filter (fun r => String.eqb (Tenant.subdomain r) subdomain && live r)
                 (Db.tenants d)) in
     Sql.scalar_one_or_none rows)
  with
  | Ok tenant => tenant
  | Raise _ => None
  end.

Definition get_tenant_by_id (st : AuthService.storage) (d : Db.t)
    (tenant_id : string) : option Tenant.t :=
  match
    (let* rows :=
       AuthService.execute st
         (filter (fun r => String.eqb (Tenant.id r) tenant_id && live r)
                 (Db.tenants d)) in
     Sql.scalar_one_or_none rows)
  with
  | Ok tenant => tenant
  | Raise _ => None
  end.

(** The subdomain of method 1: the first label of a host that has a
    dot, unless it is empty or "www". *)
Definition host_label (host : string) : option string :=
  if Text.contains "." host then
    let subdomain := hd "" (Text.split "." host) in
    if negb (String.eqb subdomain "") && negb (String.eqb subdomain "www")
    then Some subdomain else None
  else None.

(** The identifier of method 3: the second part of a path whose first
    part is "tenant". *)
Definition path_identifier (path : string) : option string :=
  let path_parts := Text.split "/" (Text.strip_of (Ascii.eqb "/") path) in
  if (1 <? length path_parts)%nat && String.eqb (hd "" path_parts) "tenant"
  then Some (nth 1 path_parts "") else None.

(** [resolve_tenant]; [st1], [st2] and [st3] are the storage during the
    query of each method. *)
Definition resolve_tenant (st1 st2 st3 : AuthService.storage) (d : Db.t)
    (request : Request) : option tenant_info :=
  let host := match host request with Some h => h | None => "" end in
  match
    match host_label host with
    | Some subdomain => get_tenant_by_subdomain st1 d subdomain
    | None => None
    end
  with
  | Some tenant => Some (OfTenant tenant)
  | None =>
      match
        if truthy_str (x_tenant_id request) then
          get_tenant_by_id st2 d
            (match x_tenant_id request with Some h => h | None => "" end)
        else None
      with
      | Some tenant => Some (OfTenant tenant)
      | None =>
          match
            match path_identifier (path request) with
            | Some tenant_identifier =>
                get_tenant_by_subdomain st3 d tenant_identifier
            | None => None
            end
          with
          | Some tenant => Some (OfTenant tenant)
          | None =>
              if String.prefix "localhost" host then Some DefaultTenant
              else None
          end
      end
  end.

(** [__call__]: the tenant information put into [request.state], if
    any. *)
Definition call (st1 st2 st3 : AuthService.storage) (d : Db.t)
    (is_http : bool) (request : Request) : option tenant_info :=
  if is_http then
    if str_in (path request)
         ["/health"; "/metrics"; "/docs"; "/redoc"; "/openapi.json"]
    then None
    else resolve_tenant st1 st2 st3 d request
  else None.

End TenantMiddleware.

(* ================================================================== *)
(** * app/core/redis.py: [RedisSession]                                *)
(* ================================================================== *)

Module RedisSession.

(** A value of a session dict: a text, or the ISO text of a time. *)
Inductive value : Type :=
| Text (s : string)
| IsoTime (t : datetime).

(** A dict with string keys, in insertion order. *)
Definition dict : Type := list (string * value).

(** [d[key] = v]: a key that is there keeps its place. *)
Fixpoint dict_set (key : string) (v : value) (data : dict) : dict :=
  match data with
  | [] => [(key, v)]
  | (k, old) :: rest =>
      if String.eqb k key then (k, v) :: rest
      else (k, old) :: dict_set key v rest
  end.

(** [{**data, **more}] *)
Definition dict_update (data more : dict) : dict :=
  fold_left (fun acc kv => dict_set (fst kv) (snd kv) acc) more data.

(** The session keys of the Redis server: a key with its dict and the
    time it expires. *)
Definition store : Type := list (string * (dict * datetime)).

Definition remove (key : string) (s : store) : store :=
  filter (fun e => negb (String.eqb (fst e) key)) s.

(** [cache.set] on a session key: [False], and no write, when the call
    raises. *)
Definition cache_set (l : RedisCache.link) (now : datetime) (key : string)
    (data : dict) (expire : Z) (s : store) : bool * store :=
  match l with
  | RedisCache.Up => (true, (key, (data, now + expire)) :: remove key s)
  | RedisCache.Down => (false, s)
  end.

(** [RedisSession(session_id)] with the default prefix. *)
Record t : Type := {
  session_id : string;
  key : string
}.

Definition init (session_id : string) : t :=
  {| session_id := session_id; key := "session:" ++ session_id |}.

(** [set_data], with its default of 24 hours. *)
Definition default_expire : Z := 86400.

Definition set_data (l : RedisCache.link) (now : datetime) (self : t)
    (data : dict) (expire : Z) (s : store) : bool * store :=
  cache_set l now (key self) data expire s.

End RedisSession.

(** [create_session] of [AuthService] (lines 256-267). *)
Module AuthSessions.

(** [create_session]; [session_id] is the token
    [generate_secure_token] returned. *)
Definition create_session (l : RedisCache.link) (now : datetime)
    (session_id user_id : string) (session_data : RedisSession.dict)
    (s : RedisSession.store) : string * RedisSession.store :=
  let session := RedisSession.init session_id in
  (session_id,
   snd (RedisSession.set_data l now session
          (RedisSession.dict_update
             [("user_id", RedisSession.Text user_id);
              ("created_at", RedisSession.IsoTime now)]
             session_data)
          RedisSession.default_expire s)).

End AuthSessions.

(* ================================================================== *)
(** * app/models/user.py: [set_password]                               *)
(* ================================================================== *)

Module UserPassword.

Section WithGlobals.
Context `{G : Globals}.

Definition set_password (password : string) (u : User.t) : User.t :=
  {| User.id := User.id u; User.is_active := User.is_active u;
     User.email := User.email u;
     User.first_name := User.first_name u;
     User.last_name := User.last_name u;
     User.hashed_password := Some (pwd_context_hash password);
     User.is_email_verified := User.is_email_verified u;
     User.email_verification_token := User.email_verification_token u;
     User.failed_login_attempts := User.failed_login_attempts u;
     User.locked_until := User.locked_until u;
     User.password_reset_token := User.password_reset_token u;
     User.password_reset_expires := User.password_reset_expires u;
     User.avatar_url := User.avatar_url u;
     User.is_superuser := User.is_superuser u;
     User.is_tenant_admin := User.is_tenant_admin u;
     User.tenant_id := User.tenant_id u |}.

End WithGlobals.

End UserPassword.

(* ================================================================== *)
(** * app/api/v1/endpoints/auth.py                                     *)
(* ================================================================== *)

Module Endpoints.

(** What an endpoint function does with a parsed request: it returns a
    body, raises an [HTTPException], or lets another exception out.
    In the functions below [ip_address] is [request.client.host] and
    [user_agent] the header of that name, or the empty text. *)
Inductive response (A : Type) : Type :=
| Sends (body : A)
| Fails (e : AuthMiddleware.HTTPException)
| Crashes (e : exn).
Arguments Sends {A} body.
Arguments Fails {A} e.
Arguments Crashes {A} e.

Definition http (status_code : Z) (detail : string)
  : AuthMiddleware.HTTPException :=
  {| AuthMiddleware.status_code := status_code;
     AuthMiddleware.detail := detail |}.

Section WithGlobals.
Context `{G : Globals}.

(** The two handlers of [login] (lines 72-81). *)
Definition login_handlers {A} (e : exn) : response A :=
  match e with
  | AuthenticationError message => Fails (http 401 message)
  | _ => Fails (http 500 "Login failed")
  end.

(** [login].  The name [JSONResponse] (line 51) is bound nowhere in the
    module, so the branch of a user with 2FA enabled raises [NameError],
    which the second handler answers. *)
Definition login (l_session : RedisCache.link) (d : Db.t)
    (s : RedisSession.store) (email password : string) (remember_me : bool)
    (ip_address user_agent new_token_id new_session_id : string)
    (now : datetime)
  : response AuthService.TokenResponse * Db.t * RedisSession.store :=
  match AuthService.authenticate_user d email password now with
  | (Raise e, d1) => (login_handlers e, d1, s)
  | (Ok user, d1) =>
      match TOTPStatus.is_2fa_enabled d1 (User.id user) with
      | Raise e => (login_handlers e, d1, s)
      | Ok true => (Fails (http 500 "Login failed"), d1, s)
      | Ok false =>
          let (tokens, d2) :=
            AuthService.create_tokens d1 user ip_address user_agent
              new_token_id now in
          let s' :=
            if remember_me then
              snd (AuthSessions.create_session l_session now new_session_id
                     (User.id user)
                     [("ip_address", RedisSession.Text ip_address);
                      ("user_agent", RedisSession.Text user_agent)] s)
            else s in
          (Sends tokens, d2, s')
      end
  end.

(** The one handler of [login_with_2fa], [refresh_token] and the other
    endpoints that catch [AuthenticationError] only. *)
Definition authentication_handler {A} (e : exn) : response A :=
  match e with
  | AuthenticationError message => Fails (http 401 message)
  | _ => Crashes e
  end.

Definition login_with_2fa (d : Db.t) (email password totp_code : string)
    (ip_address user_agent new_token_id : string) (now : datetime)
  : response AuthService.TokenResponse * Db.t :=
  match AuthService.authenticate_user d email password now with
  | (Raise e, d1) => (authentication_handler e, d1)
  | (Ok user, d1) =>
      match TOTPService.verify_2fa_login d1 (User.id user) totp_code now with
      | (Raise e, d2) => (authentication_handler e, d2)
      | (Ok false, d2) => (Fails (http 401 "Invalid 2FA code"), d2)
      | (Ok true, d2) =>
          let (tokens, d3) :=
            AuthService.create_tokens d2 user ip_address user_agent
              new_token_id now in
          (Sends tokens, d3)
      end
  end.

Definition refresh_token (d : Db.t) (refresh_token : Security.token)
    (now : datetime) : response AuthService.TokenResponse * Db.t :=
  match AuthService.refresh_access_token d refresh_token now with
  | (Raise e, d1) => (authentication_handler e, d1)
  | (Ok tokens, d1) => (Sends tokens, d1)
  end.

(** [logout]: the result of [revoke_token] is not looked at. *)
Definition logout (st : AuthService.storage) (d : Db.t)
    (credentials : option Security.token) (refresh_token : Security.token)
    (now : datetime) : response string * Db.t :=
  match AuthMiddleware.get_current_user d credentials now with
  | AuthMiddleware.Rejects e => (Fails e, d)
  | AuthMiddleware.Returns current_user =>
      match AuthService.revoke_token st d refresh_token
              (User.id current_user) with
      | (Raise _, d1) => (Fails (http 500 "Logout failed"), d1)
      | (Ok _, d1) => (Sends "Logged out successfully", d1)
      end
  end.

Definition logout_all_sessions (st : AuthService.storage) (d : Db.t)
    (credentials : option Security.token) (now : datetime)
  : response string * Db.t :=
  match AuthMiddleware.get_current_user d credentials now with
  | AuthMiddleware.Rejects e => (Fails e, d)
  | AuthMiddleware.Returns current_user =>
      match AuthService.revoke_all_user_tokens st d (User.id current_user) with
      | (Raise _, d1) => (Fails (http 500 "Logout failed"), d1)
      | (Ok revoked_count, d1) =>
          (Sends ("Logged out from " ++ Text.str revoked_count ++ " sessions"),
           d1)
      end
  end.

(** [change_password].  The [HTTPException] of line 252 is raised inside
    the [try], and [except Exception] (line 273) catches it. *)
Definition change_password (st : AuthService.storage) (d : Db.t)
    (credentials : option Security.token)
    (current_password new_password : string) (now : datetime)
  : response string * Db.t :=
  match AuthMiddleware.get_current_user d credentials now with
  | AuthMiddleware.Rejects e => (Fails e, d)
  | AuthMiddleware.Returns current_user =>
      if negb (User.verify_password current_user current_password) then
        (Fails (http 500 "Failed to change password"), d)
      else
        match AuthService.commit st d
                (Db.commit_user
                   (UserPassword.set_password new_password current_user) d) with
        | (Raise _, d1) => (Fails (http 500 "Failed to change password"), d1)
        | (Ok _, d1) =>
            match AuthService.revoke_all_user_tokens st d1
                    (User.id current_user) with
            | (Raise _, d2) =>
                (Fails (http 500 "Failed to change password"), d2)
            | (Ok _, d2) => (Sends "Password changed successfully", d2)
            end
        end
  end.

(** [verify_2fa_setup] and [disable_2fa]: here too the [HTTPException]
    for a wrong code (lines 322 and 353) is raised inside the [try] and
    caught by [except Exception]. *)
Definition verify_2fa_setup (d : Db.t) (credentials : option Security.token)
    (code : string) (now : datetime) : response string * Db.t :=
  match AuthMiddleware.get_current_user d credentials now with
  | AuthMiddleware.Rejects e => (Fails e, d)
  | AuthMiddleware.Returns current_user =>
      match TOTPService.verify_2fa_setup d (User.id current_user) code now with
      | (Ok true, d1) => (Sends "2FA enabled successfully", d1)
      | (Ok false, d1) => (Fails (http 500 "Failed to verify 2FA"), d1)
      | (Raise _, d1) => (Fails (http 500 "Failed to verify 2FA"), d1)
      end
  end.

Definition disable_2fa (d : Db.t) (credentials : option Security.token)
    (code : string) (now : datetime) : response string * Db.t :=
  match AuthMiddleware.get_current_user d credentials now with
  | AuthMiddleware.Rejects e => (Fails e, d)
  | AuthMiddleware.Returns current_user =>
      match TOTPService.disable_2fa d (User.id current_user) code now with
      | (Ok true, d1) => (Sends "2FA disabled successfully", d1)
      | (Ok false, d1) => (Fails (http 500 "Failed to disable 2FA"), d1)
      | (Raise _, d1) => (Fails (http 500 "Failed to disable 2FA"), d1)
      end
  end.

End WithGlobals.

End Endpoints.

(* ================================================================== *)
(** * Sample data                                                      *)
(* ================================================================== *)

Module Examples.

(** NFKC on texts of ASCII characters and full-width digits: a
    full-width digit (U+FF10 to U+FF19, the bytes EF BC 90 to EF BC 99)
    becomes the ASCII digit. *)
Fixpoint nfkc_digits (s : string) : string :=
  match s with
  | EmptyString => EmptyString
  | String a s1 =>
      match s1 with
      | String b (String c rest) =>
          if (Nat.eqb (nat_of_ascii a) 239 && Nat.eqb (nat_of_ascii b) 188
              && Nat.leb 144 (nat_of_ascii c) && Nat.leb (nat_of_ascii c) 153)%bool
          then String (ascii_of_nat (nat_of_ascii c - 96)) (nfkc_digits rest)
          else String a (nfkc_digits s1)
      | _ => String a (nfkc_digits s1)
      end
  end.

(** A configuration with the defaults of [config.py], a password context
    that recognises the hashes it made, a code generator that derives
    the six digits from the time step, and the normal form above. *)
Definition globals : Globals :=
  {| settings := {| SECRET_KEY := "server-key";
                    ACCESS_TOKEN_EXPIRE_MINUTES := 30;
                    REFRESH_TOKEN_EXPIRE_DAYS := 7 |};
     pwd_context_verify := fun password h => String.eqb ("$2b$" ++ password) h;
     pwd_context_hash := fun password => "$2b$" ++ password;
     generate_otp := fun _ tc =>
       Some (NilZero.string_of_int (Z.to_int (100000 + tc mod 100000)));
     nfkc := nfkc_digits |}.

Definition alice : User.t :=
  {| User.id := "u-alice"; User.is_active := true;
     User.email := "alice@x.com";
     User.first_name := "Alice"; User.last_name := "A";
     User.hashed_password := Some "$2b$correct horse";
     User.is_email_verified := true;
     User.email_verification_token := None;
     User.failed_login_attempts := 0; User.locked_until := None;
     User.password_reset_token := None;
     User.password_reset_expires := None;
     User.avatar_url := None; User.is_superuser := false;
     User.is_tenant_admin := false; User.tenant_id := "t-1" |}.

(** A principal that was deactivated. *)
Definition bob : User.t :=
  {| User.id := "u-bob"; User.is_active := false;
     User.email := "bob@x.com";
     User.first_name := "Bob"; User.last_name := "B";
     User.hashed_password := Some "$2b$old password";
     User.is_email_verified := false;
     User.email_verification_token := None;
     User.failed_login_attempts := 0; User.locked_until := None;
     User.password_reset_token := None;
     User.password_reset_expires := None;
     User.avatar_url := None; User.is_superuser := false;
     User.is_tenant_admin := false; User.tenant_id := "t-1" |}.

Definition tenant1 : Tenant.t :=
  {| Tenant.id := "t-1"; Tenant.is_active := true; Tenant.name := "One";
     Tenant.subdomain := "one"; Tenant.is_suspended := false |}.

Definition db0 : Db.t :=
  {| Db.users := [alice; bob]; Db.auth_tokens := [];
     Db.oauth2_accounts := []; Db.two_factor_auth := [];
     Db.tenants := [tenant1] |}.

(** Alice logged in at time 0: her refresh token and the database with
    its stored record. *)
Definition alice_login : AuthService.TokenResponse * Db.t :=
  AuthService.create_tokens (G := globals) db0 alice "10.0.0.1" "agent" "tok-1" 0.

Definition alice_refresh_token : Security.token :=
  AuthService.refresh_token (fst alice_login).

Definition db1 : Db.t := snd alice_login.



(** Three tokens that do not verify as refresh tokens at time 100: one
    past its expiry, one of the access type, one signed with another key. *)
Definition expired_refresh_token : Security.token :=
  Security.Signed "server-key"
    {| Security.sub := Some "u-alice"; Security.email := None;
       Security.tenant_id := None; Security.is_superuser := None;
       Security.is_tenant_admin := None;
       Security.exp := Some 50; Security.type := Some "refresh" |}.

Definition access_token_of_alice : Security.token :=
  Security.create_access_token (G := globals) 0 (AuthService.token_data alice).

Definition forged_refresh_token : Security.token :=
  Security.Signed "guessed-key"
    {| Security.sub := Some "u-alice"; Security.email := None;
       Security.tenant_id := None; Security.is_superuser := None;
       Security.is_tenant_admin := None;
       Security.exp := Some 99999; Security.type := Some "refresh" |}.

(** The cache at time 0: a magic link for Alice, and a password-reset
    and an email-verification token for Bob, who is inactive. *)
Definition cached (u : User.t) : RedisCache.token_data :=
  {| RedisCache.user_id := Some (User.id u);
     RedisCache.email := Some (User.email u);
     RedisCache.ip_address := Some "10.0.0.1";
     RedisCache.created_at := Some 0 |}.

Definition cache0 : RedisCache.t :=
  [ ("magic_link:ml-1", (cached alice, minutes 15));
    ("password_reset:pr-1", (cached bob, hours 1));
    ("email_verify:ev-1", (cached bob, hours 24)) ].

(** Alice has 2FA enabled, with two backup codes left. *)
Definition alice_2fa : TwoFactorAuth.t :=
  {| TwoFactorAuth.id := "tfa-1";
     TwoFactorAuth.secret_key := Encryption.encrypt "JBSWY3DPEHPK3PXP";
     TwoFactorAuth.backup_codes := Encryption.encrypt ["ABCD1234"; "0F0F0F0F"];
     TwoFactorAuth.is_enabled := true;
     TwoFactorAuth.last_used_at := None;
     TwoFactorAuth.user_id := "u-alice" |}.

Definition db2 : Db.t := Db.with_two_factor_auth [alice_2fa] db0.

(** The text "100034" in full-width digits (U+FF11 U+FF10 U+FF10 U+FF10
    U+FF13 U+FF14), as its UTF-8 bytes. *)
Definition full_width_digit (n : nat) : string :=
  String (ascii_of_nat 239) (String (ascii_of_nat 188)
    (String (ascii_of_nat (144 + n)) EmptyString)).

Definition full_width_100034 : string :=
  full_width_digit 1 ++ full_width_digit 0 ++ full_width_digit 0
  ++ full_width_digit 0 ++ full_width_digit 3 ++ full_width_digit 4.

(** Alice as a pending credential: set up, not yet confirmed. *)
Definition alice_pending_2fa : TwoFactorAuth.t :=
  TwoFactorAuth.with_is_enabled false alice_2fa.

Definition db3 : Db.t := Db.with_two_factor_auth [alice_pending_2fa] db0.

(** Providers that answer every request with the given documents. *)
Definition answering (tokens : Provider.tokens) (info : Provider.user_info)
  : OAuth2Service.providers :=
  let p := {| OAuth2Service.exchange_code := fun _ _ => Ok tokens;
              OAuth2Service.get_user_info := fun _ => Ok info |} in
  {| OAuth2Service.google := p; OAuth2Service.github := p;
     OAuth2Service.microsoft := p |}.

Definition provider_tokens : Provider.tokens :=
  {| Provider.access_token := Some "gho_16C7e42F";
     Provider.refresh_token := None;
     Provider.expires_in := Some 3600 |}.

Definition info (id : option Provider.json) (email : option string)
  : Provider.user_info :=
  {| Provider.id := id; Provider.email := email;
     Provider.name := Some (Provider.JString "Carol Jones");
     Provider.given_name := None;
     Provider.family_name := None; Provider.login := Some "carol";
     Provider.username := None; Provider.avatar_url := None;
     Provider.picture := None |}.

(** Microsoft's normalised answer for an account without a display
    name: every key is there, the name and its parts are null. *)
Definition nameless : Provider.user_info :=
  {| Provider.id := Some (Provider.JString "ms-31");
     Provider.email := Some "erin@x.com";
     Provider.name := Some Provider.JNull; Provider.given_name := None;
     Provider.family_name := None; Provider.login := None;
     Provider.username := None; Provider.avatar_url := None;
     Provider.picture := None |}.

(** The token table of [db1] with the record of a session that ended
    at time 50. *)
Definition stale_token : AuthToken.t :=
  {| AuthToken.id := "tok-0"; AuthToken.token_type := "refresh";
     AuthToken.token_hash := Security.hash_token expired_refresh_token;
     AuthToken.expires_at := 50; AuthToken.is_revoked := false;
     AuthToken.user_agent := None; AuthToken.ip_address := None;
     AuthToken.last_used_at := None; AuthToken.user_id := "u-alice" |}.

Definition db4 : Db.t :=
  Db.with_auth_tokens (stale_token :: Db.auth_tokens db1) db1.

(** A limiter of two requests a minute, a request without a user, and
    the counters after the peer used up the first minute. *)
Definition limiter : RateLimitMiddleware.t :=
  {| RateLimitMiddleware.enabled := true;
     RateLimitMiddleware.requests_per_window := 2;
     RateLimitMiddleware.window_seconds := 60 |}.

Definition anonymous (forwarded_for : option string) (peer : string)
  : RateLimitMiddleware.Request :=
  {| RateLimitMiddleware.path := "/api/v1/users";
     RateLimitMiddleware.current_user := None;
     RateLimitMiddleware.x_forwarded_for := forwarded_for;
     RateLimitMiddleware.client_host := Some peer |}.

Definition spent : Counters.t :=
  [ ("rate_limit:ip:10.0.0.1:0", (2, Some 65)) ].

(** A request to the subdomain of [tenant1]. *)
Definition to_tenant1 : TenantMiddleware.Request :=
  {| TenantMiddleware.host := Some "one.example.com";
     TenantMiddleware.x_tenant_id := None;
     TenantMiddleware.path := "/api/v1/users" |}.

End Examples.

(* ================================================================== *)
(** * Lemmas on result sets and primary keys                           *)
(* ================================================================== *)

Section SqlFacts.
Context {A : Type} (pk : A -> string).

Lemma scalar_one_or_none_some (rows : list A) (r : A) :
  Sql.scalar_one_or_none rows = Ok (Some r) <-> rows = [r].
Proof.
  split.
  - destruct rows as [|x [|y rest]]; simpl; intros H; inversion H; reflexivity.
  - intros ->. reflexivity.
Qed.

Lemma scalar_one_or_none_none (rows : list A) :
  Sql.scalar_one_or_none rows = Ok None <-> rows = [].
Proof.
  split.
  - destruct rows as [|x [|y rest]]; simpl; intros H; inversion H; reflexivity.
  - intros ->. reflexivity.
Qed.

Lemma filter_singleton_In (P : A -> bool) (rows : list A) (r : A) :
  filter P rows = [r] -> In r rows /\ P r = true.
Proof.
  intros H. apply filter_In. rewrite H. left. reflexivity.
Qed.

Lemma filter_nil_false (P : A -> bool) (rows : list A) :
  filter P rows = [] -> forall x, In x rows -> P x = false.
Proof.
  intros H x Hx. destruct (P x) eqn:E; [|reflexivity].
  assert (In x (filter P rows)) by (apply filter_In; auto).
  rewrite H in H0. contradiction.
Qed.

(** Writing an object whose key is not in the table changes nothing. *)
Lemma write_absent (obj : A) (rows : list A) :
  ~ In (pk obj) (map pk rows) -> Sql.write pk obj rows = rows.
Proof.
  induction rows as [|x rows IH]; simpl; intros H; [reflexivity|].
  destruct (String.eqb_spec (pk x) (pk obj)) as [E|E].
  - exfalso. apply H. left. exact E.
  - f_equal. apply IH. intros Hin. apply H. right. exact Hin.
Qed.

Lemma write_length (obj : A) (rows : list A) :
  length (Sql.write pk obj rows) = length rows.
Proof. unfold Sql.write. apply length_map. Qed.

Lemma write_keys (obj : A) (rows : list A) :
  map pk (Sql.write pk obj rows) = map pk rows.
Proof.
  induction rows as [|x rows IH]; simpl; [reflexivity|].
  rewrite IH. destruct (String.eqb_spec (pk x) (pk obj)) as [E|E];
    [rewrite E|]; reflexivity.
Qed.

Lemma write_pk_unique (obj : A) (rows : list A) :
  Sql.pk_unique pk rows -> Sql.pk_unique pk (Sql.write pk obj rows).
Proof. unfold Sql.pk_unique. rewrite write_keys. auto. Qed.

(** A row of the written table is an old row, or the written object
    (which then replaced a row with its key). *)
Lemma In_write (obj x : A) (rows : list A) :
  In x (Sql.write pk obj rows) ->
  In x rows \/ (x = obj /\ exists y, In y rows /\ pk y = pk obj).
Proof.
  induction rows as [|y rows IH]; simpl; [tauto|].
  intros [H|H].
  - destruct (String.eqb_spec (pk y) (pk obj)) as [E|E].
    + right. split; [symmetry; exact H|]. exists y. auto.
    + left. left. exact H.
  - destruct (IH H) as [H1|[H1 [z [Hz1 Hz2]]]].
    + left. right. exact H1.
    + right. split; [exact H1|]. exists z. auto.
Qed.

(** A row of the written table that is not the written object is an old
    row with another key. *)
Lemma In_write_strict (obj x : A) (rows : list A) :
  In x (Sql.write pk obj rows) ->
  (In x rows /\ pk x <> pk obj) \/ x = obj.
Proof.
  unfold Sql.write. intros H. apply in_map_iff in H.
  destruct H as [y [Hy Hin]].
  destruct (String.eqb_spec (pk y) (pk obj)) as [E|E].
  - right. symmetry. exact Hy.
  - left. subst x. auto.
Qed.

Lemma write_In (obj r : A) (rows : list A) :
  In r rows -> pk obj = pk r -> In obj (Sql.write pk obj rows).
Proof.
  intros Hin Hpk. unfold Sql.write. apply in_map_iff. exists r.
  split; [|exact Hin]. rewrite Hpk, String.eqb_refl. reflexivity.
Qed.


(** The query that selected exactly [r] selects exactly the written
    object afterwards, when that object still satisfies the query. *)
Lemma filter_write_single (P : A -> bool) (obj r : A) (rows : list A) :
  Sql.pk_unique pk rows ->
  filter P rows = [r] ->
  pk obj = pk r ->
  P obj = true ->
  filter P (Sql.write pk obj rows) = [obj].
Proof.
  unfold Sql.pk_unique.
  induction rows as [|x rows IH]; simpl; intros Hu Hf Hpk HP; [discriminate|].
  inversion Hu as [|? ? Hx Hu']; subst.
  destruct (P x) eqn:EPx.
  - inversion Hf as [[Hxr Hnil]]. subst x.
    rewrite Hpk, String.eqb_refl. simpl. rewrite HP.
    f_equal. rewrite write_absent by (rewrite Hpk; exact Hx). reflexivity.
  - destruct (filter_singleton_In P rows r Hf) as [Hin _].
    destruct (String.eqb_spec (pk x) (pk obj)) as [E|E].
    + exfalso. apply Hx. rewrite E, Hpk. apply in_map. exact Hin.
    + rewrite EPx. apply IH; assumption.
Qed.

(** A query that selects neither the row with the object's key nor the
    object gives the same rows after the write. *)
Lemma filter_write_other (P : A -> bool) (obj r : A) (rows : list A) :
  Sql.pk_unique pk rows ->
  In r rows ->
  pk obj = pk r ->
  P r = false ->
  P obj = false ->
  filter P (Sql.write pk obj rows) = filter P rows.
Proof.
  unfold Sql.pk_unique.
  induction rows as [|x rows IH]; simpl; intros Hu Hin Hpk Hr Hobj;
    [reflexivity|].
  inversion Hu as [|? ? Hx Hu']; subst.
  destruct (String.eqb_spec (pk x) (pk obj)) as [E|E].
  - destruct Hin as [->|Hin].
    + rewrite Hobj, Hr. rewrite write_absent by (rewrite Hpk; exact Hx).
      reflexivity.
    + exfalso. apply Hx. rewrite E, Hpk. apply in_map. exact Hin.
  - destruct Hin as [->|Hin]; [exfalso; apply E; symmetry; exact Hpk|].
    destruct (P x); [f_equal|]; apply IH; assumption.
Qed.

(** [session.get] finds the row of a table with unique keys. *)
Lemma get_In (r : A) (rows : list A) :
  Sql.pk_unique pk rows -> In r rows -> Sql.get pk (pk r) rows = Some r.
Proof.
  unfold Sql.pk_unique, Sql.get.
  induction rows as [|x rows IH]; simpl; intros Hu Hin; [contradiction|].
  inversion Hu as [|? ? Hx Hu']; subst.
  destruct Hin as [->|Hin].
  - rewrite String.eqb_refl. reflexivity.
  - destruct (String.eqb_spec (pk x) (pk r)) as [E|E].
    + exfalso. apply Hx. rewrite E. apply in_map. exact Hin.
    + apply IH; assumption.
Qed.

Lemma get_Some (key : string) (r : A) (rows : list A) :
  Sql.get pk key rows = Some r -> In r rows /\ pk r = key.
Proof.
  unfold Sql.get. intros H. apply find_some in H. destruct H as [H1 H2].
  split; [exact H1|]. apply String.eqb_eq. exact H2.
Qed.

End SqlFacts.

(* ================================================================== *)
(** * Token Lifecycle Manager: [authenticate_user]                     *)
(* ================================================================== *)

Section AuthenticateFacts.
Context `{G : Globals}.

Lemma record_failed_attempt_id (user : User.t) (now : datetime) :
  User.id (AuthService.record_failed_attempt user now) = User.id user.
Proof.
  unfold AuthService.record_failed_attempt.
  destruct (5 <=? _); reflexivity.
Qed.

Lemma record_failed_attempt_email (user : User.t) (now : datetime) :
  User.email (AuthService.record_failed_attempt user now) = User.email user.
Proof.
  unfold AuthService.record_failed_attempt.
  destruct (5 <=? _); reflexivity.
Qed.

Lemma record_failed_attempt_count (user : User.t) (now : datetime) :
  User.failed_login_attempts (AuthService.record_failed_attempt user now)
  = User.failed_login_attempts user + 1.
Proof.
  unfold AuthService.record_failed_attempt.
  destruct (5 <=? _); reflexivity.
Qed.

Lemma record_failed_attempt_locks (user : User.t) (now : datetime) :
  5 <= User.failed_login_attempts user + 1 ->
  User.locked_until (AuthService.record_failed_attempt user now)
  = Some (now + minutes 30).
Proof.
  intros H. unfold AuthService.record_failed_attempt. simpl.
  destruct (Z.leb_spec 5 (User.failed_login_attempts user + 1)); [reflexivity|lia].
Qed.

Lemma record_failed_attempt_below (user : User.t) (now : datetime) :
  User.failed_login_attempts user + 1 < 5 ->
  User.locked_until (AuthService.record_failed_attempt user now)
  = User.locked_until user.
Proof.
  intros H. unfold AuthService.record_failed_attempt. simpl.
  destruct (Z.leb_spec 5 (User.failed_login_attempts user + 1)); [lia|reflexivity].
Qed.

(** The committed object is what the next call reads. *)
Lemma select_user_by_email_commit (d : Db.t) (email : string)
    (user user' : User.t) :
  Sql.pk_unique User.id (Db.users d) ->
  AuthService.select_user_by_email d email = Ok (Some user) ->
  User.id user' = User.id user ->
  User.email user' = User.email user ->
  AuthService.select_user_by_email (Db.commit_user user' d) email
  = Ok (Some user').
Proof.
  unfold AuthService.select_user_by_email. intros Hu Hs Hid Hem.
  apply scalar_one_or_none_some in Hs. apply scalar_one_or_none_some.
  destruct (filter_singleton_In _ _ _ Hs) as [_ HP].
  simpl. apply (filter_write_single User.id) with (r := user); auto.
  rewrite Hem. exact HP.
Qed.

Lemma authenticate_user_locked (d : Db.t) (email password : string)
    (user : User.t) (now : datetime) :
  AuthService.select_user_by_email d email = Ok (Some user) ->
  AuthService.locked user now = true ->
  AuthService.authenticate_user d email password now
  = (Raise (AuthenticationError "Account is temporarily locked"), d).
Proof.
  intros Hs Hl. unfold AuthService.authenticate_user. rewrite Hs, Hl.
  reflexivity.
Qed.

Lemma authenticate_user_mismatch (d : Db.t) (email password : string)
    (user : User.t) (now : datetime) :
  AuthService.select_user_by_email d email = Ok (Some user) ->
  AuthService.locked user now = false ->
  User.verify_password user password = false ->
  AuthService.authenticate_user d email password now
  = (Raise (AuthenticationError "Invalid credentials"),
     Db.commit_user (AuthService.record_failed_attempt user now) d).
Proof.
  intros Hs Hl Hv. unfold AuthService.authenticate_user.
  rewrite Hs, Hl, Hv. reflexivity.
Qed.

Lemma authenticate_user_success (d : Db.t) (email password : string)
    (user : User.t) (now : datetime) :
  AuthService.select_user_by_email d email = Ok (Some user) ->
  AuthService.locked user now = false ->
  User.verify_password user password = true ->
  AuthService.authenticate_user d email password now
  = (Ok (AuthService.reset_failed_attempts user),
     Db.commit_user (AuthService.reset_failed_attempts user) d).
Proof.
  intros Hs Hl Hv. unfold AuthService.authenticate_user.
  rewrite Hs, Hl, Hv. reflexivity.
Qed.

(** C1.  For the principal [user] that [email] selects, at time [now]:
    (1) a call with a wrong password that the lockout check lets through
    fails with "Invalid credentials" and commits the counter plus one;
    the call that brings the counter to five (or beyond) commits the
    lockout expiry [now + 30 minutes];
    (2) while the lockout expiry is in the future every call, whatever
    password it supplies, fails with "Account is temporarily locked" and
    changes nothing;
    (3) so the call that follows the threshold call within the thirty
    minutes is refused even with the correct password;
    (4) once the window has elapsed a correct password logs in, and resets
    the counter and the expiry. *)
Theorem authenticate_user_lockout (d : Db.t) (email : string)
    (user : User.t) (now : datetime) :
  Sql.pk_unique User.id (Db.users d) ->
  AuthService.select_user_by_email d email = Ok (Some user) ->
  (forall password,
      AuthService.locked user now = false ->
      User.verify_password user password = false ->
      let user' := AuthService.record_failed_attempt user now in
      AuthService.authenticate_user d email password now
      = (Raise (AuthenticationError "Invalid credentials"),
         Db.commit_user user' d)
      /\ AuthService.select_user_by_email (Db.commit_user user' d) email
         = Ok (Some user')
      /\ User.failed_login_attempts user' = User.failed_login_attempts user + 1
      /\ (5 <= User.failed_login_attempts user + 1 ->
          User.locked_until user' = Some (now + minutes 30))
      /\ (User.failed_login_attempts user + 1 < 5 ->
          User.locked_until user' = User.locked_until user))
  /\ (forall expiry password,
      User.locked_until user = Some expiry ->
      now < expiry ->
      AuthService.authenticate_user d email password now
      = (Raise (AuthenticationError "Account is temporarily locked"), d))
  /\ (forall wrong password later,
      AuthService.locked user now = false ->
      User.verify_password user wrong = false ->
      User.failed_login_attempts user + 1 = 5 ->
      later < now + minutes 30 ->
      let d' := snd (AuthService.authenticate_user d email wrong now) in
      AuthService.authenticate_user d' email password later
      = (Raise (AuthenticationError "Account is temporarily locked"), d'))
  /\ (forall expiry password,
      User.locked_until user = Some expiry ->
      expiry <= now ->
      User.verify_password user password = true ->
      let user' := AuthService.reset_failed_attempts user in
      AuthService.authenticate_user d email password now
      = (Ok user', Db.commit_user user' d)
      /\ User.failed_login_attempts user' = 0
      /\ User.locked_until user' = None).
Proof.
  intros Hu Hs. repeat split.
  - apply authenticate_user_mismatch; assumption.
  - apply select_user_by_email_commit with (user := user); auto.
    + apply record_failed_attempt_id.
    + apply record_failed_attempt_email.
  - apply record_failed_attempt_count.
  - apply record_failed_attempt_locks.
  - apply record_failed_attempt_below.
  - intros expiry password Hl Hlt.
    apply authenticate_user_locked with (user := user); [exact Hs|].
    unfold AuthService.locked. rewrite Hl. apply Z.ltb_lt. exact Hlt.
  - intros wrong password later Hl Hv H5 Hlt d'.
    subst d'. rewrite (authenticate_user_mismatch _ _ _ _ _ Hs Hl Hv). simpl.
    apply authenticate_user_locked
      with (user := AuthService.record_failed_attempt user now).
    + apply select_user_by_email_commit with (user := user); auto.
      * apply record_failed_attempt_id.
      * apply record_failed_attempt_email.
    + unfold AuthService.locked.
      rewrite record_failed_attempt_locks by lia.
      apply Z.ltb_lt. exact Hlt.
  - apply authenticate_user_success; [exact Hs| |assumption].
    unfold AuthService.locked. rewrite H. apply Z.ltb_ge. assumption.
Qed.

End AuthenticateFacts.

(** The theorem at Alice's row: a first wrong password is counted, and
    the row keeps being selected by her address. *)
Lemma authenticate_user_lockout_witness :
  AuthService.authenticate_user (G := Examples.globals)
    Examples.db0 "alice@x.com" "guess" 1000
  = (Raise (AuthenticationError "Invalid credentials"),
     Db.commit_user
       (AuthService.record_failed_attempt Examples.alice 1000) Examples.db0).
Proof.
  assert (Hu : Sql.pk_unique User.id (Db.users Examples.db0)).
  { unfold Sql.pk_unique. simpl.
    repeat constructor; simpl; intuition discriminate. }
  assert (Hs : AuthService.select_user_by_email Examples.db0 "alice@x.com"
               = Ok (Some Examples.alice)) by reflexivity.
  destruct (authenticate_user_lockout (G := Examples.globals)
              Examples.db0 "alice@x.com" Examples.alice 1000 Hu Hs)
    as [H1 _].
  destruct (H1 "guess" eq_refl eq_refl) as [H _]. exact H.
Defined.

(** The scenario of the specification, run on the sample database: five
    wrong passwords, then the right one within the window, then the
    right one after it. *)
Example five_failures_then_locked :
  let G := Examples.globals in
  let step d password now :=
    snd (AuthService.authenticate_user d "alice@x.com" password now) in
  let d5 :=
    step (step (step (step (step Examples.db0 "a" 10) "b" 20) "c" 30) "d" 40)
         "e" 50 in
  fst (AuthService.authenticate_user d5 "alice@x.com" "correct horse" 1849)
  = Raise (AuthenticationError "Account is temporarily locked")
  /\ is_ok (fst (AuthService.authenticate_user d5 "alice@x.com"
                   "correct horse" 1850)) = true.
Proof. vm_compute. split; reflexivity. Qed.

(* ================================================================== *)
(** * Token Lifecycle Manager: [verify_token] and [refresh_access_token] *)
(* ================================================================== *)

Section RefreshFacts.
Context `{G : Globals}.

Lemma digest_eqb_eq (a b : Security.digest) :
  Security.digest_eqb a b = true <-> a = b.
Proof.
  unfold Security.digest_eqb. destruct (Security.digest_eq_dec a b); split;
    intros H; auto; try discriminate; contradiction.
Qed.

Lemma refresh_access_token_raise (d : Db.t) (tok : Security.token)
    (now : datetime) (e : exn) :
  AuthService.refresh_body d tok now = Raise e ->
  AuthService.refresh_access_token d tok now
  = (Raise (AuthenticationError "Token refresh failed"), d).
Proof.
  intros H. unfold AuthService.refresh_access_token. rewrite H. reflexivity.
Qed.

(** A failed verification ends the [try] block. *)
Lemma refresh_body_unverified (d : Db.t) (tok : Security.token)
    (now : datetime) (e : exn) :
  Security.verify_token now tok "refresh" = Raise e ->
  AuthService.refresh_body d tok now = Raise e.
Proof.
  intros H. unfold AuthService.refresh_body. rewrite H. reflexivity.
Qed.

(** When no stored record of the token is both unrevoked and unexpired,
    the [try] block raises. *)
Lemma refresh_body_unusable (d : Db.t) (tok : Security.token) (now : datetime) :
  (forall r, In r (Db.auth_tokens d) ->
             AuthToken.token_hash r = Security.hash_token tok ->
             AuthToken.token_type r = "refresh" ->
             AuthToken.is_revoked r = true \/ AuthToken.is_expired now r = true) ->
  exists e, AuthService.refresh_body d tok now = Raise e.
Proof.
  intros Hall. unfold AuthService.refresh_body.
  destruct (Security.verify_token now tok "refresh") as [payload|e];
    simpl; [|eauto].
  destruct (negb (truthy_str (Security.sub payload))); [eauto|].
  destruct (AuthService.select_refresh_token d (Security.hash_token tok))
    as [|r [|r2 rest]] eqn:Hsel; simpl; [eauto| |eauto].
  destruct (filter_singleton_In _ _ _ Hsel) as [Hin HP].
  apply andb_prop in HP. destruct HP as [HP Hrev].
  apply andb_prop in HP. destruct HP as [Hh Hty].
  apply digest_eqb_eq in Hh. apply String.eqb_eq in Hty.
  destruct (Hall r Hin Hh Hty) as [Hr|He].
  - rewrite Hr in Hrev. discriminate.
  - rewrite He. eauto.
Qed.

(** The path through the [try] block that reaches the [return]. *)
Lemma refresh_access_token_success (d : Db.t) (tok : Security.token)
    (now : datetime) (payload : Security.payload) (user_id : string)
    (r : AuthToken.t) (user : User.t) :
  Security.verify_token now tok "refresh" = Ok payload ->
  Security.sub payload = Some user_id ->
  user_id <> "" ->
  AuthService.select_refresh_token d (Security.hash_token tok) = [r] ->
  AuthToken.is_expired now r = false ->
  AuthService.select_user_by_id d user_id = Ok (Some user) ->
  User.is_active user = true ->
  AuthService.refresh_access_token d tok now
  = (Ok {| AuthService.access_token :=
             Security.create_access_token now (AuthService.token_data user);
           AuthService.refresh_token := tok;
           AuthService.token_type := "bearer";
           AuthService.expires_in := ACCESS_TOKEN_EXPIRE_MINUTES settings * 60 |},
     Db.commit_auth_token (AuthToken.with_last_used_at (Some now) r) d).
Proof.
  intros Hv Hsub Hne Hsel Hexp Hu Hact.
  unfold AuthService.refresh_access_token, AuthService.refresh_body.
  rewrite Hv. simpl. rewrite Hsub. simpl.
  destruct (String.eqb_spec user_id "") as [E|_]; [contradiction|]. simpl.
  rewrite Hsel. simpl. rewrite Hexp, Hu. simpl. rewrite Hact. reflexivity.
Qed.


Lemma verify_token_expired (now : datetime) (claims : Security.payload)
    (expected : string) (e : Z) :
  Security.exp claims = Some e -> e <= now ->
  Security.verify_token now (Security.Signed (SECRET_KEY settings) claims)
    expected = Raise (AuthenticationError "Token has expired").
Proof.
  intros He Hle. unfold Security.verify_token, Security.jwt_decode.
  rewrite String.eqb_refl, He.
  destruct (Z.leb_spec e now); [reflexivity|lia].
Qed.


(** C4, as the code has it.  [verify_token] raises
    [AuthenticationError] "Token has expired" for a server-signed token
    past its [exp] claim.  For an unexpired server-signed token whose
    [type] claim is not the expected one, for a token signed with
    another key and for a text that is no token it raises one and the
    same [AttributeError], the one of the lookup of [jwt.JWTError], which
    is no [AuthenticationError] at all: the messages "Invalid token
    type" and "Invalid token" are never raised.
    [refresh_access_token] does not pass any of these on: whatever
    [verify_token] raised, its caller gets "Token refresh failed". *)
Theorem verify_token_failures (now : datetime) (expected : string) :
  (forall claims e,
      Security.exp claims = Some e -> e <= now ->
      Security.verify_token now (Security.Signed (SECRET_KEY settings) claims)
        expected
      = Raise (AuthenticationError "Token has expired"))
  /\ (forall claims,
      (forall e, Security.exp claims = Some e -> now < e) ->
      Security.type claims <> Some expected ->
      Security.verify_token now (Security.Signed (SECRET_KEY settings) claims)
        expected
      = Raise (AttributeError "module 'jwt' has no attribute 'JWTError'"))
  /\ (forall key claims,
      key <> SECRET_KEY settings ->
      Security.verify_token now (Security.Signed key claims) expected
      = Raise (AttributeError "module 'jwt' has no attribute 'JWTError'"))
  /\ (forall text,
      Security.verify_token now (Security.Malformed text) expected
      = Raise (AttributeError "module 'jwt' has no attribute 'JWTError'"))
  /\ (forall tok e,
      Security.verify_token now tok expected = Raise e ->
      e <> AuthenticationError "Invalid token type"
      /\ e <> AuthenticationError "Invalid token")
  /\ (forall d tok e,
      Security.verify_token now tok "refresh" = Raise e ->
      AuthService.refresh_access_token d tok now
      = (Raise (AuthenticationError "Token refresh failed"), d)).
Proof.
  split; [|split; [|split; [|split; [|split]]]].
  - intros claims e He Hle. apply verify_token_expired with (e := e); assumption.
  - intros claims Hexp Hty.
    unfold Security.verify_token, Security.jwt_decode.
    rewrite String.eqb_refl.
    assert (Hd : match Security.exp claims with
                 | Some e => if e <=? now
                             then inl Security.ExpiredSignatureError
                             else inr claims
                 | None => inr claims
                 end = inr claims).
    { destruct (Security.exp claims) as [e|] eqn:E; [|reflexivity].
      specialize (Hexp e eq_refl).
      destruct (Z.leb_spec e now); [lia|reflexivity]. }
    rewrite Hd.
    destruct (Security.type claims) as [ty|]; [|reflexivity].
    destruct (String.eqb_spec ty expected) as [->|_]; [|reflexivity].
    exfalso. apply Hty. reflexivity.
  - intros key claims Hk. unfold Security.verify_token, Security.jwt_decode.
    destruct (String.eqb_spec key (SECRET_KEY settings)); [contradiction|].
    reflexivity.
  - intros text. reflexivity.
  - intros tok e. unfold Security.verify_token.
    destruct (Security.jwt_decode now (SECRET_KEY settings) tok) as [[|]|p].
    + intros H. inversion H. split; discriminate.
    + intros H. inversion H. split; discriminate.
    + destruct (Security.type p) as [ty|].
      * destruct (String.eqb ty expected); intros H; inversion H.
        split; discriminate.
      * intros H. inversion H. split; discriminate.
  - intros d tok e He.
    apply refresh_access_token_raise with (e := e).
    apply refresh_body_unverified. exact He.
Qed.

Lemma digest_eqb_refl (a : Security.digest) : Security.digest_eqb a a = true.
Proof. apply digest_eqb_eq. reflexivity. Qed.

(** X3.  From issue to refresh: the refresh token [create_tokens] hands out
    at time [t0] to an active principal is accepted by
    [refresh_access_token] at any time before [t0] plus the configured
    days, provided no unrevoked record of that very token was there
    before. *)
Lemma refresh_after_create_tokens (d : Db.t) (user : User.t)
    (ip_address user_agent new_id : string) (t0 now : datetime) :
  AuthService.select_refresh_token d
    (Security.hash_token
       (Security.create_refresh_token t0 (AuthService.sub_only user))) = [] ->
  AuthService.select_user_by_id d (User.id user) = Ok (Some user) ->
  User.id user <> "" ->
  User.is_active user = true ->
  now < t0 + days (REFRESH_TOKEN_EXPIRE_DAYS settings) ->
  let issued := AuthService.create_tokens d user ip_address user_agent new_id t0 in
  exists response d2,
    AuthService.refresh_access_token (snd issued)
      (AuthService.refresh_token (fst issued)) now = (Ok response, d2)
    /\ AuthService.access_token response
       = Security.create_access_token now (AuthService.token_data user).
Proof.
  intros Hnone Hu Hid Hact Hlt issued.
  eexists. eexists. split.
  - eapply refresh_access_token_success
      with (user_id := User.id user) (user := user).
    + unfold issued. simpl.
      unfold Security.verify_token, Security.create_refresh_token,
        Security.jwt_decode. simpl.
      rewrite String.eqb_refl.
      destruct (Z.leb_spec (t0 + days (REFRESH_TOKEN_EXPIRE_DAYS settings)) now);
        [lia|]. reflexivity.
    + reflexivity.
    + exact Hid.
    + unfold issued. simpl. unfold AuthService.select_refresh_token. simpl.
      unfold Sql.add. rewrite filter_app.
      unfold AuthService.select_refresh_token in Hnone. rewrite Hnone.
      simpl. rewrite digest_eqb_refl. reflexivity.
    + unfold AuthToken.is_expired. simpl. apply Z.ltb_ge. lia.
    + exact Hu.
    + exact Hact.
  - reflexivity.
Qed.

(** X4.  From revocation to refresh: once [revoke_token] has returned [True]
    for a token whose records belong to the revoking principal,
    [refresh_access_token] refuses that token at any time. *)
Lemma refresh_after_revoke_token (d d' : Db.t) (tok : Security.token)
    (user_id : string) :
  (forall x, In x (Db.auth_tokens d) ->
             AuthToken.token_hash x = Security.hash_token tok ->
             AuthToken.user_id x = user_id) ->
  AuthService.revoke_token AuthService.Healthy d tok user_id = (Ok true, d') ->
  forall now,
    AuthService.refresh_access_token d' tok now
    = (Raise (AuthenticationError "Token refresh failed"), d').
Proof.
  intros Hown Hrev now.
  assert (Hall : forall y, In y (Db.auth_tokens d') ->
                    AuthToken.token_hash y = Security.hash_token tok ->
                    AuthToken.token_type y = "refresh" ->
                    AuthToken.is_revoked y = true
                    \/ AuthToken.is_expired now y = true).
  { unfold AuthService.revoke_token, AuthService.revoke_token_body in Hrev.
    simpl in Hrev.
    destruct (AuthService.select_token_of_user d (Security.hash_token tok) user_id)
      as [|r [|r2 rest]] eqn:Hs; simpl in Hrev; try discriminate.
    inversion Hrev. subst d'. clear Hrev.
    intros y Hy Hh Hty. simpl in Hy.
    apply (In_write_strict AuthToken.id) in Hy.
    destruct Hy as [[Hy Hpk]|Hy]; [|subst y; left; reflexivity].
    exfalso. apply Hpk. simpl.
    assert (Hin : In y (AuthService.select_token_of_user d
                          (Security.hash_token tok) user_id)).
    { unfold AuthService.select_token_of_user. apply filter_In.
      split; [exact Hy|].
      rewrite Hh, digest_eqb_refl, (Hown y Hy Hh), Hty, !String.eqb_refl.
      reflexivity. }
    rewrite Hs in Hin. destruct Hin as [Hin|[]]. subst y. reflexivity. }
  destruct (refresh_body_unusable d' tok now Hall) as [e He].
  apply refresh_access_token_raise with (e := e). exact He.
Qed.

End RefreshFacts.



(** The second and third parts of the theorem on the sample tokens:
    Alice's access token presented as a refresh token, and a token
    signed with a guessed key, raise the same [AttributeError]. *)
Lemma verify_token_failures_witness :
  Security.verify_token (G := Examples.globals) 100
    Examples.access_token_of_alice "refresh"
  = Raise (AttributeError "module 'jwt' has no attribute 'JWTError'")
  /\ Security.verify_token (G := Examples.globals) 100
       Examples.forged_refresh_token "refresh"
     = Raise (AttributeError "module 'jwt' has no attribute 'JWTError'").
Proof.
  destruct (verify_token_failures (G := Examples.globals) 100 "refresh")
    as [_ [H2 [H3 _]]].
  split.
  - apply H2.
    + simpl. intros e He. inversion He. reflexivity.
    + simpl. discriminate.
  - apply H3. simpl. discriminate.
Defined.

(* ================================================================== *)
(** * Token Lifecycle Manager: revocation                              *)
(* ================================================================== *)

Section RevokeFacts.
Context `{G : Globals}.

(** C9, as the code has it.  When the storage layer fails during
    [revoke_token] or [revoke_all_user_tokens], on the query or on the
    commit, the exception is caught inside the operation: the caller gets
    the ordinary return value [False], respectively [0], and the
    committed database is the one before the call (nothing is revoked).
    These are the values the operations also return when the storage
    works and there is nothing to revoke. *)
Theorem revocation_storage_failure (st : AuthService.storage) (d : Db.t)
    (tok : Security.token) (user_id : string) :
  st <> AuthService.Healthy ->
  AuthService.revoke_token st d tok user_id = (Ok false, d)
  /\ AuthService.revoke_all_user_tokens st d user_id = (Ok 0, d)
  /\ (AuthService.select_token_of_user d (Security.hash_token tok) user_id = [] ->
      AuthService.revoke_token AuthService.Healthy d tok user_id = (Ok false, d))
  /\ (AuthService.select_active_tokens d user_id = [] ->
      AuthService.revoke_all_user_tokens AuthService.Healthy d user_id
      = (Ok 0, d)).
Proof.
  intros Hst. repeat split.
  - unfold AuthService.revoke_token, AuthService.revoke_token_body.
    destruct st; [contradiction|reflexivity|]. simpl.
    destruct (AuthService.select_token_of_user d (Security.hash_token tok) user_id)
      as [|r [|r2 rest]]; reflexivity.
  - unfold AuthService.revoke_all_user_tokens, AuthService.revoke_all_body.
    destruct st; [contradiction|reflexivity|]. simpl.
    destruct (AuthService.revoke_each _ 0 d). reflexivity.
  - intros Hnone.
    unfold AuthService.revoke_token, AuthService.revoke_token_body. simpl.
    rewrite Hnone. reflexivity.
  - intros Hnone.
    unfold AuthService.revoke_all_user_tokens, AuthService.revoke_all_body.
    simpl. rewrite Hnone. reflexivity.
Qed.

(** With the storage working, [revoke_token] marks the selected record
    and [revoke_all_user_tokens] counts the records it marked. *)
Lemma revoke_token_healthy (d : Db.t) (tok : Security.token)
    (user_id : string) (r : AuthToken.t) :
  AuthService.select_token_of_user d (Security.hash_token tok) user_id = [r] ->
  AuthService.revoke_token AuthService.Healthy d tok user_id
  = (Ok true, Db.commit_auth_token (AuthToken.with_is_revoked true r) d).
Proof.
  intros H. unfold AuthService.revoke_token, AuthService.revoke_token_body.
  simpl. rewrite H. reflexivity.
Qed.

Lemma revoke_each_count (tokens : list AuthToken.t) (count : Z) (d : Db.t) :
  fst (AuthService.revoke_each tokens count d) = count + Z.of_nat (length tokens).
Proof.
  revert count d. induction tokens as [|t tokens IH]; intros count d.
  - simpl. lia.
  - cbn [AuthService.revoke_each length]. rewrite IH. lia.
Qed.

Lemma revoke_all_healthy_count (d : Db.t) (user_id : string) :
  fst (AuthService.revoke_all_user_tokens AuthService.Healthy d user_id)
  = Ok (Z.of_nat (length (AuthService.select_active_tokens d user_id))).
Proof.
  unfold AuthService.revoke_all_user_tokens, AuthService.revoke_all_body.
  simpl.
  pose proof (revoke_each_count (AuthService.select_active_tokens d user_id) 0 d) as H.
  destruct (AuthService.revoke_each _ 0 d) as [count pending]. simpl in *.
  rewrite H. reflexivity.
Qed.

End RevokeFacts.

(** The theorem on the database that holds Alice's refresh token, with
    the commit failing. *)
Lemma revocation_storage_failure_witness :
  AuthService.revoke_token AuthService.FailsOnCommit Examples.db1
    Examples.alice_refresh_token "u-alice" = (Ok false, Examples.db1)
  /\ AuthService.revoke_all_user_tokens AuthService.FailsOnCommit
       Examples.db1 "u-alice" = (Ok 0, Examples.db1).
Proof.
  destruct (revocation_storage_failure AuthService.FailsOnCommit Examples.db1
              Examples.alice_refresh_token "u-alice") as [H1 [H2 _]].
  - discriminate.
  - split; [exact H1|exact H2].
Defined.

(** C9 as stated fails.  Alice has one unrevoked refresh token and the
    commit fails: "log out everywhere" answers [0] without raising, which
    is the answer it gives on a working storage to a principal who has no
    token; and [revoke_token] answers [False], which is its answer for a
    token that has no record.  In both failing calls the token is still
    unrevoked afterwards. *)
Lemma revocation_failure_looks_like_success :
  length (AuthService.select_active_tokens Examples.db1 "u-alice") = 1%nat
  /\ AuthService.revoke_all_user_tokens AuthService.FailsOnCommit
       Examples.db1 "u-alice" = (Ok 0, Examples.db1)
  /\ fst (AuthService.revoke_all_user_tokens AuthService.Healthy
            Examples.db0 "u-alice") = Ok 0
  /\ AuthService.revoke_token AuthService.FailsOnCommit Examples.db1
       Examples.alice_refresh_token "u-alice" = (Ok false, Examples.db1)
  /\ fst (AuthService.revoke_token AuthService.Healthy Examples.db0
            Examples.alice_refresh_token "u-alice") = Ok false
  /\ fst (AuthService.revoke_token AuthService.Healthy Examples.db1
            Examples.alice_refresh_token "u-alice") = Ok true.
Proof. vm_compute. repeat split; reflexivity. Qed.

(* ================================================================== *)
(** * Passwordless Manager                                             *)
(* ================================================================== *)

Section PasswordlessFacts.
Context `{G : Globals}.

Lemma lookup_remove (now : datetime) (key : string) (c : RedisCache.t) :
  RedisCache.lookup now key (RedisCache.remove key c) = None.
Proof.
  unfold RedisCache.lookup, RedisCache.remove.
  assert (H : find (fun e : string * (RedisCache.token_data * datetime) =>
                      String.eqb (fst e) key)
                (filter (fun e => negb (String.eqb (fst e) key)) c) = None).
  { induction c as [|e c IH]; simpl; [reflexivity|].
    destruct (String.eqb (fst e) key) eqn:E; simpl; [exact IH|].
    rewrite E. exact IH. }
  rewrite H. reflexivity.
Qed.

(** Nothing is read from a deleted key, reachable server or not. *)
Lemma get_after_delete (l : RedisCache.link) (now : datetime) (key : string)
    (c : RedisCache.t) :
  RedisCache.get l now key (snd (RedisCache.delete RedisCache.Up key c)) = None.
Proof.
  destruct l; simpl; [apply lookup_remove|reflexivity].
Qed.

Lemma get_of_lookup_none (l : RedisCache.link) (now : datetime) (key : string)
    (c : RedisCache.t) :
  RedisCache.lookup now key c = None -> RedisCache.get l now key c = None.
Proof. destruct l; simpl; auto. Qed.

Lemma verify_magic_link_no_token (l_get l_del : RedisCache.link)
    (c : RedisCache.t) (d : Db.t) (token : string) (now : datetime) :
  RedisCache.get l_get now (PasswordlessService.magic_link_key token) c = None ->
  PasswordlessService.verify_magic_link l_get l_del c d token now
  = (Raise (AuthenticationError "Invalid or expired magic link"), c).
Proof.
  intros H. unfold PasswordlessService.verify_magic_link,
    PasswordlessService.verify_magic_link_body.
  rewrite H. reflexivity.
Qed.

(** A successful redemption returned an active principal and left the
    cache as [cache.delete] left it. *)
Lemma verify_magic_link_ok (l_get l_del : RedisCache.link)
    (c c' : RedisCache.t) (d : Db.t) (token : string) (now : datetime)
    (user : User.t) :
  PasswordlessService.verify_magic_link l_get l_del c d token now = (Ok user, c') ->
  User.is_active user = true
  /\ c' = snd (RedisCache.delete l_del (PasswordlessService.magic_link_key token) c).
Proof.
  unfold PasswordlessService.verify_magic_link,
    PasswordlessService.verify_magic_link_body.
  destruct (RedisCache.get l_get now _ c) as [td|]; [|discriminate].
  destruct (PasswordlessService.get_user d _) as [u|]; [|discriminate].
  destruct (User.is_active u) eqn:E; simpl; [|discriminate].
  intros H. inversion H. subst. auto.
Qed.

Lemma verify_email_no_token (l_get l_del : RedisCache.link)
    (c : RedisCache.t) (d : Db.t) (token : string) (now : datetime) :
  RedisCache.get l_get now (PasswordlessService.email_verify_key token) c = None ->
  PasswordlessService.verify_email l_get l_del c d token now
  = (Raise (ValidationError "Email verification failed"), (d, c)).
Proof.
  intros H. unfold PasswordlessService.verify_email. rewrite H. reflexivity.
Qed.

Lemma verify_email_ok (l_get l_del : RedisCache.link)
    (c c' : RedisCache.t) (d d' : Db.t) (token : string) (now : datetime)
    (b : bool) :
  PasswordlessService.verify_email l_get l_del c d token now = (Ok b, (d', c')) ->
  c' = snd (RedisCache.delete l_del (PasswordlessService.email_verify_key token) c).
Proof.
  unfold PasswordlessService.verify_email.
  destruct (RedisCache.get l_get now _ c) as [td|]; [|discriminate].
  destruct (PasswordlessService.mark_email_verified _ _) as [users' rowcount].
  destruct (Nat.eqb rowcount 0); [discriminate|].
  intros H. inversion H. reflexivity.
Qed.

Lemma verify_password_reset_no_token (l_get l_del : RedisCache.link)
    (c : RedisCache.t) (d : Db.t) (token password : string) (now : datetime) :
  RedisCache.get l_get now (PasswordlessService.password_reset_key token) c = None ->
  PasswordlessService.verify_password_reset l_get l_del c d token password now
  = (Raise (ValidationError "Password reset failed"), (d, c)).
Proof.
  intros H. unfold PasswordlessService.verify_password_reset.
  rewrite H. reflexivity.
Qed.

Lemma verify_password_reset_ok (l_get l_del : RedisCache.link)
    (c c' : RedisCache.t) (d d' : Db.t) (token password : string)
    (now : datetime) (b : bool) :
  PasswordlessService.verify_password_reset l_get l_del c d token password now
  = (Ok b, (d', c')) ->
  c' = snd (RedisCache.delete l_del
              (PasswordlessService.password_reset_key token) c).
Proof.
  unfold PasswordlessService.verify_password_reset.
  destruct (RedisCache.get l_get now _ c) as [td|]; [|discriminate].
  destruct (PasswordlessService.get_user d _) as [u|]; [|discriminate].
  intros H. inversion H. reflexivity.
Qed.

(** C3, as the code has it, for calls that run one after the other.
    Magic link: (1) after a redemption that succeeded and whose
    [cache.delete] reached the server, every later redemption of the
    token fails with "Invalid or expired magic link"; (2) redemption
    fails, and leaves the cache alone, when the token is absent or
    expired; (3) and when the principal it names is missing or inactive.
    Email verification and password reset: (4, 6) the same single use,
    failing with "Email verification failed" and "Password reset failed";
    (5, 7) the same failure for an absent or expired token.  Neither of
    these two looks at the principal's active flag. *)
Theorem ephemeral_token_single_use (c : RedisCache.t) (d : Db.t)
    (token : string) (now : datetime) :
  (forall l_get user c',
      PasswordlessService.verify_magic_link l_get RedisCache.Up c d token now
      = (Ok user, c') ->
      User.is_active user = true
      /\ forall l1 l2 d2 later,
          PasswordlessService.verify_magic_link l1 l2 c' d2 token later
          = (Raise (AuthenticationError "Invalid or expired magic link"), c'))
  /\ (forall l_get l_del,
      RedisCache.lookup now (PasswordlessService.magic_link_key token) c = None ->
      PasswordlessService.verify_magic_link l_get l_del c d token now
      = (Raise (AuthenticationError "Invalid or expired magic link"), c))
  /\ (forall l_get l_del token_data,
      RedisCache.get l_get now (PasswordlessService.magic_link_key token) c
      = Some token_data ->
      (forall user,
          PasswordlessService.get_user d (RedisCache.user_id token_data)
          = Some user ->
          User.is_active user = false) ->
      PasswordlessService.verify_magic_link l_get l_del c d token now
      = (Raise (AuthenticationError "Invalid or expired magic link"), c))
  /\ (forall l_get b d' c',
      PasswordlessService.verify_email l_get RedisCache.Up c d token now
      = (Ok b, (d', c')) ->
      forall l1 l2 d2 later,
        PasswordlessService.verify_email l1 l2 c' d2 token later
        = (Raise (ValidationError "Email verification failed"), (d2, c')))
  /\ (forall l_get l_del,
      RedisCache.lookup now (PasswordlessService.email_verify_key token) c = None ->
      PasswordlessService.verify_email l_get l_del c d token now
      = (Raise (ValidationError "Email verification failed"), (d, c)))
  /\ (forall l_get password b d' c',
      PasswordlessService.verify_password_reset l_get RedisCache.Up c d
        token password now = (Ok b, (d', c')) ->
      forall l1 l2 d2 password2 later,
        PasswordlessService.verify_password_reset l1 l2 c' d2 token
          password2 later
        = (Raise (ValidationError "Password reset failed"), (d2, c')))
  /\ (forall l_get l_del password,
      RedisCache.lookup now (PasswordlessService.password_reset_key token) c
      = None ->
      PasswordlessService.verify_password_reset l_get l_del c d token
        password now
      = (Raise (ValidationError "Password reset failed"), (d, c))).
Proof.
  split; [|split; [|split; [|split; [|split; [|split]]]]].
  - intros l_get user c' H.
    destruct (verify_magic_link_ok _ _ _ _ _ _ _ _ H) as [Hact ->].
    split; [exact Hact|]. intros l1 l2 d2 later.
    apply verify_magic_link_no_token. apply get_after_delete.
  - intros l_get l_del H. apply verify_magic_link_no_token.
    apply get_of_lookup_none. exact H.
  - intros l_get l_del td Hget Hina.
    unfold PasswordlessService.verify_magic_link,
      PasswordlessService.verify_magic_link_body.
    rewrite Hget.
    destruct (PasswordlessService.get_user d (RedisCache.user_id td))
      as [u|] eqn:Eu; [|reflexivity].
    rewrite (Hina u eq_refl). reflexivity.
  - intros l_get b d' c' H l1 l2 d2 later.
    rewrite (verify_email_ok _ _ _ _ _ _ _ _ _ H).
    apply verify_email_no_token. apply get_after_delete.
  - intros l_get l_del H. apply verify_email_no_token.
    apply get_of_lookup_none. exact H.
  - intros l_get password b d' c' H l1 l2 d2 password2 later.
    rewrite (verify_password_reset_ok _ _ _ _ _ _ _ _ _ _ H).
    apply verify_password_reset_no_token. apply get_after_delete.
  - intros l_get l_del password H. apply verify_password_reset_no_token.
    apply get_of_lookup_none. exact H.
Qed.

(** A coroutine that is resumed three times without another one in
    between does what [verify_magic_link] does. *)
Lemma resume_alone (c : RedisCache.t) (d : Db.t) (token : string)
    (now : datetime) :
  let '(k1, c1) :=
    PasswordlessService.resume d token now PasswordlessService.AwaitCacheGet c in
  let '(k2, c2) := PasswordlessService.resume d token now k1 c1 in
  let '(k3, c3) := PasswordlessService.resume d token now k2 c2 in
  match PasswordlessService.verify_magic_link RedisCache.Up RedisCache.Up
          c d token now with
  | (Ok user, c') => k3 = PasswordlessService.Returned user /\ c3 = c'
  | (Raise e, c') => k3 = PasswordlessService.Raised e /\ c3 = c'
  end.
Proof.
  unfold PasswordlessService.verify_magic_link,
    PasswordlessService.verify_magic_link_body.
  simpl.
  destruct (RedisCache.lookup now (PasswordlessService.magic_link_key token) c)
    as [td|]; simpl; [|auto].
  destruct (PasswordlessService.get_user d (RedisCache.user_id td)) as [u|];
    simpl; [|auto].
  destruct (User.is_active u); simpl; auto.
Qed.

End PasswordlessFacts.

(** The theorem on the sample cache: Alice's magic link is redeemed at
    time 10 and refused at time 11; an unknown link is refused. *)
Lemma ephemeral_token_single_use_witness :
  (exists c',
      PasswordlessService.verify_magic_link RedisCache.Up RedisCache.Up
        Examples.cache0 Examples.db0 "ml-1" 10 = (Ok Examples.alice, c')
      /\ PasswordlessService.verify_magic_link RedisCache.Up RedisCache.Up
           c' Examples.db0 "ml-1" 11
         = (Raise (AuthenticationError "Invalid or expired magic link"), c'))
  /\ PasswordlessService.verify_magic_link RedisCache.Up RedisCache.Up
       Examples.cache0 Examples.db0 "ml-2" 10
     = (Raise (AuthenticationError "Invalid or expired magic link"),
        Examples.cache0).
Proof.
  destruct (ephemeral_token_single_use (G := Examples.globals)
              Examples.cache0 Examples.db0 "ml-1" 10)
    as [H1 _].
  destruct (ephemeral_token_single_use (G := Examples.globals)
              Examples.cache0 Examples.db0 "ml-2" 10)
    as [_ [H2 _]].
  split.
  - eexists. split; [reflexivity|].
    destruct (H1 RedisCache.Up Examples.alice _ eq_refl) as [_ H].
    apply H.
  - apply H2. reflexivity.
Defined.

(** C3 as stated fails in three places.  Bob is inactive: his
    password-reset token is redeemed and overwrites his credential hash,
    and his email-verification token is redeemed and marks his address
    verified.  And when the [cache.delete] of a magic-link redemption
    does not reach the server, the redemption still succeeds and the same
    link is redeemed a second time. *)
Lemma ephemeral_token_counterexample :
  User.is_active Examples.bob = false
  /\ (exists d' c',
        PasswordlessService.verify_password_reset (G := Examples.globals)
          RedisCache.Up RedisCache.Up
          Examples.cache0 Examples.db0 "pr-1" "N3w password" 10
        = (Ok true, (d', c'))
        /\ option_map User.hashed_password (Sql.get User.id "u-bob" (Db.users d'))
           = Some (Some "$2b$N3w password"))
  /\ (exists d' c',
        PasswordlessService.verify_email RedisCache.Up RedisCache.Up
          Examples.cache0 Examples.db0 "ev-1" 10 = (Ok true, (d', c'))
        /\ option_map User.is_email_verified
             (Sql.get User.id "u-bob" (Db.users d')) = Some true)
  /\ (exists c',
        PasswordlessService.verify_magic_link RedisCache.Up RedisCache.Down
          Examples.cache0 Examples.db0 "ml-1" 10 = (Ok Examples.alice, c')
        /\ fst (PasswordlessService.verify_magic_link RedisCache.Up
                  RedisCache.Up c' Examples.db0 "ml-1" 11)
           = Ok Examples.alice).
Proof.
  split; [reflexivity|]. split; [|split].
  - eexists. eexists. split; vm_compute; reflexivity.
  - eexists. eexists. split; vm_compute; reflexivity.
  - eexists. split; vm_compute; reflexivity.
Qed.

(** Two requests that redeem Alice's link on one event loop, taking
    turns at each [await]: both read the token before either deletes it,
    and both return Alice. *)
Lemma magic_link_race :
  PasswordlessService.interleave Examples.db0 "ml-1" 10
    [true; false; true; false; true; false]
    PasswordlessService.AwaitCacheGet PasswordlessService.AwaitCacheGet
    Examples.cache0
  = (PasswordlessService.Returned Examples.alice,
     PasswordlessService.Returned Examples.alice,
     RedisCache.remove "magic_link:ml-1" Examples.cache0).
Proof. vm_compute. reflexivity. Qed.

(* ================================================================== *)
(** * TOTP Manager                                                     *)
(* ================================================================== *)

Section TOTPFacts.
Context `{G : Globals}.

Lemma verify_steps_sound (secret_key code : string) (tc : Z) (offsets : list Z) :
  TOTPService.verify_steps secret_key code tc offsets = Some true ->
  exists i otp, In i offsets
                /\ generate_otp secret_key (tc + i) = Some otp
                /\ nfkc code = nfkc otp.
Proof.
  induction offsets as [|i rest IH]; simpl; [discriminate|].
  destruct (generate_otp secret_key (tc + i)) as [otp|] eqn:E; [|discriminate].
  destruct (String.eqb_spec (nfkc code) (nfkc otp)) as [Heq|_].
  - intros _. exists i, otp. auto.
  - intros H. destruct (IH H) as [j [otp' [Hj1 Hj2]]]. exists j, otp'. auto.
Qed.

(** The steps are tried in order: a step whose code matches is reached
    when the generator returned for the steps before it. *)
Lemma verify_steps_accepts (secret_key code otp : string) (tc i : Z)
    (before rest : list Z) :
  (forall j, In j before -> generate_otp secret_key (tc + j) <> None) ->
  generate_otp secret_key (tc + i) = Some otp ->
  nfkc code = nfkc otp ->
  TOTPService.verify_steps secret_key code tc (before ++ i :: rest) = Some true.
Proof.
  intros Hgen Hi Heq. induction before as [|j before IH]; simpl.
  - rewrite Hi, Heq, String.eqb_refl. reflexivity.
  - destruct (generate_otp secret_key (tc + j)) as [o|] eqn:E.
    + destruct (String.eqb (nfkc code) (nfkc o)); [reflexivity|].
      apply IH. intros k Hk. apply Hgen. right. exact Hk.
    + exfalso. apply (Hgen j); [left; reflexivity|exact E].
Qed.

(** A code is accepted only if it has the normal form of the code of the
    current thirty second step, of the one before or of the one after. *)
Lemma verify_totp_code_window (secret_key code : string) (now : datetime) :
  TOTPService.verify_totp_code secret_key code now TOTPService.default_window
  = true ->
  exists i otp, -1 <= i <= 1
                /\ generate_otp secret_key (Z.quot now 30 + i) = Some otp
                /\ nfkc code = nfkc otp.
Proof.
  unfold TOTPService.verify_totp_code.
  destruct (TOTPService.verify_steps _ _ _ _) as [b|] eqn:E; [|discriminate].
  intros ->. apply verify_steps_sound in E. destruct E as [i [otp [Hi Hg]]].
  exists i, otp. split; [|exact Hg].
  simpl in Hi. lia.
Qed.

Lemma verify_totp_code_rejects (secret_key code : string) (now : datetime) :
  (forall i otp, -1 <= i <= 1 ->
                 generate_otp secret_key (Z.quot now 30 + i) = Some otp ->
                 nfkc code <> nfkc otp) ->
  TOTPService.verify_totp_code secret_key code now TOTPService.default_window
  = false.
Proof.
  intros H.
  destruct (TOTPService.verify_totp_code secret_key code now
              TOTPService.default_window) eqn:E; [|reflexivity].
  destruct (verify_totp_code_window _ _ _ E) as [i [otp [Hi [Hg Heq]]]].
  exfalso. exact (H i otp Hi Hg Heq).
Qed.

(** And it is accepted if it has the normal form of the code of one of
    these three steps and the generator returned for the steps of the
    window before that one. *)
Lemma verify_totp_code_accepts (secret_key code otp : string) (now : datetime)
    (i : Z) :
  -1 <= i <= 1 ->
  (forall j, -1 <= j < i ->
             generate_otp secret_key (Z.quot now 30 + j) <> None) ->
  generate_otp secret_key (Z.quot now 30 + i) = Some otp ->
  nfkc code = nfkc otp ->
  TOTPService.verify_totp_code secret_key code now TOTPService.default_window
  = true.
Proof.
  intros Hi Hgen Hg Heq. unfold TOTPService.verify_totp_code.
  change (TOTPService.window_range TOTPService.default_window)
    with [-1; 0; 1].
  change (TOTPService.timecode now) with (Z.quot now 30).
  assert (Hc : i = -1 \/ i = 0 \/ i = 1) by lia.
  destruct Hc as [ -> | [ -> | -> ] ].
  - rewrite (verify_steps_accepts secret_key code otp _ (-1) [] [0; 1]);
      [reflexivity| |exact Hg|exact Heq].
    intros j [].
  - rewrite (verify_steps_accepts secret_key code otp _ 0 [-1] [1]);
      [reflexivity| |exact Hg|exact Heq].
    intros j [<-|[]]. apply Hgen. lia.
  - rewrite (verify_steps_accepts secret_key code otp _ 1 [-1; 0] []);
      [reflexivity| |exact Hg|exact Heq].
    intros j [<-|[<-|[]]]; apply Hgen; lia.
Qed.

Lemma In_commit_two_factor_auth (o x : TwoFactorAuth.t) (d : Db.t) :
  In x (Db.two_factor_auth (Db.commit_two_factor_auth o d)) ->
  In x (Db.two_factor_auth d)
  \/ (x = o /\ exists y, In y (Db.two_factor_auth d)
                         /\ TwoFactorAuth.id y = TwoFactorAuth.id o).
Proof. simpl. apply In_write. Qed.

Lemma select_2fa_commit (d : Db.t) (user_id : string) (r r' : TwoFactorAuth.t) :
  Sql.pk_unique TwoFactorAuth.id (Db.two_factor_auth d) ->
  TOTPService.select_2fa d user_id = [r] ->
  TwoFactorAuth.id r' = TwoFactorAuth.id r ->
  TwoFactorAuth.user_id r' = TwoFactorAuth.user_id r ->
  TOTPService.select_2fa (Db.commit_two_factor_auth r' d) user_id = [r'].
Proof.
  unfold TOTPService.select_2fa. intros Hu Hs Hid Huid. simpl.
  destruct (filter_singleton_In _ _ _ Hs) as [_ HP].
  apply (filter_write_single TwoFactorAuth.id) with (r := r); auto.
  rewrite Huid. exact HP.
Qed.

(** X10.  What [verify_backup_code] does with an accepted code: the normalised
    code is taken out of the list, nothing else is, and the list gets
    shorter. *)
Lemma verify_backup_code_consumes (backup_codes : list string) (code : string) :
  fst (TOTPService.verify_backup_code backup_codes code) = true ->
  let updated := snd (TOTPService.verify_backup_code backup_codes code) in
  ~ In (strip (upper code)) updated
  /\ (forall c, c <> strip (upper code) -> (In c updated <-> In c backup_codes))
  /\ (length updated < length backup_codes)%nat
  /\ fst (TOTPService.verify_backup_code updated code) = false.
Proof.
  unfold TOTPService.verify_backup_code, str_in.
  set (cu := strip (upper code)).
  destruct (existsb (String.eqb cu) backup_codes) eqn:E; simpl; [|discriminate].
  intros _.
  assert (Hnot : ~ In cu (filter (fun c => negb (String.eqb c cu)) backup_codes)).
  { intros Hin. apply filter_In in Hin. destruct Hin as [_ Hin].
    rewrite String.eqb_refl in Hin. discriminate. }
  split; [exact Hnot|]. split; [|split].
  - intros c Hc. rewrite filter_In. split; [tauto|].
    intros Hin. split; [exact Hin|].
    destruct (String.eqb_spec c cu); [contradiction|reflexivity].
  - apply existsb_exists in E. destruct E as [x [Hx Hxe]].
    apply String.eqb_eq in Hxe. subst x.
    clear Hnot. induction backup_codes as [|b rest IH]; [contradiction|].
    simpl. destruct (String.eqb_spec b cu) as [->|Hne]; simpl.
    + pose proof (filter_length_le (fun c => negb (String.eqb c cu)) rest).
      lia.
    + destruct Hx as [Hx|Hx]; [contradiction|].
      specialize (IH Hx). lia.
  - destruct (existsb (String.eqb cu) (filter _ backup_codes)) eqn:E2;
      [|reflexivity].
    exfalso. apply existsb_exists in E2. destruct E2 as [x [Hx Hxe]].
    apply String.eqb_eq in Hxe. subst x. exact (Hnot Hx).
Qed.

(** C7.  (1) For the principal whose credential is [r], a code that has
    not the normal form of the code of the pending secret for the
    current thirty second step, the one before or the one after makes
    [verify_2fa_setup] return [False] and commit nothing, so a pending
    credential stays pending.
    (2) Across every call of the service that writes the table, a
    credential that is enabled afterwards was enabled before, or the call
    was [verify_2fa_setup] for its principal with a code that has the
    normal form of the code of its secret for one of those three steps.
    (3) The window is no narrower: a code with the normal form of the
    code of one of the three steps, the generator having returned for
    the steps of the window before it, makes [verify_2fa_setup] return
    [True] and commit the credential as enabled. *)
Theorem verify_2fa_setup_guard :
  (forall (d : Db.t) (user_id code : string) (now : datetime)
          (r : TwoFactorAuth.t),
      TOTPService.select_2fa d user_id = [r] ->
      (forall i otp, -1 <= i <= 1 ->
                     generate_otp (Encryption.decrypt (TwoFactorAuth.secret_key r))
                       (Z.quot now 30 + i) = Some otp ->
                     nfkc code <> nfkc otp) ->
      TOTPService.verify_2fa_setup d user_id code now = (Ok false, d))
  /\ (forall (d : Db.t) (c : TOTPService.call) (now : datetime)
             (r' : TwoFactorAuth.t),
      In r' (Db.two_factor_auth (TOTPService.run d c now)) ->
      TwoFactorAuth.is_enabled r' = true ->
      (exists r, In r (Db.two_factor_auth d)
                 /\ TwoFactorAuth.id r = TwoFactorAuth.id r'
                 /\ TwoFactorAuth.is_enabled r = true)
      \/ (exists user_id code i otp,
             c = TOTPService.VerifySetupCall user_id code
             /\ TwoFactorAuth.user_id r' = user_id
             /\ -1 <= i <= 1
             /\ generate_otp (Encryption.decrypt (TwoFactorAuth.secret_key r'))
                  (Z.quot now 30 + i) = Some otp
             /\ nfkc code = nfkc otp))
  /\ (forall (d : Db.t) (user_id code otp : string) (now : datetime)
             (r : TwoFactorAuth.t) (i : Z),
      TOTPService.select_2fa d user_id = [r] ->
      -1 <= i <= 1 ->
      (forall j, -1 <= j < i ->
                 generate_otp (Encryption.decrypt (TwoFactorAuth.secret_key r))
                   (Z.quot now 30 + j) <> None) ->
      generate_otp (Encryption.decrypt (TwoFactorAuth.secret_key r))
        (Z.quot now 30 + i) = Some otp ->
      nfkc code = nfkc otp ->
      TOTPService.verify_2fa_setup d user_id code now
      = (Ok true,
         Db.commit_two_factor_auth (TwoFactorAuth.with_is_enabled true r) d)).
Proof.
  split; [|split].
  - intros d user_id code now r Hs Hno.
    unfold TOTPService.verify_2fa_setup. rewrite Hs. simpl.
    rewrite (verify_totp_code_rejects _ _ _ Hno). reflexivity.
  - intros d c now r' Hin Hen.
    assert (Hold : In r' (Db.two_factor_auth d) ->
                   exists r, In r (Db.two_factor_auth d)
                             /\ TwoFactorAuth.id r = TwoFactorAuth.id r'
                             /\ TwoFactorAuth.is_enabled r = true).
    { intros H. exists r'. auto. }
    destruct c as [uid secret codes new_id|uid code|uid code|uid code
                  |uid code new_codes]; simpl in Hin.
    + (* setup_2fa *)
      unfold TOTPService.setup_2fa in Hin.
      destruct (Sql.get User.id uid (Db.users d)); [|left; auto].
      destruct (TOTPService.select_2fa d uid) as [|row [|row2 rest]];
        simpl in Hin; [| |left; auto].
      * destruct (_ <? _); simpl in Hin; [left; auto|].
        apply in_app_or in Hin. destruct Hin as [Hin|[Hin|[]]]; [left; auto|].
        subst r'. discriminate.
      * destruct (_ <? _); simpl in Hin; [left; auto|].
        apply In_write in Hin. destruct Hin as [Hin|[Hin _]]; [left; auto|].
        subst r'. discriminate.
    + (* verify_2fa_setup *)
      unfold TOTPService.verify_2fa_setup in Hin.
      destruct (TOTPService.select_2fa d uid) as [|row [|row2 rest]] eqn:Hs;
        simpl in Hin; [left; auto| |left; auto].
      destruct (TOTPService.verify_totp_code _ code now _) eqn:Hv;
        [|left; auto].
      apply In_commit_two_factor_auth in Hin.
      destruct Hin as [Hin|[Hin _]]; [left; auto|].
      right. subst r'.
      destruct (verify_totp_code_window _ _ _ Hv) as [i [otp [Hi [Hg Heq]]]].
      exists uid, code, i, otp.
      split; [reflexivity|].
      split; [|split; [exact Hi|split; [exact Hg|exact Heq]]].
      destruct (filter_singleton_In _ _ _ Hs) as [_ HP].
      apply String.eqb_eq. exact HP.
    + (* disable_2fa *)
      unfold TOTPService.disable_2fa in Hin.
      destruct (TOTPService.select_2fa d uid) as [|row [|row2 rest]];
        simpl in Hin; [left; auto| |left; auto].
      destruct (negb (TwoFactorAuth.is_enabled row)); [left; auto|].
      destruct (_ || _); [|left; auto].
      apply In_commit_two_factor_auth in Hin.
      destruct Hin as [Hin|[Hin _]]; [left; auto|].
      subst r'. discriminate.
    + (* verify_2fa_login *)
      unfold TOTPService.verify_2fa_login in Hin.
      destruct (TOTPService.select_enabled_2fa d uid) as [|row [|row2 rest]] eqn:Hs;
        simpl in Hin; [left; auto| |left; auto].
      destruct (TOTPService.verify_totp_code _ code now _).
      * apply In_commit_two_factor_auth in Hin.
        destruct Hin as [Hin|[Hin _]]; [left; auto|].
        left. exists row. subst r'.
        destruct (filter_singleton_In _ _ _ Hs) as [Hrow _]. auto.
      * destruct (TOTPService.verify_backup_code _ code) as [[|] upd];
          left; auto.
    + (* regenerate_backup_codes *)
      unfold TOTPService.regenerate_backup_codes in Hin.
      destruct (TOTPService.select_enabled_2fa d uid) as [|row [|row2 rest]] eqn:Hs;
        simpl in Hin; [left; auto| |left; auto].
      destruct (negb (TOTPService.verify_totp_code _ code now _));
        [left; auto|].
      apply In_commit_two_factor_auth in Hin.
      destruct Hin as [Hin|[Hin _]]; [left; auto|].
      left. exists row. subst r'.
      destruct (filter_singleton_In _ _ _ Hs) as [Hrow _]. auto.
  - intros d user_id code otp now r i Hs Hi Hgen Hg Heq.
    unfold TOTPService.verify_2fa_setup. rewrite Hs. simpl.
    rewrite (verify_totp_code_accepts _ code otp now i Hi Hgen Hg Heq).
    reflexivity.
Qed.

(** In the backup-code branch of [verify_2fa_login] the call raises and
    commits nothing. *)
Lemma verify_2fa_login_backup_branch (d : Db.t) (user_id code : string)
    (now : datetime) (r : TwoFactorAuth.t) :
  TOTPService.select_enabled_2fa d user_id = [r] ->
  TOTPService.verify_totp_code
    (Encryption.decrypt (TwoFactorAuth.secret_key r)) code now
    TOTPService.default_window = false ->
  fst (TOTPService.verify_backup_code
         (Encryption.decrypt (TwoFactorAuth.backup_codes r)) code) = true ->
  TOTPService.verify_2fa_login d user_id code now
  = (Raise (UnboundLocalError "datetime"), d).
Proof.
  intros Hs Hv Hb. unfold TOTPService.verify_2fa_login.
  rewrite Hs. simpl. rewrite Hv.
  destruct (TOTPService.verify_backup_code _ code) as [valid upd].
  simpl in Hb. subst valid. reflexivity.
Qed.

(** So a login verification returns [True] only through the TOTP branch,
    which leaves the backup codes as they were. *)
Lemma verify_2fa_login_true (d d' : Db.t) (user_id code : string)
    (now : datetime) :
  TOTPService.verify_2fa_login d user_id code now = (Ok true, d') ->
  exists r,
    TOTPService.select_enabled_2fa d user_id = [r]
    /\ TOTPService.verify_totp_code
         (Encryption.decrypt (TwoFactorAuth.secret_key r)) code now
         TOTPService.default_window = true
    /\ d' = Db.commit_two_factor_auth
              (TwoFactorAuth.with_last_used_at (Some now) r) d.
Proof.
  unfold TOTPService.verify_2fa_login.
  destruct (TOTPService.select_enabled_2fa d user_id) as [|row [|row2 rest]];
    simpl; try discriminate.
  destruct (TOTPService.verify_totp_code _ code now _) eqn:Hv.
  - intros H. inversion H. exists row. auto.
  - destruct (TOTPService.verify_backup_code _ code) as [[|] upd];
      discriminate.
Qed.

(** C10.  When [disable_2fa] is authorised by a backup code of the
    enabled credential [r], it returns [True] and commits [r] with the
    enabled flag cleared and nothing else changed: the encrypted backup
    codes are the same.  If the credential is then enabled again by
    [verify_2fa_setup] with a valid TOTP code, it is [r] again, the code
    is still among its backup codes, [verify_backup_code] accepts it and
    [disable_2fa] accepts it once more. *)
Theorem disable_2fa_keeps_backup_codes (d : Db.t) (user_id code : string)
    (now : datetime) (r : TwoFactorAuth.t) :
  Sql.pk_unique TwoFactorAuth.id (Db.two_factor_auth d) ->
  TOTPService.select_2fa d user_id = [r] ->
  TwoFactorAuth.is_enabled r = true ->
  fst (TOTPService.verify_backup_code
         (Encryption.decrypt (TwoFactorAuth.backup_codes r)) code) = true ->
  let r' := TwoFactorAuth.with_is_enabled false r in
  let d' := Db.commit_two_factor_auth r' d in
  TOTPService.disable_2fa d user_id code now = (Ok true, d')
  /\ TOTPService.select_2fa d' user_id = [r']
  /\ TwoFactorAuth.backup_codes r' = TwoFactorAuth.backup_codes r
  /\ TwoFactorAuth.secret_key r' = TwoFactorAuth.secret_key r
  /\ forall code2 now2,
      TOTPService.verify_totp_code
        (Encryption.decrypt (TwoFactorAuth.secret_key r)) code2 now2
        TOTPService.default_window = true ->
      let d'' := Db.commit_two_factor_auth r d' in
      TOTPService.verify_2fa_setup d' user_id code2 now2 = (Ok true, d'')
      /\ TOTPService.select_2fa d'' user_id = [r]
      /\ In (strip (upper code))
            (Encryption.decrypt (TwoFactorAuth.backup_codes r))
      /\ forall now3,
          fst (TOTPService.disable_2fa d'' user_id code now3) = Ok true.
Proof.
  intros Hu Hs Hen Hb r' d'.
  assert (Hr : TwoFactorAuth.with_is_enabled true r' = r).
  { destruct r. simpl in *. subst. reflexivity. }
  assert (Hs' : TOTPService.select_2fa d' user_id = [r']).
  { apply select_2fa_commit with (r := r); auto. }
  assert (Hdis : forall d0 now0,
             TOTPService.select_2fa d0 user_id = [r] ->
             TOTPService.disable_2fa d0 user_id code now0
             = (Ok true, Db.commit_two_factor_auth r' d0)).
  { intros d0 now0 H0. unfold TOTPService.disable_2fa.
    rewrite H0. simpl. rewrite Hen. simpl. rewrite Hb.
    rewrite orb_true_r. reflexivity. }
  split; [apply Hdis; exact Hs|].
  split; [exact Hs'|].
  split; [reflexivity|].
  split; [reflexivity|].
  intros code2 now2 Hv d''.
  assert (Hs'' : TOTPService.select_2fa d'' user_id = [r]).
  { apply select_2fa_commit with (r := r'); auto.
    apply (write_pk_unique TwoFactorAuth.id). exact Hu. }
  split; [|split; [exact Hs''|split]].
  - unfold TOTPService.verify_2fa_setup. rewrite Hs'. simpl.
    change (TwoFactorAuth.secret_key r') with (TwoFactorAuth.secret_key r).
    rewrite Hv. unfold d''. rewrite <- Hr. reflexivity.
  - unfold TOTPService.verify_backup_code, str_in in Hb.
    destruct (existsb _ _) eqn:E; [|discriminate].
    apply existsb_exists in E. destruct E as [x [Hx Hxe]].
    apply String.eqb_eq in Hxe. subst x. exact Hx.
  - intros now3. rewrite (Hdis d'' now3 Hs''). reflexivity.
Qed.

Lemma revoke_each_two_factor_auth (tokens : list AuthToken.t) (count : Z)
    (d : Db.t) :
  Db.two_factor_auth (snd (AuthService.revoke_each tokens count d))
  = Db.two_factor_auth d.
Proof.
  revert count d. induction tokens as [|token rest IH]; intros count d;
    [reflexivity|].
  cbn [AuthService.revoke_each]. rewrite IH. reflexivity.
Qed.

Lemma revocation_keeps_two_factor_auth (st : AuthService.storage) (d : Db.t)
    (tok : Security.token) (user_id : string) :
  Db.two_factor_auth (snd (AuthService.revoke_token st d tok user_id))
  = Db.two_factor_auth d
  /\ Db.two_factor_auth (snd (AuthService.revoke_all_user_tokens st d user_id))
     = Db.two_factor_auth d.
Proof.
  split.
  - unfold AuthService.revoke_token, AuthService.revoke_token_body.
    destruct st; simpl; try reflexivity;
      destruct (AuthService.select_token_of_user d _ user_id)
        as [|r [|r2 rest]]; reflexivity.
  - unfold AuthService.revoke_all_user_tokens, AuthService.revoke_all_body.
    pose proof (revoke_each_two_factor_auth
                  (AuthService.select_active_tokens d user_id) 0 d) as H.
    destruct st; simpl; try reflexivity;
      destruct (AuthService.revoke_each _ 0 d) as [count pending];
      simpl in *; auto.
Qed.

(** The other services leave the [two_factor_auth] table alone, so the
    calls of [TOTPService] are the only ones that can enable a
    credential. *)
Lemma other_services_keep_two_factor_auth (d : Db.t) :
  (forall email password now,
      Db.two_factor_auth (snd (AuthService.authenticate_user d email password now))
      = Db.two_factor_auth d)
  /\ (forall user ip_address user_agent new_id now,
      Db.two_factor_auth
        (snd (AuthService.create_tokens d user ip_address user_agent new_id now))
      = Db.two_factor_auth d)
  /\ (forall tok now,
      Db.two_factor_auth (snd (AuthService.refresh_access_token d tok now))
      = Db.two_factor_auth d)
  /\ (forall l_get l_del c token now,
      Db.two_factor_auth
        (fst (snd (PasswordlessService.verify_email l_get l_del c d token now)))
      = Db.two_factor_auth d)
  /\ (forall l_get l_del c token password now,
      Db.two_factor_auth
        (fst (snd (PasswordlessService.verify_password_reset l_get l_del c d
                     token password now)))
      = Db.two_factor_auth d)
  /\ (forall ps provider_name code redirect_uri tenant_id new_user_id
             new_account_id now,
      Db.two_factor_auth
        (snd (OAuth2Service.authenticate_with_code ps d provider_name code
                redirect_uri tenant_id new_user_id new_account_id now))
      = Db.two_factor_auth d).
Proof.
  split; [|split; [|split; [|split; [|split]]]].
  - intros email password now. unfold AuthService.authenticate_user.
    destruct (AuthService.select_user_by_email d email) as [[user|]|e];
      try reflexivity.
    destruct (AuthService.locked user now); [reflexivity|].
    destruct (negb (User.verify_password user password)); reflexivity.
  - reflexivity.
  - intros tok now. unfold AuthService.refresh_access_token.
    destruct (AuthService.refresh_body d tok now) as [[response d']|e] eqn:E;
      [|reflexivity].
    unfold AuthService.refresh_body in E.
    destruct (Security.verify_token now tok "refresh") as [payload|];
      simpl in E; [|discriminate].
    destruct (negb (truthy_str (Security.sub payload))); [discriminate|].
    destruct (Sql.scalar_one_or_none _) as [[db_token|]|]; simpl in E;
      try discriminate.
    destruct (AuthToken.is_expired now db_token); [discriminate|].
    destruct (AuthService.select_user_by_id d _) as [[user|]|]; simpl in E;
      try discriminate.
    destruct (negb (User.is_active user)); [discriminate|].
    inversion E. reflexivity.
  - intros l_get l_del c token now. unfold PasswordlessService.verify_email.
    destruct (RedisCache.get l_get now _ c); [|reflexivity].
    destruct (PasswordlessService.mark_email_verified _ _) as [users' rowcount].
    destruct (Nat.eqb rowcount 0); reflexivity.
  - intros l_get l_del c token password now.
    unfold PasswordlessService.verify_password_reset.
    destruct (RedisCache.get l_get now _ c) as [td|]; [|reflexivity].
    destruct (PasswordlessService.get_user d _); reflexivity.
  - intros ps provider_name code redirect_uri tenant_id new_user_id
           new_account_id now.
    unfold OAuth2Service.authenticate_with_code.
    destruct (OAuth2Service.get_provider ps provider_name) as [provider|];
      [|reflexivity].
    destruct (OAuth2Service.exchange_code provider code redirect_uri)
      as [tokens|]; [|reflexivity].
    destruct (negb (truthy_str (Provider.access_token tokens))); [reflexivity|].
    destruct (OAuth2Service.get_user_info provider _) as [user_info|];
      [|reflexivity].
    destruct (_ || _); [reflexivity|].
    unfold OAuth2Service.link_or_create.
    destruct (Sql.scalar_one_or_none (OAuth2Service.select_oauth_account _ _ _))
      as [[acct|]|]; simpl; try reflexivity.
    + destruct (Sql.get User.id _ _) as [user|]; [|reflexivity].
      destruct (negb (User.is_active user)); reflexivity.
    + destruct (Sql.scalar_one_or_none (OAuth2Service.select_user_by_email _ _))
        as [[user|]|]; simpl; try reflexivity.
      destruct (Sql.get Tenant.id _ _) as [tenant|]; [|reflexivity].
      destruct (negb (Tenant.is_active tenant)); [reflexivity|].
      destruct (OAuth2Service.new_user _ _ _ _); reflexivity.
Qed.

End TOTPFacts.

(** The theorem on Alice's pending credential at time 1000, step 33: the
    code "000000" is not the code of step 32, 33 or 34 and is refused;
    "100034", the code of step 34 written in full-width digits, is
    accepted and enables the credential. *)
Lemma verify_2fa_setup_guard_witness :
  TOTPService.verify_2fa_setup (G := Examples.globals)
    Examples.db3 "u-alice" "000000" 1000 = (Ok false, Examples.db3)
  /\ TOTPService.verify_2fa_setup (G := Examples.globals)
       Examples.db3 "u-alice" Examples.full_width_100034 1000
     = (Ok true,
        Db.commit_two_factor_auth
          (TwoFactorAuth.with_is_enabled true Examples.alice_pending_2fa)
          Examples.db3).
Proof.
  destruct (verify_2fa_setup_guard (G := Examples.globals)) as [H [_ H3]].
  split.
  - apply H with (r := Examples.alice_pending_2fa); [reflexivity|].
    intros i otp Hi.
    assert (Hc : i = -1 \/ i = 0 \/ i = 1) by lia.
    destruct Hc as [ -> | [ -> | -> ] ]; vm_compute; intros Hg;
      inversion Hg; discriminate.
  - apply H3 with (otp := "100034") (i := 1).
    + reflexivity.
    + lia.
    + intros j Hj. vm_compute. discriminate.
    + reflexivity.
    + reflexivity.
Defined.

(** The theorem on Alice's enabled credential and her first backup code,
    typed in lower case. *)
Lemma disable_2fa_keeps_backup_codes_witness :
  TOTPService.disable_2fa (G := Examples.globals)
    Examples.db2 "u-alice" "abcd1234" 1000
  = (Ok true,
     Db.commit_two_factor_auth
       (TwoFactorAuth.with_is_enabled false Examples.alice_2fa) Examples.db2)
  /\ TwoFactorAuth.backup_codes
       (TwoFactorAuth.with_is_enabled false Examples.alice_2fa)
     = TwoFactorAuth.backup_codes Examples.alice_2fa.
Proof.
  destruct (disable_2fa_keeps_backup_codes (G := Examples.globals)
              Examples.db2 "u-alice" "abcd1234" 1000 Examples.alice_2fa)
    as [H1 [_ [H2 _]]].
  - unfold Sql.pk_unique. simpl. repeat constructor. simpl. tauto.
  - reflexivity.
  - reflexivity.
  - reflexivity.
  - split; [exact H1|exact H2].
Defined.

(** C8 at the failing input.  Alice has 2FA enabled; "ABCD1234" is one of
    her two stored backup codes and no TOTP code at time 1000.
    [verify_backup_code] accepts it (also in lower case, with blanks
    around it) and would leave the other code; [verify_2fa_login] raises
    [UnboundLocalError] instead of returning [True], and the stored codes
    are the two of before. *)
Theorem backup_code_login_raises :
  TOTPService.verify_backup_code ["ABCD1234"; "0F0F0F0F"] " abcd1234 "
  = (true, ["0F0F0F0F"])
  /\ TOTPService.verify_totp_code (G := Examples.globals)
       "JBSWY3DPEHPK3PXP" "ABCD1234" 1000 TOTPService.default_window = false
  /\ TOTPService.verify_2fa_login (G := Examples.globals)
       Examples.db2 "u-alice" "ABCD1234" 1000
     = (Raise (UnboundLocalError "datetime"), Examples.db2)
  /\ map (fun r => Encryption.decrypt (TwoFactorAuth.backup_codes r))
         (Db.two_factor_auth Examples.db2)
     = [["ABCD1234"; "0F0F0F0F"]].
Proof. vm_compute. repeat split; reflexivity. Qed.

(* ================================================================== *)
(** * OAuth Federation Manager                                         *)
(* ================================================================== *)

Section OAuthFacts.

Lemma get_add_fresh {A : Type} (pk : A -> string) (obj : A) (rows : list A) :
  ~ In (pk obj) (map pk rows) ->
  Sql.get pk (pk obj) (Sql.add obj rows) = Some obj.
Proof.
  unfold Sql.get, Sql.add.
  induction rows as [|x rows IH]; simpl; intros H.
  - rewrite String.eqb_refl. reflexivity.
  - destruct (String.eqb_spec (pk x) (pk obj)) as [E|E].
    + exfalso. apply H. left. exact E.
    + apply IH. intros Hin. apply H. right. exact Hin.
Qed.

Lemma pk_unique_add {A : Type} (pk : A -> string) (obj : A) (rows : list A) :
  Sql.pk_unique pk rows ->
  ~ In (pk obj) (map pk rows) ->
  Sql.pk_unique pk (Sql.add obj rows).
Proof.
  unfold Sql.pk_unique, Sql.add. intros Hu Hf.
  rewrite map_app. simpl.
  induction rows as [|x rows IH]; simpl in *.
  - constructor; [tauto|constructor].
  - inversion Hu as [|? ? Hx Hu']; subst. constructor.
    + rewrite in_app_iff. simpl. intros [H|[H|[]]]; [tauto|].
      apply Hf. left. symmetry. exact H.
    + apply IH; [exact Hu'|]. intros H. apply Hf. right. exact H.
Qed.

(** The provider is looked up by the lower-case form of the name: under
    another spelling the same provider gives the same answers. *)
Lemma provider_answers_spelling (ps : OAuth2Service.providers)
    (provider_name provider_name2 code redirect_uri : string)
    (tokens : Provider.tokens) (user_info : Provider.user_info) :
  lower provider_name2 = lower provider_name ->
  OAuth2Service.provider_answers ps provider_name code redirect_uri tokens user_info ->
  OAuth2Service.provider_answers ps provider_name2 code redirect_uri tokens user_info.
Proof.
  intros Hl [provider [H1 H234]]. exists provider. split; [|exact H234].
  unfold OAuth2Service.get_provider in *. rewrite Hl.
  destruct (String.eqb (lower provider_name) "google"); [exact H1|].
  destruct (String.eqb (lower provider_name) "github"); [exact H1|].
  destruct (String.eqb (lower provider_name) "microsoft"); [exact H1|].
  discriminate.
Qed.

(** Up to the completeness check, the call is decided by what the
    provider answered. *)
Lemma authenticate_with_code_answers (ps : OAuth2Service.providers) (d : Db.t)
    (provider_name code redirect_uri tenant_id new_user_id new_account_id : string)
    (now : datetime) (tokens : Provider.tokens) (user_info : Provider.user_info) :
  OAuth2Service.provider_answers ps provider_name code redirect_uri tokens user_info ->
  OAuth2Service.authenticate_with_code ps d provider_name code redirect_uri
    tenant_id new_user_id new_account_id now
  = if negb (truthy_str (Some (Provider.str (Provider.id user_info))))
       || negb (truthy_str (Provider.email user_info))
    then (Raise (AuthenticationError "Incomplete user information from provider"), d)
    else OAuth2Service.link_or_create d provider_name
           (Provider.str (Provider.id user_info))
           (OAuth2Service.text (Provider.email user_info)) user_info
           (OAuth2Service.text (Provider.access_token tokens)) tokens
           tenant_id new_user_id new_account_id now.
Proof.
  intros [provider [H1 [H2 [H3 H4]]]].
  unfold OAuth2Service.authenticate_with_code.
  rewrite H1, H2, H3. simpl. rewrite H4. reflexivity.
Qed.

Lemma authenticate_with_code_complete (ps : OAuth2Service.providers) (d : Db.t)
    (provider_name code redirect_uri tenant_id new_user_id new_account_id : string)
    (now : datetime) (tokens : Provider.tokens) (user_info : Provider.user_info) :
  OAuth2Service.provider_answers ps provider_name code redirect_uri tokens user_info ->
  Provider.str (Provider.id user_info) <> "" ->
  truthy_str (Provider.email user_info) = true ->
  OAuth2Service.authenticate_with_code ps d provider_name code redirect_uri
    tenant_id new_user_id new_account_id now
  = OAuth2Service.link_or_create d provider_name
      (Provider.str (Provider.id user_info))
      (OAuth2Service.text (Provider.email user_info)) user_info
      (OAuth2Service.text (Provider.access_token tokens)) tokens
      tenant_id new_user_id new_account_id now.
Proof.
  intros Ha Hid Hem.
  rewrite (authenticate_with_code_answers _ _ _ _ _ _ _ _ _ _ _ Ha).
  rewrite Hem. simpl.
  destruct (String.eqb_spec (Provider.str (Provider.id user_info)) "");
    [contradiction|reflexivity].
Qed.

(** X14.  What the completeness check does catch: an empty subject id, and a
    missing or empty email. *)
Lemma authenticate_with_code_incomplete (ps : OAuth2Service.providers) (d : Db.t)
    (provider_name code redirect_uri tenant_id new_user_id new_account_id : string)
    (now : datetime) (tokens : Provider.tokens) (user_info : Provider.user_info) :
  OAuth2Service.provider_answers ps provider_name code redirect_uri tokens user_info ->
  Provider.id user_info = Some (Provider.JString "")
  \/ truthy_str (Provider.email user_info) = false ->
  OAuth2Service.authenticate_with_code ps d provider_name code redirect_uri
    tenant_id new_user_id new_account_id now
  = (Raise (AuthenticationError "Incomplete user information from provider"), d).
Proof.
  intros Ha H.
  rewrite (authenticate_with_code_answers _ _ _ _ _ _ _ _ _ _ _ Ha).
  destruct H as [H|H]; rewrite H; simpl; [reflexivity|].
  rewrite orb_true_r. reflexivity.
Qed.

(** The columns of a created principal that the answer does not
    decide. *)
Lemma new_user_fields (new_id email tenant_id : string)
    (user_info : Provider.user_info) (user : User.t) :
  OAuth2Service.new_user new_id email tenant_id user_info = Ok user ->
  User.id user = new_id
  /\ User.email user = email
  /\ User.tenant_id user = tenant_id
  /\ User.is_email_verified user = true
  /\ User.is_active user = true
  /\ User.hashed_password user = None
  /\ User.locked_until user = None
  /\ OAuth2Service.first_name_of user_info = Ok (User.first_name user)
  /\ OAuth2Service.last_name_of user_info = Ok (User.last_name user).
Proof.
  unfold OAuth2Service.new_user.
  destruct (OAuth2Service.first_name_of user_info) as [first|]; simpl;
    [|discriminate].
  destruct (OAuth2Service.last_name_of user_info) as [last|]; simpl;
    [|discriminate].
  intros H. inversion H. simpl. repeat split; reflexivity.
Qed.

Lemma new_user_id_eq (new_id email tenant_id : string)
    (user_info : Provider.user_info) (user : User.t) :
  OAuth2Service.new_user new_id email tenant_id user_info = Ok user ->
  User.id user = new_id.
Proof. intros H. apply new_user_fields in H. tauto. Qed.

Lemma new_user_returns (new_id email tenant_id : string)
    (user_info : Provider.user_info) :
  OAuth2Service.names_readable user_info ->
  exists user, OAuth2Service.new_user new_id email tenant_id user_info = Ok user.
Proof.
  unfold OAuth2Service.new_user, OAuth2Service.first_name_of,
    OAuth2Service.last_name_of, OAuth2Service.name_to_split.
  intros [H|[[s H]|[H1 H2]]].
  - rewrite H.
    destruct (truthy_str (Provider.given_name user_info));
      destruct (truthy_str (Provider.family_name user_info)); simpl; eauto.
  - rewrite H.
    destruct (truthy_str (Provider.given_name user_info));
      destruct (truthy_str (Provider.family_name user_info)); simpl; eauto.
  - rewrite H1, H2. simpl. eauto.
Qed.

(** A name that is no text, when it has to be split. *)
Lemma new_user_raises (new_id email tenant_id : string)
    (user_info : Provider.user_info) (v : Provider.json) :
  Provider.name user_info = Some v ->
  (forall s, v <> Provider.JString s) ->
  truthy_str (Provider.given_name user_info) = false
  \/ truthy_str (Provider.family_name user_info) = false ->
  exists e,
    OAuth2Service.name_to_split user_info = Raise e
    /\ OAuth2Service.new_user new_id email tenant_id user_info = Raise e.
Proof.
  intros Hn Hv Hor.
  assert (He : exists e, OAuth2Service.name_to_split user_info = Raise e).
  { unfold OAuth2Service.name_to_split. rewrite Hn.
    destruct v as [| b | n | s]; eauto. exfalso. apply (Hv s). reflexivity. }
  destruct He as [e He]. exists e. split; [exact He|].
  unfold OAuth2Service.new_user, OAuth2Service.first_name_of,
    OAuth2Service.last_name_of. rewrite He.
  destruct (truthy_str (Provider.given_name user_info)) eqn:E1; simpl;
    [|reflexivity].
  destruct Hor as [Hor|Hor]; [discriminate|]. rewrite Hor. reflexivity.
Qed.

Section LinkOrCreate.
Variables (d : Db.t) (provider_name sid email : string)
          (user_info : Provider.user_info) (access_token : string)
          (tokens : Provider.tokens)
          (tenant_id new_user_id new_account_id : string) (now : datetime).

Local Abbreviation outcome :=
  (OAuth2Service.link_or_create d provider_name sid email user_info
     access_token tokens tenant_id new_user_id new_account_id now).

(** The first branch: the account of the pair exists. *)
Lemma link_or_create_existing (acct : OAuth2Account.t) (user : User.t) :
  OAuth2Service.select_oauth_account d provider_name sid = [acct] ->
  Sql.get User.id (OAuth2Account.user_id acct) (Db.users d) = Some user ->
  User.is_active user = true ->
  outcome
  = (Ok user,
     Db.commit_oauth2_account
       (OAuth2Account.with_tokens (Some access_token)
          (Provider.refresh_token tokens)
          (OAuth2Service.new_expires_at tokens now (OAuth2Account.expires_at acct))
          acct) d).
Proof.
  intros Hs Hg Ha. unfold OAuth2Service.link_or_create.
  rewrite Hs. simpl. rewrite Hg, Ha. reflexivity.
Qed.

(** The first branch, when the principal of the account is gone or
    inactive. *)
Lemma link_or_create_unusable (acct : OAuth2Account.t) :
  OAuth2Service.select_oauth_account d provider_name sid = [acct] ->
  Sql.get User.id (OAuth2Account.user_id acct) (Db.users d) = None
  \/ (exists user,
        Sql.get User.id (OAuth2Account.user_id acct) (Db.users d) = Some user
        /\ User.is_active user = false) ->
  outcome = (Raise (AuthenticationError "User account is inactive"), d).
Proof.
  intros Hs Hg. unfold OAuth2Service.link_or_create.
  rewrite Hs. simpl.
  destruct Hg as [Hg|[user [Hg Ha]]]; rewrite Hg; [reflexivity|].
  rewrite Ha. reflexivity.
Qed.

(** Two accounts for the pair: the query for one of them raises. *)
Lemma link_or_create_duplicates (a1 a2 : OAuth2Account.t)
    (rest : list OAuth2Account.t) :
  OAuth2Service.select_oauth_account d provider_name sid = a1 :: a2 :: rest ->
  outcome = (Raise MultipleResultsFound, d).
Proof.
  intros Hs. unfold OAuth2Service.link_or_create. rewrite Hs. reflexivity.
Qed.

(** The accounts stored under another spelling of the provider's name
    are neither read nor written. *)
Lemma link_or_create_other_provider (provider_name2 sid2 : string) :
  Sql.pk_unique OAuth2Account.id (Db.oauth2_accounts d) ->
  provider_name2 <> provider_name ->
  OAuth2Service.select_oauth_account (snd outcome) provider_name2 sid2
  = OAuth2Service.select_oauth_account d provider_name2 sid2.
Proof.
  intros Hua Hne.
  assert (Hadd : forall acct,
             OAuth2Account.provider acct = provider_name ->
             filter (fun o => String.eqb (OAuth2Account.provider o) provider_name2
                              && String.eqb (OAuth2Account.provider_user_id o) sid2)
                    (Sql.add acct (Db.oauth2_accounts d))
             = OAuth2Service.select_oauth_account d provider_name2 sid2).
  { intros acct Hp. unfold Sql.add. rewrite filter_app. simpl. rewrite Hp.
    destruct (String.eqb_spec provider_name provider_name2) as [E|_];
      [exfalso; apply Hne; symmetry; exact E|].
    simpl. apply app_nil_r. }
  unfold OAuth2Service.link_or_create.
  destruct (OAuth2Service.select_oauth_account d provider_name sid)
    as [|acct [|acct2 rest]] eqn:Hs; simpl; [| |reflexivity].
  - destruct (OAuth2Service.select_user_by_email d email)
      as [|u [|u2 urest]]; simpl; [| |reflexivity].
    + destruct (Sql.get Tenant.id tenant_id (Db.tenants d)) as [tenant|];
        [|reflexivity].
      destruct (Tenant.is_active tenant); simpl; [|reflexivity].
      destruct (OAuth2Service.new_user new_user_id email tenant_id user_info);
        [|reflexivity].
      unfold OAuth2Service.select_oauth_account at 1. simpl.
      apply Hadd. reflexivity.
    + unfold OAuth2Service.select_oauth_account at 1. simpl.
      apply Hadd. reflexivity.
  - destruct (Sql.get User.id (OAuth2Account.user_id acct) (Db.users d))
      as [user|]; [|reflexivity].
    destruct (User.is_active user); simpl; [|reflexivity].
    destruct (filter_singleton_In _ _ _ Hs) as [Hin HP].
    apply andb_prop in HP. destruct HP as [HP _].
    apply String.eqb_eq in HP.
    unfold OAuth2Service.select_oauth_account. simpl.
    apply (filter_write_other OAuth2Account.id) with (r := acct);
      [exact Hua|exact Hin|reflexivity| |]; simpl; rewrite HP;
      (destruct (String.eqb_spec provider_name provider_name2) as [E|_];
       [exfalso; apply Hne; symmetry; exact E|reflexivity]).
Qed.

(** When an account of the pair exists, the call adds no row, whatever
    its outcome. *)
Lemma link_or_create_no_new_row :
  OAuth2Service.select_oauth_account d provider_name sid <> [] ->
  length (Db.oauth2_accounts (snd outcome)) = length (Db.oauth2_accounts d)
  /\ Db.users (snd outcome) = Db.users d.
Proof.
  intros Hne. unfold OAuth2Service.link_or_create.
  destruct (OAuth2Service.select_oauth_account d provider_name sid)
    as [|acct [|acct2 rest]]; [contradiction| |simpl; auto].
  simpl.
  destruct (Sql.get User.id (OAuth2Account.user_id acct) (Db.users d))
    as [user|]; [|simpl; auto].
  destruct (User.is_active user); simpl; [|auto].
  split; [apply write_length|reflexivity].
Qed.

(** A row is added to the accounts only when the pair had none. *)
Lemma link_or_create_new_row :
  length (Db.oauth2_accounts (snd outcome)) <> length (Db.oauth2_accounts d) ->
  OAuth2Service.select_oauth_account d provider_name sid = [].
Proof.
  intros Hlen.
  destruct (OAuth2Service.select_oauth_account d provider_name sid) eqn:E;
    [reflexivity|].
  exfalso. apply Hlen. apply link_or_create_no_new_row.
  rewrite E. discriminate.
Qed.

Lemma select_oauth_account_added (d' : Db.t) (acct : OAuth2Account.t) :
  OAuth2Service.select_oauth_account d provider_name sid = [] ->
  OAuth2Account.provider acct = provider_name ->
  OAuth2Account.provider_user_id acct = sid ->
  Db.oauth2_accounts d' = Sql.add acct (Db.oauth2_accounts d) ->
  OAuth2Service.select_oauth_account d' provider_name sid = [acct].
Proof.
  unfold OAuth2Service.select_oauth_account, Sql.add.
  intros Hs Hp Hi ->. rewrite filter_app, Hs. simpl.
  rewrite Hp, Hi, !String.eqb_refl. reflexivity.
Qed.

(** After a call that returned a principal, the pair has exactly one
    account, it points to that principal, and the tables still have
    unique keys. *)
Lemma link_or_create_linked (user : User.t) (d1 : Db.t) :
  Sql.pk_unique User.id (Db.users d) ->
  Sql.pk_unique OAuth2Account.id (Db.oauth2_accounts d) ->
  ~ In new_user_id (map User.id (Db.users d)) ->
  ~ In new_account_id (map OAuth2Account.id (Db.oauth2_accounts d)) ->
  outcome = (Ok user, d1) ->
  exists acct1,
    OAuth2Service.select_oauth_account d1 provider_name sid = [acct1]
    /\ Sql.get User.id (OAuth2Account.user_id acct1) (Db.users d1) = Some user
    /\ Sql.pk_unique OAuth2Account.id (Db.oauth2_accounts d1).
Proof.
  intros Huu Hua Hfu Hfa. unfold OAuth2Service.link_or_create.
  destruct (OAuth2Service.select_oauth_account d provider_name sid)
    as [|acct [|acct2 rest]] eqn:Hs; simpl; [| |discriminate].
  - (* no account: by email, or a new principal *)
    destruct (OAuth2Service.select_user_by_email d email)
      as [|u [|u2 urest]] eqn:Hu; simpl; [| |discriminate].
    + destruct (Sql.get Tenant.id tenant_id (Db.tenants d)) as [tenant|];
        [|discriminate].
      destruct (Tenant.is_active tenant); simpl; [|discriminate].
      destruct (OAuth2Service.new_user new_user_id email tenant_id user_info)
        as [created|] eqn:Hnew; [|discriminate].
      intros H. inversion H. subst user d1. clear H.
      eexists. split; [|split].
      * apply select_oauth_account_added with (d' := _);
          [exact Hs| | |reflexivity]; reflexivity.
      * simpl. apply (get_add_fresh User.id created).
        rewrite (new_user_id_eq _ _ _ _ _ Hnew). exact Hfu.
      * simpl. apply pk_unique_add; assumption.
    + intros H. inversion H. subst u d1. clear H.
      eexists. split; [|split].
      * apply select_oauth_account_added with (d' := _);
          [exact Hs| | |reflexivity]; reflexivity.
      * simpl. apply (get_In User.id); [exact Huu|].
        destruct (filter_singleton_In _ _ _ Hu) as [Hin _]. exact Hin.
      * simpl. apply pk_unique_add; assumption.
  - (* the account exists *)
    destruct (Sql.get User.id (OAuth2Account.user_id acct) (Db.users d))
      as [u|] eqn:Hg; [|discriminate].
    destruct (User.is_active u); simpl; [|discriminate].
    intros H. inversion H. subst u d1. clear H.
    eexists. split; [|split].
    + unfold OAuth2Service.select_oauth_account. simpl.
      apply (filter_write_single OAuth2Account.id) with (r := acct);
        [exact Hua|exact Hs|reflexivity|].
      destruct (filter_singleton_In _ _ _ Hs) as [_ HP]. exact HP.
    + simpl. exact Hg.
    + simpl. apply (write_pk_unique OAuth2Account.id). exact Hua.
Qed.

End LinkOrCreate.

End OAuthFacts.

(** C6, as the code has it.  The provider's answer carries an access
    token, a subject id and an email that is not empty.  The pair is the
    provider's name as the call spells it and the subject id.
    (1) If the pair has exactly one account and the principal it points
    to is active, the call returns that principal, whatever email the
    provider sent.  (2) If the principal of that account is missing or
    inactive, the call fails with "User account is inactive" and commits
    nothing; (3) if the pair has two accounts or more, it fails with
    [MultipleResultsFound] and commits nothing.  (4) If the pair has an
    account, the call adds no account and no user, whatever its outcome;
    (5) so an account is added, by email or with a new principal, only
    when the pair had none.  (6) In a database with unique keys, after a
    call that returned an active principal, a second call for the same
    pair, with any other answer of the provider, returns the same
    principal, adds no account and leaves the pair with exactly one
    account, which points to that principal.  (7) The provider is found
    by the lower-case form of the name, so under another spelling the
    same provider answers; (8) the accounts are stored and looked up
    under the spelling of the call, so in a database with unique keys the
    call leaves the accounts of every other spelling as they are. *)
Theorem oauth_linkage (ps : OAuth2Service.providers) (d : Db.t)
    (provider_name code redirect_uri tenant_id new_user_id new_account_id : string)
    (now : datetime) (tokens : Provider.tokens) (user_info : Provider.user_info) :
  OAuth2Service.provider_answers ps provider_name code redirect_uri tokens user_info ->
  Provider.str (Provider.id user_info) <> "" ->
  truthy_str (Provider.email user_info) = true ->
  let sid := Provider.str (Provider.id user_info) in
  let outcome :=
    OAuth2Service.authenticate_with_code ps d provider_name code redirect_uri
      tenant_id new_user_id new_account_id now in
  (forall acct user,
      OAuth2Service.select_oauth_account d provider_name sid = [acct] ->
      Sql.get User.id (OAuth2Account.user_id acct) (Db.users d) = Some user ->
      User.is_active user = true ->
      fst outcome = Ok user)
  /\ (forall acct,
      OAuth2Service.select_oauth_account d provider_name sid = [acct] ->
      Sql.get User.id (OAuth2Account.user_id acct) (Db.users d) = None
      \/ (exists user,
            Sql.get User.id (OAuth2Account.user_id acct) (Db.users d) = Some user
            /\ User.is_active user = false) ->
      outcome = (Raise (AuthenticationError "User account is inactive"), d))
  /\ (forall a1 a2 rest,
      OAuth2Service.select_oauth_account d provider_name sid = a1 :: a2 :: rest ->
      outcome = (Raise MultipleResultsFound, d))
  /\ (OAuth2Service.select_oauth_account d provider_name sid <> [] ->
      length (Db.oauth2_accounts (snd outcome)) = length (Db.oauth2_accounts d)
      /\ Db.users (snd outcome) = Db.users d)
  /\ (length (Db.oauth2_accounts (snd outcome)) <> length (Db.oauth2_accounts d) ->
      OAuth2Service.select_oauth_account d provider_name sid = [])
  /\ (Sql.pk_unique User.id (Db.users d) ->
      Sql.pk_unique OAuth2Account.id (Db.oauth2_accounts d) ->
      ~ In new_user_id (map User.id (Db.users d)) ->
      ~ In new_account_id (map OAuth2Account.id (Db.oauth2_accounts d)) ->
      forall user d1,
        outcome = (Ok user, d1) ->
        User.is_active user = true ->
        forall code2 redirect_uri2 tenant_id2 new_user_id2 new_account_id2
               now2 tokens2 user_info2,
          OAuth2Service.provider_answers ps provider_name code2 redirect_uri2
            tokens2 user_info2 ->
          Provider.str (Provider.id user_info2) = sid ->
          truthy_str (Provider.email user_info2) = true ->
          let outcome2 :=
            OAuth2Service.authenticate_with_code ps d1 provider_name code2
              redirect_uri2 tenant_id2 new_user_id2 new_account_id2 now2 in
          fst outcome2 = Ok user
          /\ length (Db.oauth2_accounts (snd outcome2))
             = length (Db.oauth2_accounts d1)
          /\ exists acct2,
              OAuth2Service.select_oauth_account (snd outcome2) provider_name sid
              = [acct2]
              /\ OAuth2Account.user_id acct2 = User.id user)
  /\ (forall provider_name2,
      lower provider_name2 = lower provider_name ->
      OAuth2Service.provider_answers ps provider_name2 code redirect_uri
        tokens user_info)
  /\ (Sql.pk_unique OAuth2Account.id (Db.oauth2_accounts d) ->
      forall provider_name2 sid2,
        provider_name2 <> provider_name ->
        OAuth2Service.select_oauth_account (snd outcome) provider_name2 sid2
        = OAuth2Service.select_oauth_account d provider_name2 sid2).
Proof.
  intros Ha Hid Hem sid outcome.
  assert (Hout : outcome
                 = OAuth2Service.link_or_create d provider_name sid
                     (OAuth2Service.text (Provider.email user_info)) user_info
                     (OAuth2Service.text (Provider.access_token tokens)) tokens
                     tenant_id new_user_id new_account_id now).
  { apply authenticate_with_code_complete; assumption. }
  rewrite Hout.
  split; [|split; [|split; [|split; [|split; [|split; [|split]]]]]].
  - intros acct user Hs Hg Hact.
    rewrite (link_or_create_existing _ _ _ _ _ _ _ _ _ _ _ acct user Hs Hg Hact).
    reflexivity.
  - intros acct Hs Hg. apply link_or_create_unusable with (acct := acct);
      assumption.
  - intros a1 a2 rest Hs.
    apply link_or_create_duplicates with (a1 := a1) (a2 := a2) (rest := rest).
    exact Hs.
  - apply link_or_create_no_new_row.
  - apply link_or_create_new_row.
  - intros Huu Hua Hfu Hfa user d1 H1 Hact
           code2 redirect_uri2 tenant_id2 new_user_id2 new_account_id2
           now2 tokens2 user_info2 Ha2 Hid2 Hem2 outcome2.
    destruct (link_or_create_linked _ _ _ _ _ _ _ _ _ _ _ user d1
                Huu Hua Hfu Hfa H1) as [acct1 [Hs1 [Hg1 Hu1]]].
    assert (Hout2 : outcome2
                    = OAuth2Service.link_or_create d1 provider_name sid
                        (OAuth2Service.text (Provider.email user_info2)) user_info2
                        (OAuth2Service.text (Provider.access_token tokens2)) tokens2
                        tenant_id2 new_user_id2 new_account_id2 now2).
    { unfold outcome2. rewrite <- Hid2.
      apply authenticate_with_code_complete; [exact Ha2| |exact Hem2].
      rewrite Hid2. exact Hid. }
    rewrite Hout2.
    rewrite (link_or_create_existing _ _ _ _ _ _ _ _ _ _ _ acct1 user Hs1 Hg1 Hact).
    simpl. split; [reflexivity|]. split; [apply write_length|].
    eexists. split.
    + unfold OAuth2Service.select_oauth_account. simpl.
      apply (filter_write_single OAuth2Account.id) with (r := acct1);
        [exact Hu1|exact Hs1|reflexivity|].
      destruct (filter_singleton_In _ _ _ Hs1) as [_ HP]. exact HP.
    + simpl. apply get_Some in Hg1. destruct Hg1 as [_ Hg1].
      symmetry. exact Hg1.
  - intros provider_name2 Hl.
    apply provider_answers_spelling with (provider_name := provider_name);
      assumption.
  - intros Hua provider_name2 sid2 Hne.
    apply link_or_create_other_provider; assumption.
Qed.

(** The theorem on the sample database: GitHub answers with subject 7 and
    Alice's address twice; the first call links Alice, the second returns
    her again and the pair keeps its one account. *)
Lemma oauth_linkage_witness :
  let ps := Examples.answering Examples.provider_tokens
              (Examples.info (Some (Provider.JNumber 7)) (Some "alice@x.com")) in
  exists d1,
    OAuth2Service.authenticate_with_code ps Examples.db0 "github" "code-1"
      "https://app/cb" "t-1" "u-new" "oa-1" 100 = (Ok Examples.alice, d1)
    /\ fst (OAuth2Service.authenticate_with_code ps d1 "github" "code-2"
              "https://app/cb" "t-1" "u-new2" "oa-2" 200) = Ok Examples.alice.
Proof.
  intros ps.
  assert (Ha : forall code,
             OAuth2Service.provider_answers ps "github" code "https://app/cb"
               Examples.provider_tokens
               (Examples.info (Some (Provider.JNumber 7)) (Some "alice@x.com"))).
  { intros code. eexists. repeat split; reflexivity. }
  destruct (oauth_linkage ps Examples.db0 "github" "code-1" "https://app/cb"
              "t-1" "u-new" "oa-1" 100 _ _ (Ha "code-1"))
    as [_ [_ [_ [_ [_ [H4 _]]]]]]; [discriminate|reflexivity|].
  eexists. split; [reflexivity|].
  edestruct H4 as [H _].
  - unfold Sql.pk_unique. simpl. repeat constructor; simpl; intuition discriminate.
  - unfold Sql.pk_unique. simpl. constructor.
  - simpl. intuition discriminate.
  - simpl. tauto.
  - reflexivity.
  - reflexivity.
  - exact (Ha "code-2").
  - reflexivity.
  - reflexivity.
  - exact H.
Defined.

(** C6 as stated fails.  Bob is inactive and has no federated identity.
    GitHub answers with subject 42 and Bob's address: the first call
    links the pair to Bob by email and returns him; the second call, for
    the same pair, finds the account, does not return the principal it is
    linked to and fails with "User account is inactive". *)
Lemma oauth_second_call_refused :
  let ps := Examples.answering Examples.provider_tokens
              (Examples.info (Some (Provider.JNumber 42)) (Some "bob@x.com")) in
  exists d1 acct,
    OAuth2Service.authenticate_with_code ps Examples.db0 "github" "code-1"
      "https://app/cb" "t-1" "u-new" "oa-1" 100 = (Ok Examples.bob, d1)
    /\ OAuth2Service.select_oauth_account d1 "github" "42" = [acct]
    /\ OAuth2Account.user_id acct = User.id Examples.bob
    /\ OAuth2Service.authenticate_with_code ps d1 "github" "code-2"
         "https://app/cb" "t-1" "u-new2" "oa-2" 200
       = (Raise (AuthenticationError "User account is inactive"), d1).
Proof.
  intros ps. eexists. eexists.
  split; [vm_compute; reflexivity|].
  split; [vm_compute; reflexivity|].
  split; vm_compute; reflexivity.
Qed.

(** The spelling of the provider's name is part of the pair.  GitHub
    answers with subject 7 and Alice's address, and the call for
    "github" links the pair to Alice.  A call for "GitHub" reaches the
    same provider, does not find that account, and for an answer with
    the same subject and Carol's address creates a second principal and
    a second account of subject 7. *)
Lemma oauth_spelling_of_the_provider :
  let alice_info := Examples.info (Some (Provider.JNumber 7)) (Some "alice@x.com") in
  let carol_info := Examples.info (Some (Provider.JNumber 7)) (Some "carol@x.com") in
  exists d1 carol d2,
    OAuth2Service.authenticate_with_code
      (Examples.answering Examples.provider_tokens alice_info) Examples.db0
      "github" "code-1" "https://app/cb" "t-1" "u-new" "oa-1" 100
    = (Ok Examples.alice, d1)
    /\ OAuth2Service.authenticate_with_code
         (Examples.answering Examples.provider_tokens carol_info) d1
         "GitHub" "code-2" "https://app/cb" "t-1" "u-carol" "oa-2" 200
       = (Ok carol, d2)
    /\ User.id carol = "u-carol"
    /\ map (fun o => (OAuth2Account.provider o,
                      OAuth2Account.provider_user_id o,
                      OAuth2Account.user_id o))
           (Db.oauth2_accounts d2)
       = [("github", "7", "u-alice"); ("GitHub", "7", "u-carol")].
Proof.
  intros alice_info carol_info. eexists. eexists. eexists.
  split; [vm_compute; reflexivity|].
  split; [vm_compute; reflexivity|].
  split; vm_compute; reflexivity.
Qed.

(** C5 at the failing input.  GitHub's user-info answer has an email and
    no ['id'] key.  [str(None)] is the text "None", which is not empty,
    so the completeness check passes: the call creates a principal for
    Carol and a federated identity with subject id "None".  A later
    answer without id, for another address, then matches that identity
    and is given Carol's principal. *)
Theorem missing_subject_id_is_accepted :
  let carol := Examples.info None (Some "carol@x.com") in
  let mallory := Examples.info (Some Provider.JNull) (Some "mallory@x.com") in
  exists user d1,
    OAuth2Service.authenticate_with_code
      (Examples.answering Examples.provider_tokens carol) Examples.db0
      "github" "code-1" "https://app/cb" "t-1" "u-carol" "oa-1" 100
    = (Ok user, d1)
    /\ User.email user = "carol@x.com"
    /\ map OAuth2Account.provider_user_id (Db.oauth2_accounts d1) = ["None"]
    /\ fst (OAuth2Service.authenticate_with_code
              (Examples.answering Examples.provider_tokens mallory) d1
              "github" "code-2" "https://app/cb" "t-1" "u-mallory" "oa-2" 200)
       = Ok user.
Proof.
  intros carol mallory. eexists. eexists.
  split; [vm_compute; reflexivity|].
  split; [vm_compute; reflexivity|].
  split; vm_compute; reflexivity.
Qed.

(* ================================================================== *)
(** * Further properties: signed tokens and password login             *)
(* ================================================================== *)

Section MoreSqlFacts.
Context {A : Type} (pk : A -> string).

Lemma pk_injective (rows : list A) (a b : A) :
  Sql.pk_unique pk rows -> In a rows -> In b rows -> pk a = pk b -> a = b.
Proof.
  unfold Sql.pk_unique.
  induction rows as [|x rows IH]; simpl; intros Hu Ha Hb Hpk; [contradiction|].
  inversion Hu as [|? ? Hx Hu']; subst.
  destruct Ha as [->|Ha]; destruct Hb as [->|Hb]; auto.
  - exfalso. apply Hx. rewrite Hpk. apply in_map. exact Hb.
  - exfalso. apply Hx. rewrite <- Hpk. apply in_map. exact Ha.
Qed.

Lemma write_write (obj : A) (rows : list A) :
  Sql.write pk obj (Sql.write pk obj rows) = Sql.write pk obj rows.
Proof.
  unfold Sql.write. rewrite map_map. apply map_ext. intros x.
  destruct (String.eqb_spec (pk x) (pk obj)) as [E|E].
  - rewrite String.eqb_refl. reflexivity.
  - destruct (String.eqb_spec (pk x) (pk obj)); [contradiction|reflexivity].
Qed.

(** A row with another key stays in the written table. *)
Lemma write_keeps (obj r : A) (rows : list A) :
  In r rows -> pk r <> pk obj -> In r (Sql.write pk obj rows).
Proof.
  intros Hin Hne. unfold Sql.write. apply in_map_iff. exists r.
  split; [|exact Hin].
  destruct (String.eqb_spec (pk r) (pk obj)); [contradiction|reflexivity].
Qed.

Lemma filter_andb (P Q : A -> bool) (rows : list A) :
  filter (fun x => P x && Q x) rows = filter Q (filter P rows).
Proof.
  induction rows as [|x rows IH]; simpl; [reflexivity|].
  destruct (P x); simpl; [|exact IH].
  destruct (Q x); rewrite IH; reflexivity.
Qed.

Lemma filter_add_none (P : A -> bool) (obj : A) (rows : list A) :
  filter P rows = [] -> P obj = true -> filter P (Sql.add obj rows) = [obj].
Proof.
  intros Hn HP. unfold Sql.add. rewrite filter_app, Hn. simpl.
  rewrite HP. reflexivity.
Qed.

End MoreSqlFacts.

Section SignedTokenFacts.
Context `{G : Globals}.

(** X1.  Issue and verify.  A token made by [create_access_token] at
    [t0] verifies as an access token, with the subject, email and tenant
    it was made from, at every time before [t0] plus the configured
    minutes, and fails with "Token has expired" from then on; the same
    for [create_refresh_token] and the configured days.  At no time does
    an access token verify as a refresh token, or a refresh token as an
    access token. *)
Theorem signed_token_round_trip (t0 now : datetime) (data : Security.payload) :
  (now < t0 + minutes (ACCESS_TOKEN_EXPIRE_MINUTES settings) ->
   exists claims,
     Security.verify_token now (Security.create_access_token t0 data) "access"
     = Ok claims
     /\ Security.sub claims = Security.sub data
     /\ Security.email claims = Security.email data
     /\ Security.tenant_id claims = Security.tenant_id data
     /\ Security.exp claims
        = Some (t0 + minutes (ACCESS_TOKEN_EXPIRE_MINUTES settings)))
  /\ (t0 + minutes (ACCESS_TOKEN_EXPIRE_MINUTES settings) <= now ->
      Security.verify_token now (Security.create_access_token t0 data) "access"
      = Raise (AuthenticationError "Token has expired"))
  /\ (now < t0 + days (REFRESH_TOKEN_EXPIRE_DAYS settings) ->
      exists claims,
        Security.verify_token now (Security.create_refresh_token t0 data) "refresh"
        = Ok claims
        /\ Security.sub claims = Security.sub data)
  /\ (t0 + days (REFRESH_TOKEN_EXPIRE_DAYS settings) <= now ->
      Security.verify_token now (Security.create_refresh_token t0 data) "refresh"
      = Raise (AuthenticationError "Token has expired"))
  /\ is_ok (Security.verify_token now (Security.create_access_token t0 data)
              "refresh") = false
  /\ is_ok (Security.verify_token now (Security.create_refresh_token t0 data)
              "access") = false.
Proof.
  unfold Security.verify_token, Security.create_access_token,
    Security.create_refresh_token, Security.jwt_decode.
  simpl. rewrite String.eqb_refl.
  split; [|split; [|split; [|split; [|split]]]].
  - intros H.
    destruct (Z.leb_spec (t0 + minutes (ACCESS_TOKEN_EXPIRE_MINUTES settings)) now);
      [lia|]. simpl. eexists. repeat split; reflexivity.
  - intros H.
    destruct (Z.leb_spec (t0 + minutes (ACCESS_TOKEN_EXPIRE_MINUTES settings)) now);
      [reflexivity|lia].
  - intros H.
    destruct (Z.leb_spec (t0 + days (REFRESH_TOKEN_EXPIRE_DAYS settings)) now);
      [lia|]. simpl. eexists. split; reflexivity.
  - intros H.
    destruct (Z.leb_spec (t0 + days (REFRESH_TOKEN_EXPIRE_DAYS settings)) now);
      [reflexivity|lia].
  - destruct (_ <=? now); reflexivity.
  - destruct (_ <=? now); reflexivity.
Qed.


End SignedTokenFacts.

(** The first part of the theorem for Alice's claims, ten minutes after
    issue. *)
Lemma signed_token_round_trip_witness :
  exists claims,
    Security.verify_token (G := Examples.globals) 600
      (Security.create_access_token (G := Examples.globals) 0
         (AuthService.token_data Examples.alice)) "access" = Ok claims
    /\ Security.sub claims = Some "u-alice".
Proof.
  destruct (signed_token_round_trip (G := Examples.globals) 0 600
              (AuthService.token_data Examples.alice)) as [H _].
  destruct H as [claims [H1 [H2 _]]]; [reflexivity|].
  exists claims. split; [exact H1|exact H2].
Defined.


(* ================================================================== *)
(** * Further properties: revocation                                   *)
(* ================================================================== *)

Section MoreRevokeFacts.
Context `{G : Globals}.

Lemma filter_false_nil {A : Type} (P : A -> bool) (rows : list A) :
  (forall x, In x rows -> P x = false) -> filter P rows = [].
Proof.
  induction rows as [|x rows IH]; simpl; intros H; [reflexivity|].
  rewrite (H x) by auto. apply IH. intros y Hy. apply H. auto.
Qed.

(** The rows after the loop of [revoke_all_user_tokens]. *)
Lemma revoke_each_rows (tokens : list AuthToken.t) (count : Z) (d : Db.t)
    (r : AuthToken.t) :
  In r (Db.auth_tokens (snd (AuthService.revoke_each tokens count d))) ->
  (In r (Db.auth_tokens d)
   /\ ~ In (AuthToken.id r) (map AuthToken.id tokens))
  \/ (exists t, In t tokens /\ r = AuthToken.with_is_revoked true t).
Proof.
  revert count d. induction tokens as [|t rest IH]; intros count d.
  - simpl. intros H. left. auto.
  - cbn [AuthService.revoke_each]. intros H.
    destruct (IH _ _ H) as [[H1 H2]|[t' [H1 H2]]].
    + simpl in H1. apply (In_write_strict AuthToken.id) in H1.
      destruct H1 as [[H1 Hne]|H1].
      * left. split; [exact H1|]. simpl. intros [E|E]; [|exact (H2 E)].
        apply Hne. simpl. symmetry. exact E.
      * right. exists t. split; [left; reflexivity|exact H1].
    + right. exists t'. split; [right; exact H1|exact H2].
Qed.

Lemma revoke_each_keeps (tokens : list AuthToken.t) (count : Z) (d : Db.t)
    (r : AuthToken.t) :
  In r (Db.auth_tokens d) ->
  ~ In (AuthToken.id r) (map AuthToken.id tokens) ->
  In r (Db.auth_tokens (snd (AuthService.revoke_each tokens count d))).
Proof.
  revert count d. induction tokens as [|t rest IH]; intros count d Hin Hno;
    [exact Hin|].
  cbn [AuthService.revoke_each]. apply IH.
  - simpl. apply (write_keeps AuthToken.id); [exact Hin|].
    simpl. intros E. apply Hno. left. symmetry. exact E.
  - intros E. apply Hno. right. exact E.
Qed.

Lemma revoke_each_users (tokens : list AuthToken.t) (count : Z) (d : Db.t) :
  Db.users (snd (AuthService.revoke_each tokens count d)) = Db.users d.
Proof.
  revert count d. induction tokens as [|t rest IH]; intros count d;
    [reflexivity|].
  cbn [AuthService.revoke_each]. rewrite IH. reflexivity.
Qed.

Lemma revoke_all_healthy (d : Db.t) (user_id : string) :
  AuthService.revoke_all_user_tokens AuthService.Healthy d user_id
  = (Ok (fst (AuthService.revoke_each
                (AuthService.select_active_tokens d user_id) 0 d)),
     snd (AuthService.revoke_each
            (AuthService.select_active_tokens d user_id) 0 d)).
Proof.
  unfold AuthService.revoke_all_user_tokens, AuthService.revoke_all_body.
  simpl. destruct (AuthService.revoke_each _ 0 d). reflexivity.
Qed.

(** X5.  [revoke_token] is idempotent and confined to its principal.  In
    a table with unique keys, after a call that returned [True] a second
    call for the same token and principal returns [True] again and
    leaves the database as the first call left it; the first call keeps
    every record of another principal and does not touch the users. *)
Theorem revoke_token_idempotent (d d1 : Db.t) (tok : Security.token)
    (user_id : string) :
  Sql.pk_unique AuthToken.id (Db.auth_tokens d) ->
  AuthService.revoke_token AuthService.Healthy d tok user_id = (Ok true, d1) ->
  AuthService.revoke_token AuthService.Healthy d1 tok user_id = (Ok true, d1)
  /\ (forall r, In r (Db.auth_tokens d) ->
                AuthToken.user_id r <> user_id ->
                In r (Db.auth_tokens d1))
  /\ Db.users d1 = Db.users d.
Proof.
  intros Hu Hrev.
  unfold AuthService.revoke_token, AuthService.revoke_token_body in Hrev.
  simpl in Hrev.
  destruct (AuthService.select_token_of_user d (Security.hash_token tok) user_id)
    as [|r0 [|r2 rest]] eqn:Hs; simpl in Hrev; try discriminate.
  inversion Hrev. subst d1. clear Hrev.
  destruct (filter_singleton_In _ _ _ Hs) as [Hin0 HP0].
  assert (Hs1 : AuthService.select_token_of_user
                  (Db.commit_auth_token (AuthToken.with_is_revoked true r0) d)
                  (Security.hash_token tok) user_id
                = [AuthToken.with_is_revoked true r0]).
  { unfold AuthService.select_token_of_user. simpl.
    apply (filter_write_single AuthToken.id) with (r := r0); auto. }
  split; [|split; [|reflexivity]].
  - unfold AuthService.revoke_token, AuthService.revoke_token_body. simpl.
    unfold AuthService.select_token_of_user in Hs1. simpl in Hs1.
    unfold AuthService.select_token_of_user. simpl. rewrite Hs1. simpl.
    f_equal. unfold Db.commit_auth_token, Db.with_auth_tokens. simpl.
    f_equal.
    change (AuthToken.with_is_revoked true (AuthToken.with_is_revoked true r0))
      with (AuthToken.with_is_revoked true r0).
    apply (write_write AuthToken.id).
  - intros r Hin Hne. simpl. apply (write_keeps AuthToken.id); [exact Hin|].
    simpl. intros E.
    assert (r = r0) by (apply (pk_injective AuthToken.id) with (rows := Db.auth_tokens d); auto).
    subst r. apply Hne.
    apply andb_prop in HP0. destruct HP0 as [HP0 _].
    apply andb_prop in HP0. destruct HP0 as [_ HP0].
    apply String.eqb_eq. exact HP0.
Qed.

(** X6.  "Log out everywhere."  With the storage working,
    [revoke_all_user_tokens] returns the number of unrevoked refresh
    records the principal had; afterwards the principal has none, so
    every refresh token whose records are the principal's is refused by
    [refresh_access_token]; the users are untouched and, in a table with
    unique keys, so are the records of every other principal. *)
Theorem revoke_all_user_tokens_effect (d : Db.t) (user_id : string) :
  let outcome := AuthService.revoke_all_user_tokens AuthService.Healthy d user_id in
  fst outcome
  = Ok (Z.of_nat (length (AuthService.select_active_tokens d user_id)))
  /\ AuthService.select_active_tokens (snd outcome) user_id = []
  /\ (forall tok now,
         (forall x, In x (Db.auth_tokens d) ->
                    AuthToken.token_hash x = Security.hash_token tok ->
                    AuthToken.user_id x = user_id) ->
         AuthService.refresh_access_token (snd outcome) tok now
         = (Raise (AuthenticationError "Token refresh failed"), snd outcome))
  /\ Db.users (snd outcome) = Db.users d
  /\ (Sql.pk_unique AuthToken.id (Db.auth_tokens d) ->
      forall r, In r (Db.auth_tokens d) ->
                AuthToken.user_id r <> user_id ->
                In r (Db.auth_tokens (snd outcome))).
Proof.
  intros outcome. unfold outcome. rewrite revoke_all_healthy. simpl.
  set (ts := AuthService.select_active_tokens d user_id).
  assert (Hsel : forall x, In x (Db.auth_tokens d) ->
                   AuthToken.user_id x = user_id ->
                   AuthToken.token_type x = "refresh" ->
                   AuthToken.is_revoked x = false ->
                   In (AuthToken.id x) (map AuthToken.id ts)).
  { intros x Hx Hu Ht Hr. apply in_map. unfold ts.
    unfold AuthService.select_active_tokens. apply filter_In.
    split; [exact Hx|]. rewrite Hu, Ht, Hr, !String.eqb_refl. reflexivity. }
  split; [|split; [|split; [|split]]].
  - rewrite revoke_each_count. f_equal.
  - apply filter_false_nil. intros y Hy.
    destruct (revoke_each_rows _ _ _ _ Hy) as [[H1 H2]|[t [_ H2]]].
    + destruct (String.eqb_spec (AuthToken.user_id y) user_id) as [Eu|];
        [|reflexivity].
      destruct (String.eqb_spec (AuthToken.token_type y) "refresh") as [Et|];
        [|reflexivity].
      destruct (AuthToken.is_revoked y) eqn:Er; [reflexivity|].
      exfalso. apply H2. apply Hsel; assumption.
    + subst y. simpl. rewrite andb_false_r. reflexivity.
  - intros tok now Hown.
    assert (Hall : forall y,
               In y (Db.auth_tokens (snd (AuthService.revoke_each ts 0 d))) ->
               AuthToken.token_hash y = Security.hash_token tok ->
               AuthToken.token_type y = "refresh" ->
               AuthToken.is_revoked y = true
               \/ AuthToken.is_expired now y = true).
    { intros y Hy Hh Ht.
      destruct (revoke_each_rows _ _ _ _ Hy) as [[H1 H2]|[t [_ H2]]].
      - destruct (AuthToken.is_revoked y) eqn:Er; [left; reflexivity|].
        exfalso. apply H2. apply Hsel; auto.
      - subst y. left. reflexivity. }
    destruct (refresh_body_unusable _ tok now Hall) as [e He].
    apply refresh_access_token_raise with (e := e). exact He.
  - apply revoke_each_users.
  - intros Hu r Hin Hne. apply revoke_each_keeps; [exact Hin|].
    intros E. apply in_map_iff in E. destruct E as [t [Et Hint]].
    unfold ts, AuthService.select_active_tokens in Hint.
    apply filter_In in Hint. destruct Hint as [Hint HP].
    assert (t = r) by (apply (pk_injective AuthToken.id) with (rows := Db.auth_tokens d); auto).
    subst t. apply Hne.
    apply andb_prop in HP. destruct HP as [HP _].
    apply andb_prop in HP. destruct HP as [HP _].
    apply String.eqb_eq. exact HP.
Qed.

End MoreRevokeFacts.

(** Alice revokes her refresh token twice. *)
Lemma revoke_token_idempotent_witness :
  exists d1,
    AuthService.revoke_token AuthService.Healthy Examples.db1
      Examples.alice_refresh_token "u-alice" = (Ok true, d1)
    /\ AuthService.revoke_token AuthService.Healthy d1
         Examples.alice_refresh_token "u-alice" = (Ok true, d1).
Proof.
  eexists. split; [reflexivity|].
  edestruct (revoke_token_idempotent Examples.db1) as [H _];
    [| |exact H].
  - unfold Sql.pk_unique. simpl. repeat constructor. simpl. tauto.
  - reflexivity.
Defined.

(** Alice logs out everywhere; her refresh token is refused afterwards. *)
Lemma revoke_all_user_tokens_effect_witness :
  let d1 := snd (AuthService.revoke_all_user_tokens AuthService.Healthy
                   Examples.db1 "u-alice") in
  AuthService.refresh_access_token (G := Examples.globals) d1
    Examples.alice_refresh_token 100
  = (Raise (AuthenticationError "Token refresh failed"), d1).
Proof.
  intros d1.
  destruct (revoke_all_user_tokens_effect (G := Examples.globals)
              Examples.db1 "u-alice") as [_ [_ [H _]]].
  apply H. simpl. intros x [<-|[]] _. reflexivity.
Defined.

(** The token [create_tokens] gave Alice at time 0 is refreshed at time
    100. *)
Lemma refresh_after_create_tokens_witness :
  exists response d2,
    AuthService.refresh_access_token (G := Examples.globals) Examples.db1
      Examples.alice_refresh_token 100 = (Ok response, d2).
Proof.
  destruct (refresh_after_create_tokens (G := Examples.globals) Examples.db0
              Examples.alice "10.0.0.1" "agent" "tok-1" 0 100)
    as [response [d2 [H _]]].
  - reflexivity.
  - reflexivity.
  - discriminate.
  - reflexivity.
  - reflexivity.
  - exists response, d2. exact H.
Defined.

(** Alice revokes her token; it is refused afterwards. *)
Lemma refresh_after_revoke_token_witness :
  let d1 := snd (AuthService.revoke_token AuthService.Healthy Examples.db1
                   Examples.alice_refresh_token "u-alice") in
  AuthService.refresh_access_token (G := Examples.globals) d1
    Examples.alice_refresh_token 100
  = (Raise (AuthenticationError "Token refresh failed"), d1).
Proof.
  intros d1.
  apply (refresh_after_revoke_token (G := Examples.globals) Examples.db1 d1
           Examples.alice_refresh_token "u-alice").
  - simpl. intros x [<-|[]] _. reflexivity.
  - reflexivity.
Defined.

(* ================================================================== *)
(** * Further properties: the TOTP credential                          *)
(* ================================================================== *)

Section MoreTOTPFacts.
Context `{G : Globals}.

Lemma select_enabled_of_select (d : Db.t) (user_id : string) :
  TOTPService.select_enabled_2fa d user_id
  = filter TwoFactorAuth.is_enabled (TOTPService.select_2fa d user_id).
Proof.
  unfold TOTPService.select_enabled_2fa, TOTPService.select_2fa.
  apply filter_andb.
Qed.

(** A Fernet token has at least a hundred characters. *)
Lemma token_length_bound (n : Z) :
  0 <= n -> 100 <= Encryption.token_length n.
Proof.
  intros Hn. unfold Encryption.token_length.
  assert (H16 : 0 <= n / 16) by (apply Z.div_pos; lia).
  assert (H3 : 25 <= (57 + 16 * (n / 16 + 1) + 2) / 3).
  { apply Z.div_le_lower_bound; lia. }
  lia.
Qed.

Lemma text_length_bound (secret_key : string) :
  100 <= Encryption.text_length (Encryption.encrypt secret_key).
Proof. simpl. apply token_length_bound. lia. Qed.

Lemma setup_2fa_raises (d : Db.t) (user_id secret_key : string)
    (backup_codes : list string) (new_id : string) :
  TOTPService.setup_2fa d user_id secret_key backup_codes new_id
  = (match Sql.get User.id user_id (Db.users d) with
     | None => Raise (NotFoundError "User not found")
     | Some _ =>
         match TOTPService.select_2fa d user_id with
         | _ :: _ :: _ => Raise MultipleResultsFound
         | _ => Raise DBAPIError
         end
     end, d).
Proof.
  unfold TOTPService.setup_2fa.
  destruct (Sql.get User.id user_id (Db.users d)); [|reflexivity].
  pose proof (text_length_bound secret_key) as Hlen.
  assert (Hlt : (TwoFactorAuth.secret_key_size
                 <? Encryption.text_length (Encryption.encrypt secret_key))
                = true).
  { apply Z.ltb_lt. unfold TwoFactorAuth.secret_key_size. lia. }
  simpl in Hlt.
  destruct (TOTPService.select_2fa d user_id) as [|r [|r2 rest]]; simpl;
    try rewrite Hlt; reflexivity.
Qed.

(** X7.  [setup_2fa] stores no credential.  The encrypted secret is a
    Fernet token: whatever the secret it has at least 100 characters,
    140 for the 32 characters of [pyotp.random_base32()], and the column
    it is written to takes 32.  So for a user that exists and has at
    most one credential the commit raises the error of the database;
    whatever the input, the call raises, the database is as before, and
    a credential that was enabled stays enabled. *)
Theorem setup_2fa_never_stores (d : Db.t) (user_id secret_key : string)
    (backup_codes : list string) (new_id : string) :
  TwoFactorAuth.secret_key_size < 100
  /\ 100 <= Encryption.text_length (Encryption.encrypt secret_key)
  /\ (String.length secret_key = 32%nat ->
      Encryption.text_length (Encryption.encrypt secret_key) = 140)
  /\ (exists e,
        TOTPService.setup_2fa d user_id secret_key backup_codes new_id
        = (Raise e, d))
  /\ (forall user,
        Sql.get User.id user_id (Db.users d) = Some user ->
        (length (TOTPService.select_2fa d user_id) <= 1)%nat ->
        TOTPService.setup_2fa d user_id secret_key backup_codes new_id
        = (Raise DBAPIError, d))
  /\ (forall now,
        TOTPService.run d
          (TOTPService.SetupCall user_id secret_key backup_codes new_id) now
        = d)
  /\ TOTPStatus.is_2fa_enabled
       (snd (TOTPService.setup_2fa d user_id secret_key backup_codes new_id))
       user_id
     = TOTPStatus.is_2fa_enabled d user_id.
Proof.
  split; [reflexivity|].
  split; [apply text_length_bound|].
  split; [intros H32; simpl; rewrite H32; reflexivity|].
  rewrite setup_2fa_raises.
  split; [|split; [|split]].
  - destruct (Sql.get User.id user_id (Db.users d)); [|eauto].
    destruct (TOTPService.select_2fa d user_id) as [|r [|r2 rest]]; eauto.
  - intros user Hu Hlen. rewrite Hu.
    destruct (TOTPService.select_2fa d user_id) as [|r [|r2 rest]];
      [reflexivity|reflexivity|simpl in Hlen; lia].
  - intros now. simpl. rewrite setup_2fa_raises. reflexivity.
  - reflexivity.
Qed.


(** X9.  [regenerate_backup_codes] asks for a TOTP code.  For the
    principal's enabled credential [r]: with a code that is not a valid
    TOTP code -- a backup code, for one -- it returns [None] and commits
    nothing; with a valid TOTP code it returns the new codes and commits
    them in place of the old ones, with the secret unchanged, so that a
    code that is not among the new ones is no longer accepted by
    [verify_backup_code]. *)
Theorem regenerate_backup_codes_spec (d : Db.t) (user_id code : string)
    (new_backup_codes : list string) (now : datetime) (r : TwoFactorAuth.t) :
  Sql.pk_unique TwoFactorAuth.id (Db.two_factor_auth d) ->
  TOTPService.select_enabled_2fa d user_id = [r] ->
  (TOTPService.verify_totp_code
     (Encryption.decrypt (TwoFactorAuth.secret_key r)) code now
     TOTPService.default_window = false ->
   TOTPService.regenerate_backup_codes d user_id code new_backup_codes now
   = (Ok None, d))
  /\ (TOTPService.verify_totp_code
        (Encryption.decrypt (TwoFactorAuth.secret_key r)) code now
        TOTPService.default_window = true ->
      exists d' r',
        TOTPService.regenerate_backup_codes d user_id code new_backup_codes now
        = (Ok (Some new_backup_codes), d')
        /\ TOTPService.select_enabled_2fa d' user_id = [r']
        /\ Encryption.decrypt (TwoFactorAuth.backup_codes r') = new_backup_codes
        /\ TwoFactorAuth.secret_key r' = TwoFactorAuth.secret_key r
        /\ forall old,
            ~ In (strip (upper old)) new_backup_codes ->
            fst (TOTPService.verify_backup_code
                   (Encryption.decrypt (TwoFactorAuth.backup_codes r')) old)
            = false).
Proof.
  intros Hu Hs. split.
  - intros Hv. unfold TOTPService.regenerate_backup_codes.
    rewrite Hs. simpl. rewrite Hv. reflexivity.
  - intros Hv.
    set (r' := TwoFactorAuth.with_backup_codes
                 (Encryption.encrypt new_backup_codes) r).
    exists (Db.commit_two_factor_auth r' d), r'.
    split; [|split; [|split; [reflexivity|split; [reflexivity|]]]].
    + unfold TOTPService.regenerate_backup_codes.
      rewrite Hs. simpl. rewrite Hv. reflexivity.
    + unfold TOTPService.select_enabled_2fa. simpl.
      apply (filter_write_single TwoFactorAuth.id) with (r := r); auto.
      destruct (filter_singleton_In _ _ _ Hs) as [_ HP]. exact HP.
    + intros old Hno. simpl. unfold TOTPService.verify_backup_code, str_in.
      destruct (existsb (String.eqb (strip (upper old))) new_backup_codes) eqn:E;
        [|reflexivity].
      exfalso. apply Hno. apply existsb_exists in E.
      destruct E as [x [Hx Hxe]]. apply String.eqb_eq in Hxe. subst x. exact Hx.
Qed.

End MoreTOTPFacts.

(** Alice, whose second factor is on, runs the setup again with a
    secret of 32 characters: the commit raises and her credential is the
    one of before. *)
Lemma setup_2fa_never_stores_witness :
  Encryption.text_length (Encryption.encrypt "JBSWY3DPEHPK3PXPJBSWY3DPEHPK3PXP")
  = 140
  /\ TOTPService.setup_2fa Examples.db2 "u-alice"
       "JBSWY3DPEHPK3PXPJBSWY3DPEHPK3PXP" ["11112222"] "tfa-2"
     = (Raise DBAPIError, Examples.db2).
Proof.
  destruct (setup_2fa_never_stores (G := Examples.globals) Examples.db2
              "u-alice" "JBSWY3DPEHPK3PXPJBSWY3DPEHPK3PXP" ["11112222"] "tfa-2")
    as [_ [_ [H140 [_ [H _]]]]].
  split; [apply H140; reflexivity|].
  apply (H Examples.alice); [reflexivity|simpl; lia].
Defined.


(** Alice asks for new backup codes with a backup code, and is refused. *)
Lemma regenerate_backup_codes_spec_witness :
  TOTPService.regenerate_backup_codes (G := Examples.globals) Examples.db2
    "u-alice" "ABCD1234" ["99998888"] 1000 = (Ok None, Examples.db2).
Proof.
  destruct (regenerate_backup_codes_spec (G := Examples.globals) Examples.db2
              "u-alice" "ABCD1234" ["99998888"] 1000 Examples.alice_2fa)
    as [H _].
  - unfold Sql.pk_unique. simpl. repeat constructor. simpl. tauto.
  - reflexivity.
  - apply H. reflexivity.
Defined.

(** The first backup code of Alice is accepted and taken out. *)
Lemma verify_backup_code_consumes_witness :
  ~ In "ABCD1234"
      (snd (TOTPService.verify_backup_code ["ABCD1234"; "0F0F0F0F"] "abcd1234 ")).
Proof.
  destruct (verify_backup_code_consumes ["ABCD1234"; "0F0F0F0F"] "abcd1234 ")
    as [H _]; [reflexivity|exact H].
Defined.

(* ================================================================== *)
(** * Further properties: OAuth federation                             *)
(* ================================================================== *)

Section MoreOAuthFacts.
Context `{G : Globals}.

Lemma text_or_default (x : option string) (default : string) :
  default <> "" ->
  OAuth2Service.text (or_str x (Some default)) <> "".
Proof.
  intros Hd. unfold or_str.
  destruct (truthy_str x) eqn:E; [|exact Hd].
  destruct x as [s|]; simpl in *; [|discriminate].
  destruct (String.eqb_spec s ""); [discriminate|assumption].
Qed.

Lemma before_space_append (a b : string) :
  before_space a = a ->
  before_space (a ++ String " " b) = a.
Proof.
  induction a as [|c a IH]; simpl; [reflexivity|].
  destruct (Ascii.eqb c " "); [discriminate|].
  intros H. inversion H as [H']. rewrite H'. rewrite IH by exact H'.
  reflexivity.
Qed.

Lemma after_space_append (a b : string) :
  before_space a = a ->
  after_space (a ++ String " " b) = b.
Proof.
  induction a as [|c a IH]; simpl; [reflexivity|].
  destruct (Ascii.eqb c " "); [discriminate|].
  intros H. inversion H as [H']. rewrite H'. apply IH. exact H'.
Qed.

Lemma truthy_text (x : option string) :
  truthy_str x = true -> OAuth2Service.text x <> "".
Proof.
  destruct x as [s|]; simpl; [|discriminate].
  destruct (String.eqb_spec s ""); [discriminate|auto].
Qed.

(** X13.  The names of a principal created from a provider's answer.
    The names can be taken when the answer's [name] is absent or a
    text, or when both the given and the family name are there: then
    the principal is built.  The names of a principal that was built are
    not empty: they fall back to "User" and "Name".  When the answer has
    no [given_name] and no [family_name] and its [name] is a word
    without blanks, a blank and a rest, the first name is the word and
    the last name is the rest.  When the [name] is there and is no text
    and the given or the family name is missing, no principal is built:
    the name has no [split] and the [AttributeError] of that is raised,
    for a null name the one of [NoneType]. *)
Theorem new_user_names (new_id email tenant_id : string)
    (user_info : Provider.user_info) :
  (OAuth2Service.names_readable user_info ->
   exists user,
     OAuth2Service.new_user new_id email tenant_id user_info = Ok user)
  /\ (forall user,
      OAuth2Service.new_user new_id email tenant_id user_info = Ok user ->
      User.first_name user <> "" /\ User.last_name user <> "")
  /\ (forall first rest,
      Provider.given_name user_info = None ->
      Provider.family_name user_info = None ->
      Provider.name user_info
      = Some (Provider.JString (first ++ String " " rest)) ->
      before_space first = first ->
      first <> "" -> rest <> "" ->
      exists user,
        OAuth2Service.new_user new_id email tenant_id user_info = Ok user
        /\ User.first_name user = first
        /\ User.last_name user = rest)
  /\ (forall v,
      Provider.name user_info = Some v ->
      (forall s, v <> Provider.JString s) ->
      truthy_str (Provider.given_name user_info) = false
      \/ truthy_str (Provider.family_name user_info) = false ->
      exists message,
        OAuth2Service.new_user new_id email tenant_id user_info
        = Raise (AttributeError message))
  /\ (Provider.name user_info = Some Provider.JNull ->
      truthy_str (Provider.given_name user_info) = false
      \/ truthy_str (Provider.family_name user_info) = false ->
      OAuth2Service.new_user new_id email tenant_id user_info
      = Raise (AttributeError "'NoneType' object has no attribute 'split'")).
Proof.
  split; [|split; [|split; [|split]]].
  - apply new_user_returns.
  - intros user Hnew. apply new_user_fields in Hnew.
    destruct Hnew as [_ [_ [_ [_ [_ [_ [_ [Hfirst Hlast]]]]]]]].
    unfold OAuth2Service.first_name_of in Hfirst.
    unfold OAuth2Service.last_name_of in Hlast.
    split.
    + destruct (truthy_str (Provider.given_name user_info)) eqn:E.
      * inversion Hfirst as [H]. apply truthy_text. exact E.
      * destruct (OAuth2Service.name_to_split user_info); simpl in Hfirst;
          [|discriminate].
        inversion Hfirst as [H]. apply text_or_default. discriminate.
    + destruct (truthy_str (Provider.family_name user_info)) eqn:E.
      * inversion Hlast as [H]. apply truthy_text. exact E.
      * destruct (OAuth2Service.name_to_split user_info); simpl in Hlast;
          [|discriminate].
        inversion Hlast as [H]. apply text_or_default. discriminate.
  - intros first rest Hg Hf Hn Hw Hfirst Hrest.
    unfold OAuth2Service.new_user, OAuth2Service.first_name_of,
      OAuth2Service.last_name_of, OAuth2Service.name_to_split.
    rewrite Hg, Hf, Hn. simpl.
    rewrite before_space_append, after_space_append by exact Hw.
    eexists. split; [reflexivity|]. simpl. unfold or_str. simpl.
    destruct (String.eqb_spec first ""); [contradiction|].
    destruct (String.eqb_spec rest ""); [contradiction|].
    split; reflexivity.
  - intros v Hn Hv Hor.
    destruct (new_user_raises new_id email tenant_id user_info v Hn Hv Hor)
      as [e [He Hnew]].
    rewrite Hnew. unfold OAuth2Service.name_to_split in He. rewrite Hn in He.
    destruct v; inversion He; eauto.
  - intros Hn Hor.
    destruct (new_user_raises new_id email tenant_id user_info Provider.JNull
                Hn) as [e [He Hnew]]; [discriminate|exact Hor|].
    rewrite Hnew. unfold OAuth2Service.name_to_split in He. rewrite Hn in He.
    inversion He. reflexivity.
Qed.

(** X11.  What an OAuth login leaves alone.  Whatever the provider
    answers and whatever the outcome, [authenticate_with_code] keeps
    every existing user row as it is, and the tokens, second-factor
    credentials and tenants; and when it raises, it has committed
    nothing at all. *)
Theorem authenticate_with_code_frame (ps : OAuth2Service.providers) (d : Db.t)
    (provider_name code redirect_uri tenant_id new_user_id new_account_id : string)
    (now : datetime) :
  let outcome :=
    OAuth2Service.authenticate_with_code ps d provider_name code redirect_uri
      tenant_id new_user_id new_account_id now in
  (forall e, fst outcome = Raise e -> snd outcome = d)
  /\ (forall u, In u (Db.users d) -> In u (Db.users (snd outcome)))
  /\ (Db.users (snd outcome) = Db.users d
      \/ exists u, fst outcome = Ok u
                   /\ Db.users (snd outcome) = (Db.users d ++ [u])%list)
  /\ Db.auth_tokens (snd outcome) = Db.auth_tokens d
  /\ Db.two_factor_auth (snd outcome) = Db.two_factor_auth d
  /\ Db.tenants (snd outcome) = Db.tenants d.
Proof.
  intros outcome. unfold outcome, OAuth2Service.authenticate_with_code.
  destruct (OAuth2Service.get_provider ps provider_name) as [provider|];
    [|simpl; tauto].
  destruct (OAuth2Service.exchange_code provider code redirect_uri)
    as [tokens|]; [|simpl; tauto].
  destruct (negb (truthy_str (Provider.access_token tokens))); [simpl; tauto|].
  destruct (OAuth2Service.get_user_info provider _) as [user_info|];
    [|simpl; tauto].
  destruct (_ || _); [simpl; tauto|].
  unfold OAuth2Service.link_or_create.
  destruct (Sql.scalar_one_or_none (OAuth2Service.select_oauth_account _ _ _))
    as [[acct|]|]; simpl; [| |tauto].
  - destruct (Sql.get User.id _ _) as [user|]; [|simpl; tauto].
    destruct (negb (User.is_active user)); simpl; [tauto|].
    repeat split; auto. discriminate.
  - destruct (Sql.scalar_one_or_none (OAuth2Service.select_user_by_email _ _))
      as [[user|]|]; simpl; [| |tauto].
    + repeat split; auto. discriminate.
    + destruct (Sql.get Tenant.id _ _) as [tenant|]; [|simpl; tauto].
      destruct (negb (Tenant.is_active tenant)); simpl; [tauto|].
      destruct (OAuth2Service.new_user _ _ _ _) as [created|]; simpl; [|tauto].
      split; [discriminate|]. split.
      * intros u Hu. unfold Sql.add. apply in_or_app. left. exact Hu.
      * split; [|auto]. right. eexists. split; reflexivity.
Qed.


End MoreOAuthFacts.

(** The theorem on the answer "Carol Jones", and on Microsoft's answer
    for an account without a display name. *)
Lemma new_user_names_witness :
  (exists user,
      OAuth2Service.new_user "u-carol" "carol@x.com" "t-1"
        (Examples.info None (Some "carol@x.com")) = Ok user
      /\ User.first_name user = "Carol"
      /\ User.last_name user = "Jones")
  /\ OAuth2Service.new_user "u-erin" "erin@x.com" "t-1" Examples.nameless
     = Raise (AttributeError "'NoneType' object has no attribute 'split'").
Proof.
  split.
  - destruct (new_user_names "u-carol" "carol@x.com" "t-1"
                (Examples.info None (Some "carol@x.com"))) as [_ [_ [H _]]].
    apply (H "Carol" "Jones"); try reflexivity; discriminate.
  - destruct (new_user_names "u-erin" "erin@x.com" "t-1" Examples.nameless)
      as [_ [_ [_ [_ H]]]].
    apply H; [reflexivity|left; reflexivity].
Defined.

(** A login that fails at the tenant check commits nothing. *)
Lemma authenticate_with_code_frame_witness :
  snd (OAuth2Service.authenticate_with_code
         (Examples.answering Examples.provider_tokens
            (Examples.info (Some (Provider.JNumber 9)) (Some "dan@x.com")))
         Examples.db0 "github" "code" "https://app/cb" "t-none" "u-dan" "oa-9" 100)
  = Examples.db0.
Proof.
  destruct (authenticate_with_code_frame
              (Examples.answering Examples.provider_tokens
                 (Examples.info (Some (Provider.JNumber 9)) (Some "dan@x.com")))
              Examples.db0 "github" "code" "https://app/cb" "t-none" "u-dan"
              "oa-9" 100) as [H _].
  apply (H (AuthenticationError "Invalid tenant")). reflexivity.
Defined.


(** An answer without an email is refused. *)
Lemma authenticate_with_code_incomplete_witness :
  OAuth2Service.authenticate_with_code
    (Examples.answering Examples.provider_tokens
       (Examples.info (Some (Provider.JNumber 9)) None))
    Examples.db0 "github" "code" "https://app/cb" "t-1" "u-dan" "oa-9" 100
  = (Raise (AuthenticationError "Incomplete user information from provider"),
     Examples.db0).
Proof.
  apply authenticate_with_code_incomplete
    with (tokens := Examples.provider_tokens)
         (user_info := Examples.info (Some (Provider.JNumber 9)) None).
  - eexists. repeat split; reflexivity.
  - right. reflexivity.
Defined.

(* ================================================================== *)
(** * Further properties: redemption of ephemeral tokens               *)
(* ================================================================== *)

Section MorePasswordlessFacts.
Context `{G : Globals}.

(** X15.  A redemption that fails changes nothing and says one thing.
    Whenever [verify_magic_link], [verify_email] or
    [verify_password_reset] raises, the cache -- and for the last two
    the database -- is as before the call, and the exception is the one
    fixed error of that function, whatever went wrong inside. *)
Theorem failed_redemption_changes_nothing (l_get l_del : RedisCache.link)
    (c : RedisCache.t) (d : Db.t) (token : string) (now : datetime) :
  (forall e c',
      PasswordlessService.verify_magic_link l_get l_del c d token now
      = (Raise e, c') ->
      c' = c /\ e = AuthenticationError "Invalid or expired magic link")
  /\ (forall e d' c',
      PasswordlessService.verify_email l_get l_del c d token now
      = (Raise e, (d', c')) ->
      d' = d /\ c' = c /\ e = ValidationError "Email verification failed")
  /\ (forall password e d' c',
      PasswordlessService.verify_password_reset l_get l_del c d token
        password now = (Raise e, (d', c')) ->
      d' = d /\ c' = c /\ e = ValidationError "Password reset failed").
Proof.
  split; [|split].
  - intros e c'. unfold PasswordlessService.verify_magic_link,
      PasswordlessService.verify_magic_link_body.
    destruct (RedisCache.get l_get now _ c) as [td|];
      [|intros H; inversion H; auto].
    destruct (PasswordlessService.get_user d _) as [u|];
      [|intros H; inversion H; auto].
    destruct (negb (User.is_active u)); simpl; intros H; inversion H; auto.
  - intros e d' c'. unfold PasswordlessService.verify_email.
    destruct (RedisCache.get l_get now _ c) as [td|];
      [|intros H; inversion H; auto].
    destruct (PasswordlessService.mark_email_verified _ _) as [users' rowcount].
    destruct (Nat.eqb rowcount 0); intros H; inversion H; auto.
  - intros password e d' c'. unfold PasswordlessService.verify_password_reset.
    destruct (RedisCache.get l_get now _ c) as [td|];
      [|intros H; inversion H; auto].
    destruct (PasswordlessService.get_user d _) as [u|];
      intros H; inversion H; auto.
Qed.

(** X16.  What a password reset changes.  A [verify_password_reset] that
    returned found its unexpired token in the cache and the user it
    names in the database; it committed that user with the hash of the
    new password and the reset fields cleared, and nothing else of the
    user changed: not the active flag, not the failed-attempt counter,
    not the lockout expiry.  So, when the password context verifies the
    hashes it makes, in a table with unique keys where the address
    selects this user, a login with the new password succeeds if no
    lockout is in force, and is still refused with "Account is
    temporarily locked" if one is: the reset does not lift a lockout. *)
Theorem verify_password_reset_effect (l_get l_del : RedisCache.link)
    (c c' : RedisCache.t) (d d' : Db.t) (token password : string)
    (now : datetime) (b : bool) :
  PasswordlessService.verify_password_reset l_get l_del c d token password now
  = (Ok b, (d', c')) ->
  exists token_data user,
    RedisCache.lookup now (PasswordlessService.password_reset_key token) c
    = Some token_data
    /\ PasswordlessService.get_user d (RedisCache.user_id token_data) = Some user
    /\ b = true
    /\ let user' := User.with_password_reset (pwd_context_hash password) user in
       d' = Db.commit_user user' d
       /\ User.hashed_password user' = Some (pwd_context_hash password)
       /\ User.password_reset_token user' = None
       /\ User.is_active user' = User.is_active user
       /\ User.failed_login_attempts user' = User.failed_login_attempts user
       /\ User.locked_until user' = User.locked_until user
       /\ (pwd_context_verify password (pwd_context_hash password) = true ->
           Sql.pk_unique User.id (Db.users d) ->
           AuthService.select_user_by_email d (User.email user) = Ok (Some user) ->
           forall later,
             (AuthService.locked user later = false ->
              fst (AuthService.authenticate_user d' (User.email user)
                     password later)
              = Ok (AuthService.reset_failed_attempts user'))
             /\ (AuthService.locked user later = true ->
                 fst (AuthService.authenticate_user d' (User.email user)
                        password later)
                 = Raise (AuthenticationError "Account is temporarily locked"))).
Proof.
  unfold PasswordlessService.verify_password_reset.
  destruct (RedisCache.get l_get now _ c) as [td|] eqn:Hget; [|discriminate].
  destruct (PasswordlessService.get_user d _) as [user|] eqn:Hu; [|discriminate].
  intros H. inversion H. subst. clear H.
  exists td, user.
  split.
  { destruct l_get; simpl in Hget; [exact Hget|discriminate]. }
  split; [exact Hu|]. split; [reflexivity|].
  cbv zeta. unfold User.set_password_and_clear_reset.
  repeat (split; [reflexivity|]).
  intros Hhash Hpk Hsel later.
  set (user' := User.with_password_reset (pwd_context_hash password) user).
  assert (Hsel' : AuthService.select_user_by_email (Db.commit_user user' d)
                    (User.email user) = Ok (Some user')).
  { apply select_user_by_email_commit with (user := user); auto. }
  split; intros Hl.
  - rewrite (authenticate_user_success _ _ password user' later Hsel').
    + reflexivity.
    + exact Hl.
    + unfold User.verify_password. simpl. exact Hhash.
  - rewrite (authenticate_user_locked _ _ password user' later Hsel').
    + reflexivity.
    + exact Hl.
Qed.

End MorePasswordlessFacts.

(** An unknown magic link is refused and the cache is as before. *)
Lemma failed_redemption_changes_nothing_witness :
  snd (PasswordlessService.verify_magic_link RedisCache.Up RedisCache.Up
         Examples.cache0 Examples.db0 "ml-9" 10) = Examples.cache0.
Proof.
  destruct (failed_redemption_changes_nothing (G := Examples.globals)
              RedisCache.Up RedisCache.Up
              Examples.cache0 Examples.db0 "ml-9" 10) as [H _].
  apply (H (AuthenticationError "Invalid or expired magic link")). reflexivity.
Defined.

(** Bob's reset token is redeemed: his lockout fields are what they
    were. *)
Lemma verify_password_reset_effect_witness :
  exists user,
    PasswordlessService.get_user Examples.db0 (Some "u-bob") = Some user
    /\ User.locked_until
         (User.with_password_reset
            (pwd_context_hash (Globals := Examples.globals) "N3w password") user)
       = User.locked_until user.
Proof.
  pose (r := PasswordlessService.verify_password_reset (G := Examples.globals)
              RedisCache.Up RedisCache.Up Examples.cache0 Examples.db0
              "pr-1" "N3w password" 10).
  destruct (verify_password_reset_effect (G := Examples.globals)
              RedisCache.Up RedisCache.Up Examples.cache0 (snd (snd r))
              Examples.db0 (fst (snd r)) "pr-1" "N3w password" 10 true)
    as [td [user [Hl [Hu [_ [_ [_ [_ [_ [_ [H _]]]]]]]]]]].
  - reflexivity.
  - exists user. split; [|exact H].
    simpl in Hl. inversion Hl. subst td. exact Hu.
Defined.

(* ================================================================== *)
(** * Further properties: the bearer-token dependency                  *)
(* ================================================================== *)

Section AuthMiddlewareFacts.
Context `{G : Globals}.

(** What a successful verification says about the token. *)
Lemma verify_token_ok (now : datetime) (tok : Security.token)
    (token_type : string) (claims : Security.payload) :
  Security.verify_token now tok token_type = Ok claims ->
  tok = Security.Signed (SECRET_KEY settings) claims
  /\ Security.type claims = Some token_type
  /\ (forall e, Security.exp claims = Some e -> now < e).
Proof.
  unfold Security.verify_token, Security.jwt_decode.
  destruct tok as [key p|text]; [|discriminate].
  destruct (String.eqb_spec key (SECRET_KEY settings)) as [->|]; [|discriminate].
  assert (H : forall q,
             match (match Security.type q with
                    | Some ty => if String.eqb ty token_type then Ok q
                                 else Raise Security.no_JWTError
                    | None => Raise Security.no_JWTError
                    end) with
             | Ok c => c = q /\ Security.type q = Some token_type
             | Raise _ => True
             end).
  { intros q. destruct (Security.type q) as [ty|]; [|exact I].
    destruct (String.eqb_spec ty token_type) as [->|]; [auto|exact I]. }
  destruct (Security.exp p) as [e|] eqn:He.
  - destruct (Z.leb_spec e now); [discriminate|].
    specialize (H p). intros Hok. rewrite Hok in H. destruct H as [-> Ht].
    repeat split; auto. intros e' He'. rewrite He in He'. inversion He'. lia.
  - specialize (H p). intros Hok. rewrite Hok in H. destruct H as [-> Ht].
    repeat split; auto. intros e' He'. rewrite He in He'. discriminate.
Qed.

Lemma current_user_body_ok (d : Db.t) (tok : Security.token)
    (now : datetime) (user : User.t) :
  AuthMiddleware.current_user_body d tok now = Ok user ->
  exists claims,
    Security.verify_token now tok "access" = Ok claims
    /\ Security.sub claims = Some (User.id user)
    /\ In user (Db.users d)
    /\ User.is_active user = true.
Proof.
  unfold AuthMiddleware.current_user_body.
  destruct (Security.verify_token now tok "access") as [claims|] eqn:Hv;
    simpl; [|discriminate].
  destruct (Security.sub claims) as [uid|] eqn:Hsub; simpl; [|discriminate].
  destruct (negb (negb (String.eqb uid ""))); [discriminate|].
  unfold AuthService.select_user_by_id.
  destruct (filter _ (Db.users d)) as [|u [|u2 rest]] eqn:Hf; simpl;
    try discriminate.
  destruct (User.is_active u) eqn:Hact; simpl; [|discriminate].
  intros H. inversion H. subst u. exists claims.
  destruct (filter_singleton_In _ _ _ Hf) as [Hin HP].
  apply String.eqb_eq in HP. rewrite HP. auto.
Qed.

Lemma get_current_user_returns (d : Db.t) (credentials : option Security.token)
    (now : datetime) (user : User.t) :
  AuthMiddleware.get_current_user d credentials now = AuthMiddleware.Returns user ->
  exists tok, credentials = Some tok
              /\ AuthMiddleware.current_user_body d tok now = Ok user.
Proof.
  unfold AuthMiddleware.get_current_user.
  destruct credentials as [tok|]; [|discriminate].
  destruct (AuthMiddleware.current_user_body d tok now) as [u|e] eqn:E.
  - intros H. inversion H. subst. exists tok. auto.
  - destruct e; discriminate.
Qed.

(** X17.  Who [get_current_user] lets in.  It returns a user only for a
    bearer token that the server signed, of type access, whose expiry
    lies in the future and whose subject is the id of that user, a row
    of the users table that is active.  Whatever else it is given -- no
    token, a forged, expired or refresh token, an unknown or inactive
    subject -- it answers with status 401. *)
Theorem get_current_user_sound (d : Db.t) (credentials : option Security.token)
    (now : datetime) :
  (forall user,
      AuthMiddleware.get_current_user d credentials now
      = AuthMiddleware.Returns user ->
      exists claims,
        credentials = Some (Security.Signed (SECRET_KEY settings) claims)
        /\ Security.type claims = Some "access"
        /\ (forall e, Security.exp claims = Some e -> now < e)
        /\ Security.sub claims = Some (User.id user)
        /\ In user (Db.users d)
        /\ User.is_active user = true)
  /\ (forall e,
      AuthMiddleware.get_current_user d credentials now
      = AuthMiddleware.Rejects e ->
      AuthMiddleware.status_code e = 401).
Proof.
  split.
  - intros user H.
    destruct (get_current_user_returns _ _ _ _ H) as [tok [-> Hb]].
    destruct (current_user_body_ok _ _ _ _ Hb) as [claims [Hv [Hs [Hin Ha]]]].
    destruct (verify_token_ok _ _ _ _ Hv) as [-> [Ht He]].
    exists claims. repeat split; assumption.
  - intros e. unfold AuthMiddleware.get_current_user.
    destruct credentials as [tok|].
    + destruct (AuthMiddleware.current_user_body d tok now) as [u|[]];
        intros H; inversion H; reflexivity.
    + intros H. inversion H. reflexivity.
Qed.

(** X18.  The token pair of [create_tokens] at the bearer check.  For an
    active user that its id selects, the access token issued at [t0] is
    accepted by [get_current_user] as that user at every time before
    [t0] plus the configured minutes and rejected from then on with
    "Invalid or expired token".  The refresh token of the pair is
    rejected with status 401 at every time: before [t0] plus the
    configured days with "Authentication failed", the answer to the
    [AttributeError] of [verify_token], and from then on with "Invalid or
    expired token". *)
Theorem issued_pair_at_get_current_user (d : Db.t) (user : User.t)
    (ip_address user_agent new_id : string) (t0 now : datetime) :
  AuthService.select_user_by_id d (User.id user) = Ok (Some user) ->
  User.id user <> "" ->
  User.is_active user = true ->
  let issued := AuthService.create_tokens d user ip_address user_agent new_id t0 in
  let rejected :=
    AuthMiddleware.Rejects
      {| AuthMiddleware.status_code := 401;
         AuthMiddleware.detail := "Invalid or expired token" |} in
  let failed :=
    AuthMiddleware.Rejects
      {| AuthMiddleware.status_code := 401;
         AuthMiddleware.detail := "Authentication failed" |} in
  (now < t0 + minutes (ACCESS_TOKEN_EXPIRE_MINUTES settings) ->
   AuthMiddleware.get_current_user (snd issued)
     (Some (AuthService.access_token (fst issued))) now
   = AuthMiddleware.Returns user)
  /\ (t0 + minutes (ACCESS_TOKEN_EXPIRE_MINUTES settings) <= now ->
      AuthMiddleware.get_current_user (snd issued)
        (Some (AuthService.access_token (fst issued))) now = rejected)
  /\ (now < t0 + days (REFRESH_TOKEN_EXPIRE_DAYS settings) ->
      AuthMiddleware.get_current_user (snd issued)
        (Some (AuthService.refresh_token (fst issued))) now = failed)
  /\ (t0 + days (REFRESH_TOKEN_EXPIRE_DAYS settings) <= now ->
      AuthMiddleware.get_current_user (snd issued)
        (Some (AuthService.refresh_token (fst issued))) now = rejected).
Proof.
  intros Hu Hid Hact issued rejected failed.
  unfold issued, rejected, failed, AuthMiddleware.get_current_user,
    AuthMiddleware.current_user_body, Security.verify_token,
    Security.jwt_decode. simpl.
  rewrite String.eqb_refl.
  split; [|split; [|split]].
  - intros Hlt.
    destruct (Z.leb_spec (t0 + minutes (ACCESS_TOKEN_EXPIRE_MINUTES settings)) now);
      [lia|]. simpl.
    destruct (String.eqb_spec (User.id user) ""); [contradiction|]. simpl.
    unfold AuthService.select_user_by_id in *. simpl. rewrite Hu. simpl.
    rewrite Hact. reflexivity.
  - intros Hge.
    destruct (Z.leb_spec (t0 + minutes (ACCESS_TOKEN_EXPIRE_MINUTES settings)) now);
      [reflexivity|lia].
  - intros Hlt.
    destruct (Z.leb_spec (t0 + days (REFRESH_TOKEN_EXPIRE_DAYS settings)) now);
      [lia|reflexivity].
  - intros Hge.
    destruct (Z.leb_spec (t0 + days (REFRESH_TOKEN_EXPIRE_DAYS settings)) now);
      [reflexivity|lia].
Qed.

(** X19.  The role dependencies.  [get_current_active_user] never raises
    its own "Inactive user": it gives exactly what [get_current_user]
    gives.  [get_current_superuser] returns only superusers and
    [get_current_tenant_admin] only superusers and tenant admins; both
    refuse every other authenticated user with status 403, and pass on
    the 401 of an unauthenticated request. *)
Theorem role_dependencies (d : Db.t) (credentials : option Security.token)
    (now : datetime) :
  AuthMiddleware.get_current_active_user d credentials now
  = AuthMiddleware.get_current_user d credentials now
  /\ (forall user,
      AuthMiddleware.get_current_user d credentials now
      = AuthMiddleware.Returns user ->
      (AuthMiddleware.get_current_superuser d credentials now
       = if User.is_superuser user then AuthMiddleware.Returns user
         else AuthMiddleware.Rejects
                {| AuthMiddleware.status_code := 403;
                   AuthMiddleware.detail := "Not enough permissions" |})
      /\ (AuthMiddleware.get_current_tenant_admin d credentials now
          = if User.is_superuser user || User.is_tenant_admin user
            then AuthMiddleware.Returns user
            else AuthMiddleware.Rejects
                   {| AuthMiddleware.status_code := 403;
                      AuthMiddleware.detail :=
                        "Tenant admin permissions required" |}))
  /\ (forall e,
      AuthMiddleware.get_current_user d credentials now
      = AuthMiddleware.Rejects e ->
      AuthMiddleware.get_current_superuser d credentials now
      = AuthMiddleware.Rejects e
      /\ AuthMiddleware.get_current_tenant_admin d credentials now
         = AuthMiddleware.Rejects e).
Proof.
  split; [|split].
  - unfold AuthMiddleware.get_current_active_user.
    destruct (AuthMiddleware.get_current_user d credentials now) as [u|e] eqn:E;
      [|reflexivity].
    destruct (get_current_user_returns _ _ _ _ E) as [tok [_ Hb]].
    destruct (current_user_body_ok _ _ _ _ Hb) as [claims [_ [_ [_ Ha]]]].
    rewrite Ha. reflexivity.
  - intros user H.
    unfold AuthMiddleware.get_current_superuser,
      AuthMiddleware.get_current_tenant_admin. rewrite H.
    destruct (User.is_superuser user), (User.is_tenant_admin user);
      split; reflexivity.
  - intros e H.
    unfold AuthMiddleware.get_current_superuser,
      AuthMiddleware.get_current_tenant_admin. rewrite H. auto.
Qed.

End AuthMiddlewareFacts.

(** Alice's refresh token is not a bearer token: the answer is the 401
    that [get_current_user] has for an exception that is no
    [AuthenticationError]. *)
Lemma get_current_user_sound_witness :
  AuthMiddleware.status_code
    {| AuthMiddleware.status_code := 401;
       AuthMiddleware.detail := "Authentication failed" |} = 401
  /\ AuthMiddleware.get_current_user (G := Examples.globals) Examples.db1
       (Some Examples.alice_refresh_token) 100
     = AuthMiddleware.Rejects
         {| AuthMiddleware.status_code := 401;
            AuthMiddleware.detail := "Authentication failed" |}.
Proof.
  destruct (get_current_user_sound (G := Examples.globals) Examples.db1
              (Some Examples.alice_refresh_token) 100) as [_ H].
  split; [|reflexivity].
  apply H. reflexivity.
Defined.

(** Alice's pair, ten minutes after issue: the access token is hers, the
    refresh token is answered with "Authentication failed". *)
Lemma issued_pair_at_get_current_user_witness :
  AuthMiddleware.get_current_user (G := Examples.globals) Examples.db1
    (Some (AuthService.access_token (fst Examples.alice_login))) 600
  = AuthMiddleware.Returns Examples.alice
  /\ AuthMiddleware.get_current_user (G := Examples.globals) Examples.db1
       (Some (AuthService.refresh_token (fst Examples.alice_login))) 600
     = AuthMiddleware.Rejects
         {| AuthMiddleware.status_code := 401;
            AuthMiddleware.detail := "Authentication failed" |}.
Proof.
  destruct (issued_pair_at_get_current_user (G := Examples.globals)
              Examples.db0 Examples.alice "10.0.0.1" "agent" "tok-1" 0 600)
    as [H [_ [H3 _]]].
  - reflexivity.
  - discriminate.
  - reflexivity.
  - split; [apply H; reflexivity|apply H3; reflexivity].
Defined.

(** Alice is no superuser. *)
Lemma role_dependencies_witness :
  AuthMiddleware.get_current_superuser (G := Examples.globals) Examples.db1
    (Some (AuthService.access_token (fst Examples.alice_login))) 600
  = AuthMiddleware.Rejects
      {| AuthMiddleware.status_code := 403;
         AuthMiddleware.detail := "Not enough permissions" |}.
Proof.
  destruct (role_dependencies (G := Examples.globals) Examples.db1
              (Some (AuthService.access_token (fst Examples.alice_login))) 600)
    as [_ [H _]].
  destruct (H Examples.alice eq_refl) as [H1 _]. exact H1.
Defined.

(* ================================================================== *)
(** * Further properties: the cleanup task                             *)
(* ================================================================== *)

Section FilterFacts.
Context {A : Type}.

Lemma filter_comm (P Q : A -> bool) (rows : list A) :
  filter P (filter Q rows) = filter Q (filter P rows).
Proof.
  induction rows as [|x rows IH]; [reflexivity|]. simpl.
  destruct (P x) eqn:HP, (Q x) eqn:HQ; simpl;
    rewrite ?HP, ?HQ, IH; reflexivity.
Qed.

Lemma filter_idem (P : A -> bool) (rows : list A) :
  filter P (filter P rows) = filter P rows.
Proof.
  induction rows as [|x rows IH]; [reflexivity|]. simpl.
  destruct (P x) eqn:HP; simpl; rewrite ?HP, IH; reflexivity.
Qed.

Lemma filter_none (P : A -> bool) (rows : list A) :
  (forall x, In x rows -> P x = false) -> filter P rows = [].
Proof.
  induction rows as [|x rows IH]; [reflexivity|]. intros H. simpl.
  rewrite (H x (or_introl eq_refl)). apply IH.
  intros y Hy. apply H. right. exact Hy.
Qed.

Lemma filter_map_same (P : A -> bool) (f : A -> A) (rows : list A) :
  (forall x, In x rows -> P (f x) = P x) ->
  filter P (map f rows) = map f (filter P rows).
Proof.
  induction rows as [|x rows IH]; [reflexivity|]. intros H. simpl.
  rewrite (H x (or_introl eq_refl)).
  rewrite IH by (intros y Hy; apply H; right; exact Hy).
  destruct (P x); reflexivity.
Qed.

End FilterFacts.

Section CleanupFacts.
Context `{G : Globals}.

(** What a successful refresh says about the database it ran on. *)
Lemma refresh_access_token_ok (d d' : Db.t) (tok : Security.token)
    (now : datetime) (response : AuthService.TokenResponse) :
  AuthService.refresh_access_token d tok now = (Ok response, d') ->
  exists payload user_id r user,
    Security.verify_token now tok "refresh" = Ok payload
    /\ Security.sub payload = Some user_id
    /\ user_id <> ""
    /\ AuthService.select_refresh_token d (Security.hash_token tok) = [r]
    /\ AuthToken.is_expired now r = false
    /\ AuthService.select_user_by_id d user_id = Ok (Some user)
    /\ User.is_active user = true.
Proof.
  unfold AuthService.refresh_access_token, AuthService.refresh_body.
  destruct (Security.verify_token now tok "refresh") as [payload|] eqn:Hv;
    simpl; [|discriminate].
  destruct (Security.sub payload) as [uid|] eqn:Hsub; simpl; [|discriminate].
  destruct (String.eqb_spec uid "") as [|Hne]; simpl; [discriminate|].
  destruct (AuthService.select_refresh_token d (Security.hash_token tok))
    as [|r [|r2 rest]] eqn:Hsel; simpl; try discriminate.
  destruct (AuthToken.is_expired now r) eqn:Hexp; [discriminate|].
  destruct (AuthService.select_user_by_id d uid) as [[user|]|] eqn:Hu;
    simpl; try discriminate.
  destruct (User.is_active user) eqn:Hact; simpl; [|discriminate].
  intros _. exists payload, uid, r, user. repeat split; auto.
Qed.

(** X20.  What [cleanup_expired_tokens] deletes.  The rows it keeps are
    exactly the rows whose expiry is not before [now], in their order;
    the count it reports and the rows it keeps add up to the table; the
    other tables are untouched; and running it again at the same time
    deletes nothing. *)
Theorem cleanup_expired_tokens_effect (now : datetime) (d : Db.t) :
  let after := snd (Cleanup.cleanup_expired_tokens now d) in
  (forall r, In r (Db.auth_tokens after)
             <-> In r (Db.auth_tokens d) /\ now <= AuthToken.expires_at r)
  /\ (fst (Cleanup.cleanup_expired_tokens now d)
      + length (Db.auth_tokens after) = length (Db.auth_tokens d))%nat
  /\ Db.users after = Db.users d
  /\ Db.two_factor_auth after = Db.two_factor_auth d
  /\ Db.oauth2_accounts after = Db.oauth2_accounts d
  /\ Cleanup.cleanup_expired_tokens now after = (0%nat, after).
Proof.
  unfold Cleanup.cleanup_expired_tokens. simpl.
  split; [|split; [|repeat split]].
  - intros r. rewrite filter_In.
    destruct (Z.ltb_spec (AuthToken.expires_at r) now); simpl;
      split; intros [Hin H']; split; auto; try lia; discriminate.
  - apply filter_length.
  - f_equal.
    + rewrite filter_comm, filter_none; [reflexivity|].
      intros x Hx. apply filter_In in Hx. destruct Hx as [_ Hx].
      simpl in Hx. rewrite Hx. reflexivity.
    + unfold Db.with_auth_tokens. simpl. rewrite filter_idem. reflexivity.
Qed.

(** X21.  The cleanup never takes away a usable refresh token.  When
    primary keys are unique and a refresh succeeds at [later] on a
    database, it succeeds with the same response on that database
    cleaned at any [now] not after [later], and the two final states
    differ by that same cleaning only. *)
Theorem cleanup_keeps_refresh (d d' : Db.t) (tok : Security.token)
    (now later : datetime) (response : AuthService.TokenResponse) :
  Sql.pk_unique AuthToken.id (Db.auth_tokens d) ->
  now <= later ->
  AuthService.refresh_access_token d tok later = (Ok response, d') ->
  AuthService.refresh_access_token
    (snd (Cleanup.cleanup_expired_tokens now d)) tok later
  = (Ok response, snd (Cleanup.cleanup_expired_tokens now d')).
Proof.
  intros Huniq Hle Hok.
  destruct (refresh_access_token_ok _ _ _ _ _ Hok)
    as [payload [uid [r [user [Hv [Hsub [Hne [Hsel [Hexp [Hu Hact]]]]]]]]]].
  rewrite (refresh_access_token_success _ _ _ _ _ _ _
             Hv Hsub Hne Hsel Hexp Hu Hact) in Hok.
  inversion Hok as [[Hresp Hd']]. clear Hok.
  unfold AuthToken.is_expired in Hexp. apply Z.ltb_ge in Hexp.
  destruct (filter_singleton_In _ _ _ Hsel) as [Hin _].
  assert (Hkeep : negb (AuthToken.expires_at r <? now) = true).
  { apply negb_true_iff. apply Z.ltb_ge. lia. }
  rewrite (refresh_access_token_success
             (snd (Cleanup.cleanup_expired_tokens now d)) tok later
             payload uid r user Hv Hsub Hne); auto.
  - f_equal. unfold Cleanup.cleanup_expired_tokens, Db.commit_auth_token,
      Db.with_auth_tokens, Sql.write. simpl. f_equal.
    symmetry. apply filter_map_same.
    intros x Hx. simpl.
    destruct (String.eqb_spec (AuthToken.id x) (AuthToken.id r)) as [E|];
      [|reflexivity].
    rewrite (pk_injective AuthToken.id _ x r Huniq Hx Hin E). reflexivity.
  - unfold AuthService.select_refresh_token, Cleanup.cleanup_expired_tokens.
    simpl. unfold AuthService.select_refresh_token in Hsel.
    rewrite filter_comm, Hsel. simpl. rewrite Hkeep. reflexivity.
  - unfold AuthToken.is_expired. apply Z.ltb_ge. exact Hexp.
Qed.

End CleanupFacts.

(** The stale record goes, Alice's refresh token still works. *)
Lemma cleanup_keeps_refresh_witness :
  fst (Cleanup.cleanup_expired_tokens 100 Examples.db4) = 1%nat
  /\ fst (AuthService.refresh_access_token (G := Examples.globals)
            (snd (Cleanup.cleanup_expired_tokens 100 Examples.db4))
            Examples.alice_refresh_token 200)
     = Ok {| AuthService.access_token :=
               Security.create_access_token (G := Examples.globals) 200
                 (AuthService.token_data Examples.alice);
             AuthService.refresh_token := Examples.alice_refresh_token;
             AuthService.token_type := "bearer";
             AuthService.expires_in := 1800 |}.
Proof.
  split; [reflexivity|].
  rewrite (cleanup_keeps_refresh (G := Examples.globals) Examples.db4
             (snd (AuthService.refresh_access_token (G := Examples.globals)
                     Examples.db4 Examples.alice_refresh_token 200))
             Examples.alice_refresh_token 100 200
             {| AuthService.access_token :=
                  Security.create_access_token (G := Examples.globals) 200
                    (AuthService.token_data Examples.alice);
                AuthService.refresh_token := Examples.alice_refresh_token;
                AuthService.token_type := "bearer";
                AuthService.expires_in := 1800 |}).
  - reflexivity.
  - unfold Sql.pk_unique. simpl.
    repeat constructor; simpl; intuition discriminate.
  - lia.
  - reflexivity.
Defined.

(* ================================================================== *)
(** * Further properties: the rate limiter                             *)
(* ================================================================== *)

Section CounterFacts.

Local Abbreviation at_key key := (fun e : string * (Z * option datetime) =>
                                    String.eqb (fst e) key).

Lemma find_written (key : string) (v : Z * option datetime) (c : Counters.t) :
  find (at_key key) ((key, v) :: c) = Some (key, v).
Proof. simpl. rewrite String.eqb_refl. reflexivity. Qed.

Lemma find_counter_removed (key other : string) (c : Counters.t) :
  other <> key ->
  find (at_key other) (Counters.remove key c) = find (at_key other) c.
Proof.
  intros Hne. unfold Counters.remove.
  induction c as [|[k v] c IH]; [reflexivity|]. simpl.
  destruct (String.eqb_spec k key) as [->|Hk]; simpl.
  - destruct (String.eqb_spec key other) as [E|_]; [congruence|]. exact IH.
  - destruct (String.eqb_spec k other); [reflexivity|]. exact IH.
Qed.

Lemma lookup_written_other (now : datetime) (key other : string)
    (v : Z * option datetime) (c : Counters.t) :
  other <> key ->
  Counters.lookup now other ((key, v) :: Counters.remove key c)
  = Counters.lookup now other c.
Proof.
  intros Hne. unfold Counters.lookup. simpl.
  destruct (String.eqb_spec key other) as [E|_]; [congruence|].
  rewrite find_counter_removed by exact Hne. reflexivity.
Qed.

Lemma lookup_live (now : datetime) (key : string) (c : Counters.t)
    (n : Z) (expires : datetime) :
  Counters.lookup now key c = Some (n, Some expires) -> now < expires.
Proof.
  unfold Counters.lookup.
  destruct (find _ c) as [[k [m [e|]]]|]; try discriminate.
  destruct (Z.ltb_spec now e) as [Hlt|_]; [|discriminate].
  intros Heq. inversion Heq. subst. exact Hlt.
Qed.

Lemma increment_other (l : RedisCache.link) (now t : datetime)
    (key other : string) (amount : Z) (c : Counters.t) :
  other <> key ->
  Counters.lookup t other (snd (Counters.increment l now key amount c))
  = Counters.lookup t other c.
Proof.
  intros Hne. unfold Counters.increment.
  destruct l; [|reflexivity].
  destruct (match Counters.lookup now key c with
            | Some v => v | None => (0, None) end) as [n e].
  destruct (Counters.in_range (n + amount)); [|reflexivity].
  simpl. apply lookup_written_other. exact Hne.
Qed.

Lemma expire_other (l : RedisCache.link) (now t : datetime)
    (key other : string) (seconds : Z) (c : Counters.t) :
  other <> key ->
  Counters.lookup t other (snd (Counters.expire l now key seconds c))
  = Counters.lookup t other c.
Proof.
  intros Hne. unfold Counters.expire.
  destruct l; [|reflexivity].
  destruct (Counters.lookup now key c) as [[n e]|]; [|reflexivity].
  simpl. apply lookup_written_other. exact Hne.
Qed.

(** A counted request: the counter read as [n] is [n + 1] afterwards,
    and lives for a whole window from [now]. *)
Lemma count_one (now : datetime) (key : string) (seconds n : Z)
    (c : Counters.t) :
  0 <= n < 9223372036854775807 ->
  option_map fst (Counters.lookup now key c)
  = (if n =? 0 then None else Some n) ->
  forall t, t < now + seconds ->
    Counters.lookup t key
      (snd (Counters.expire RedisCache.Up now key seconds
              (snd (Counters.increment RedisCache.Up now key 1 c))))
    = Some (n + 1, Some (now + seconds)).
Proof.
  intros Hn Hread t Ht.
  assert (Hin : Counters.in_range (n + 1) = true).
  { unfold Counters.in_range. apply andb_true_iff.
    split; apply Z.leb_le; lia. }
  assert (Hc1 : exists e,
             snd (Counters.increment RedisCache.Up now key 1 c)
             = (key, (n + 1, e)) :: Counters.remove key c
             /\ (forall x, e = Some x -> now < x)).
  { unfold Counters.increment.
    destruct (Counters.lookup now key c) as [[m e]|] eqn:Hl; simpl in Hread.
    - assert (m = n) as ->.
      { destruct (n =? 0); [discriminate|]. inversion Hread. reflexivity. }
      rewrite Hin. exists e. split; [reflexivity|].
      intros x ->. apply (lookup_live _ _ _ _ _ Hl).
    - assert (n = 0) as ->.
      { destruct (Z.eqb_spec n 0); [assumption|discriminate]. }
      rewrite Hin. exists None. split; [reflexivity|]. discriminate. }
  destruct Hc1 as [e [-> He]].
  unfold Counters.expire.
  assert (Hl1 : Counters.lookup now key
                  ((key, (n + 1, e)) :: Counters.remove key c)
                = Some (n + 1, e)).
  { unfold Counters.lookup. rewrite find_written.
    destruct e as [x|]; [|reflexivity].
    destruct (Z.ltb_spec now x); [reflexivity|].
    specialize (He x eq_refl). lia. }
  rewrite Hl1. simpl.
  unfold Counters.lookup. rewrite find_written.
  destruct (Z.ltb_spec t (now + seconds)); [reflexivity|lia].
Qed.

End CounterFacts.

Section TextFacts.

Lemma contains_append (sep : ascii) (a b : string) :
  Text.contains sep (a ++ String sep b) = true.
Proof.
  induction a as [|c a IH]; simpl.
  - rewrite Ascii.eqb_refl. reflexivity.
  - rewrite IH. apply orb_true_r.
Qed.

(** Two texts that end in a separator and a piece without separator are
    equal only piece by piece. *)
Lemma last_piece_inj (sep : ascii) (a b x y : string) :
  Text.contains sep x = false ->
  Text.contains sep y = false ->
  (a ++ String sep x = b ++ String sep y)%string ->
  a = b /\ x = y.
Proof.
  intros Hx Hy. revert b.
  induction a as [|c a IH]; intros [|c' b] H; simpl in H.
  - inversion H. auto.
  - injection H as Hc Hrest.
    rewrite Hrest, Hc, contains_append in Hx. discriminate.
  - injection H as Hc Hrest.
    rewrite <- Hrest, <- Hc, contains_append in Hy. discriminate.
  - injection H as Hc Hrest. destruct (IH b Hrest) as [-> ->].
    rewrite Hc. auto.
Qed.

Lemma append_inj_l (p a b : string) : (p ++ a = p ++ b)%string -> a = b.
Proof.
  induction p as [|c p IH]; simpl; intros H; [exact H|].
  inversion H. auto.
Qed.

Lemma uint_text_no_colon (u : Decimal.uint) :
  Text.contains ":" (NilEmpty.string_of_uint u) = false.
Proof. induction u; simpl; auto. Qed.

Lemma str_no_colon (n : Z) : Text.contains ":" (Text.str n) = false.
Proof.
  unfold Text.str, NilZero.string_of_int, NilZero.string_of_uint.
  destruct (Z.to_int n) as [u|u]; destruct u; simpl;
    try reflexivity; apply uint_text_no_colon.
Qed.

Lemma str_inj (n m : Z) : Text.str n = Text.str m -> n = m.
Proof.
  unfold Text.str. intros H.
  apply DecimalZ.to_int_inj.
  assert (Hnorm : forall z, NilZero.int_of_string
                              (NilZero.string_of_int (Z.to_int z))
                            = Some (Z.to_int z)).
  { intros z. apply NilZero.isi.
    - destruct z; simpl; try discriminate.
      intros E. inversion E as [E'].
      apply (DecimalPos.Unsigned.to_uint_nonnil _ E').
    - destruct z; simpl; try discriminate.
      intros E. inversion E as [E'].
      apply (DecimalPos.Unsigned.to_uint_nonnil _ E'). }
  pose proof (Hnorm n) as Hn. pose proof (Hnorm m) as Hm.
  rewrite H in Hn. rewrite Hn in Hm. inversion Hm. reflexivity.
Qed.

End TextFacts.

Section RateLimitFacts.

Import RateLimitMiddleware.

Lemma rate_key_inj (self : t) (a b : string) (t1 t2 : datetime) :
  rate_key self a t1 = rate_key self b t2 ->
  a = b /\ t1 / window_seconds self = t2 / window_seconds self.
Proof.
  unfold rate_key. intros H.
  apply append_inj_l in H. simpl in H.
  apply last_piece_inj in H; try apply str_no_colon.
  destruct H as [-> H]. split; [reflexivity|]. apply str_inj. exact H.
Qed.

Lemma rate_key_window (self : t) (a : string) (t1 t2 : datetime) :
  t1 / window_seconds self = t2 / window_seconds self ->
  rate_key self a t1 = rate_key self a t2.
Proof. unfold rate_key. intros ->. reflexivity. Qed.

Lemma window_bounds (w k t : Z) :
  0 < w -> t / w = k -> w * k <= t < w * k + w.
Proof.
  intros Hw <-.
  pose proof (Z.div_mod t w ltac:(lia)) as Hdm.
  pose proof (Z.mod_pos_bound t w Hw). lia.
Qed.

(** The client of [request] has [n] counted requests in window [k]. *)
Local Abbreviation counted self request k n c :=
  (forall t, t / window_seconds self = k ->
     option_map fst
       (Counters.lookup t (rate_key self (get_client_identifier request) t) c)
     = (if n =? 0 then None else Some n%Z)).

(** The verdict for a client that has [n] counted requests. *)
Local Abbreviation verdict_at self n :=
  (if n <? requests_per_window self
   then {| allowed := true;
           rate_limit_remaining := Some (requests_per_window self - n - 1) |}
   else {| allowed := false; rate_limit_remaining := None |}).

Lemma check_in_window (self : t) (request : Request) (k n : Z)
    (now : datetime) (c : Counters.t) :
  0 < window_seconds self ->
  requests_per_window self <= 9223372036854775807 ->
  now / window_seconds self = k ->
  0 <= n ->
  counted self request k n c ->
  exists c',
    check_rate_limit self RedisCache.Up RedisCache.Up RedisCache.Up
      now request c = (verdict_at self n, c')
    /\ counted self request k
         (if n <? requests_per_window self then n + 1 else n) c'.
Proof.
  intros Hw Hmax Hk Hn Hc.
  unfold check_rate_limit.
  destruct (Z.eqb_spec (window_seconds self) 0) as [E|_]; [lia|].
  assert (Hread : or_zero
                    (Counters.get RedisCache.Up now
                       (rate_key self (get_client_identifier request) now) c)
                  = n).
  { simpl. rewrite (Hc now Hk).
    destruct (Z.eqb_spec n 0) as [->|Hne]; [reflexivity|]. simpl.
    destruct (Z.eqb_spec n 0); [contradiction|reflexivity]. }
  rewrite Hread.
  destruct (Z.leb_spec (requests_per_window self) n) as [Hfull|Hroom];
    destruct (Z.ltb_spec n (requests_per_window self)); try lia.
  - exists c. split; [reflexivity|exact Hc].
  - eexists. split; [reflexivity|].
    intros t Ht.
    rewrite (rate_key_window self _ t now) by congruence.
    rewrite (count_one now _ (window_seconds self) n c); try lia.
    + simpl. destruct (Z.eqb_spec (n + 1) 0); [lia|reflexivity].
    + apply Hc. exact Hk.
    + pose proof (window_bounds _ _ _ Hw Hk).
      pose proof (window_bounds _ _ _ Hw Ht). lia.
Qed.

Lemma replay_counts (self : t) (request : Request) (k : Z)
    (times : list datetime) :
  0 < window_seconds self ->
  requests_per_window self <= 9223372036854775807 ->
  (forall t, In t times -> t / window_seconds self = k) ->
  forall n c,
    0 <= n ->
    counted self request k n c ->
    fst (replay self request times c)
    = map (fun i => verdict_at self (n + Z.of_nat i)) (seq 0 (length times)).
Proof.
  intros Hw Hmax. induction times as [|now later IH]; intros Hin n c Hn Hc;
    [reflexivity|].
  destruct (check_in_window self request k n now c Hw Hmax
              (Hin now (or_introl eq_refl)) Hn Hc) as [c' [Hcheck Hc']].
  simpl replay. rewrite Hcheck.
  assert (Hlater : forall t, In t later -> t / window_seconds self = k).
  { intros t Ht. apply Hin. right. exact Ht. }
  assert (Hn' : 0 <= (if n <? requests_per_window self then n + 1 else n)).
  { destruct (n <? requests_per_window self); lia. }
  specialize (IH Hlater _ c' Hn' Hc').
  destruct (replay self request later c') as [vs c2]. simpl in IH. simpl fst.
  simpl length. simpl seq. simpl map.
  rewrite Z.add_0_r. f_equal.
  rewrite IH, <- seq_shift, map_map.
  apply map_ext. intros i.
  destruct (Z.ltb_spec n (requests_per_window self)).
  - replace (n + 1 + Z.of_nat i) with (n + Z.of_nat (S i)) by lia.
    reflexivity.
  - destruct (Z.ltb_spec (n + Z.of_nat i) (requests_per_window self)); [lia|].
    destruct (Z.ltb_spec (n + Z.of_nat (S i)) (requests_per_window self));
      [lia|reflexivity].
Qed.

Lemma allowed_count (self : t) (m : nat) :
  length (filter allowed
            (map (fun i => verdict_at self (0 + Z.of_nat i)) (seq 0 m)))
  = Nat.min m (Z.to_nat (requests_per_window self)).
Proof.
  induction m as [|m IH]; [reflexivity|].
  rewrite seq_S, map_app, filter_app, length_app, IH.
  cbn [map filter Nat.add Z.add].
  destruct (Z.ltb_spec (Z.of_nat m) (requests_per_window self));
    cbn [allowed length]; lia.
Qed.

(** X22.  The budget of a window.  With a positive window and the
    server reachable, a client that has no live counter in a window and
    sends requests at any times inside it is allowed exactly the first
    [requests_per_window] of them, the i-th with [limit - i - 1] left to
    go, and refused all later ones: never more than the limit. *)
Theorem fixed_window_budget (self : t) (request : Request) (k : Z)
    (times : list datetime) (c : Counters.t) :
  0 < window_seconds self ->
  requests_per_window self <= 9223372036854775807 ->
  (forall t, In t times -> t / window_seconds self = k) ->
  (forall t, t / window_seconds self = k ->
     Counters.lookup t (rate_key self (get_client_identifier request) t) c
     = None) ->
  fst (replay self request times c)
  = map (fun i =>
           if Z.of_nat i <? requests_per_window self
           then {| allowed := true;
                   rate_limit_remaining :=
                     Some (requests_per_window self - Z.of_nat i - 1) |}
           else {| allowed := false; rate_limit_remaining := None |})
        (seq 0 (length times))
  /\ length (filter allowed (fst (replay self request times c)))
     = Nat.min (length times) (Z.to_nat (requests_per_window self)).
Proof.
  intros Hw Hmax Hin Hnone.
  assert (H : fst (replay self request times c)
              = map (fun i => verdict_at self (0 + Z.of_nat i))
                    (seq 0 (length times))).
  { apply (replay_counts self request k times Hw Hmax Hin 0 c); [lia|].
    intros t Ht. rewrite (Hnone t Ht). reflexivity. }
  split.
  - rewrite H. apply map_ext. intros i. reflexivity.
  - rewrite H. apply allowed_count.
Qed.

(** X23.  When the limiter refuses.  [__call__] answers 429 only to an
    HTTP request, with the limiter enabled, outside the health paths
    and with a window that is not zero, after reading a count at or over
    the limit; the counters are left as they were.  With a positive
    limit that takes a reachable server and a live counter: a request
    whose count cannot be read is passed on. *)
Theorem call_refuses_only_over_budget (self : t)
    (l_get l_incr l_expire : RedisCache.link) (is_http : bool)
    (now : datetime) (request : Request) (c c' : Counters.t)
    (status : Z) (detail limit window : string) :
  call self l_get l_incr l_expire is_http now request c
  = (TooManyRequests status detail limit window, c') ->
  status = 429
  /\ is_http = true /\ enabled self = true
  /\ str_in (path request) ["/health"; "/metrics"] = false
  /\ window_seconds self <> 0
  /\ c' = c
  /\ requests_per_window self
     <= or_zero (Counters.get l_get now
                   (rate_key self (get_client_identifier request) now) c)
  /\ (0 < requests_per_window self ->
      l_get = RedisCache.Up
      /\ exists n expires,
           Counters.lookup now
             (rate_key self (get_client_identifier request) now) c
           = Some (n, expires)
           /\ requests_per_window self <= n).
Proof.
  unfold call.
  destruct is_http; [|discriminate]. destruct (enabled self); [|discriminate].
  simpl andb. cbv iota.
  destruct (str_in (path request) ["/health"; "/metrics"]); [discriminate|].
  unfold check_rate_limit.
  destruct (Z.eqb_spec (window_seconds self) 0) as [E|Hw]; [discriminate|].
  destruct (Z.leb_spec (requests_per_window self)
              (or_zero (Counters.get l_get now
                          (rate_key self (get_client_identifier request) now) c)))
    as [Hfull|Hroom]; [|discriminate].
  simpl. intros H. injection H as Hstatus _ _ _ Hc'. subst c'.
  repeat split; auto.
  - destruct l_get; [reflexivity|]. simpl in Hfull. lia.
  - destruct l_get; [|simpl in Hfull; lia].
    simpl in Hfull.
    destruct (Counters.lookup now
                (rate_key self (get_client_identifier request) now) c)
      as [[n e]|]; simpl in Hfull; [|lia].
    exists n, e. split; [reflexivity|].
    destruct (n =? 0); lia.
Qed.

(** X24.  Budgets are separate.  A request of another client, or of the
    same client in another window, leaves the verdict for a request
    unchanged, whatever cache calls reach the server. *)
Theorem budgets_are_separate (self : t)
    (l1 l2 l3 l1' l2' l3' : RedisCache.link)
    (t1 t2 : datetime) (r1 r2 : Request) (c : Counters.t) :
  get_client_identifier r1 <> get_client_identifier r2
  \/ t1 / window_seconds self <> t2 / window_seconds self ->
  fst (check_rate_limit self l1 l2 l3 t2 r2
         (snd (check_rate_limit self l1' l2' l3' t1 r1 c)))
  = fst (check_rate_limit self l1 l2 l3 t2 r2 c).
Proof.
  intros Hdiff.
  assert (Hkey : rate_key self (get_client_identifier r2) t2
                 <> rate_key self (get_client_identifier r1) t1).
  { intros E. apply rate_key_inj in E. destruct E as [E1 E2].
    destruct Hdiff as [H|H]; [apply H|apply H]; congruence. }
  assert (Hget : Counters.get l1 t2 (rate_key self (get_client_identifier r2) t2)
                   (snd (check_rate_limit self l1' l2' l3' t1 r1 c))
                 = Counters.get l1 t2
                     (rate_key self (get_client_identifier r2) t2) c).
  { unfold check_rate_limit.
    destruct (window_seconds self =? 0); [reflexivity|].
    destruct (requests_per_window self <=? _); [reflexivity|].
    simpl snd. unfold Counters.get. destruct l1; [|reflexivity].
    rewrite expire_other, increment_other by exact Hkey. reflexivity. }
  unfold check_rate_limit at 1 3.
  destruct (window_seconds self =? 0); [reflexivity|].
  rewrite Hget.
  destruct (requests_per_window self <=? _); reflexivity.
Qed.

End RateLimitFacts.

(** Three requests in the second minute: the third is refused. *)
Lemma fixed_window_budget_witness :
  map RateLimitMiddleware.allowed
    (fst (RateLimitMiddleware.replay Examples.limiter
            (Examples.anonymous None "10.0.0.1") [60; 75; 119] []))
  = [true; true; false].
Proof.
  destruct (fixed_window_budget Examples.limiter
              (Examples.anonymous None "10.0.0.1") 1 [60; 75; 119] [])
    as [H _].
  - reflexivity.
  - discriminate.
  - intros t [<-|[<-|[<-|[]]]]; reflexivity.
  - reflexivity.
  - rewrite H. reflexivity.
Defined.

(** The peer that spent its minute is refused on a count of two. *)
Lemma call_refuses_only_over_budget_witness :
  Counters.lookup 30 "rate_limit:ip:10.0.0.1:0" Examples.spent
  = Some (2, Some 65)
  /\ RateLimitMiddleware.requests_per_window Examples.limiter
     <= RateLimitMiddleware.or_zero
          (Counters.get RedisCache.Up 30 "rate_limit:ip:10.0.0.1:0"
             Examples.spent).
Proof.
  split; [reflexivity|].
  apply (call_refuses_only_over_budget Examples.limiter
           RedisCache.Up RedisCache.Up RedisCache.Up true 30
           (Examples.anonymous None "10.0.0.1") Examples.spent Examples.spent
           429 "Rate limit exceeded. Please try again later." "2" "60").
  reflexivity.
Defined.

(** A client behind a proxy does not touch the budget of the peer. *)
Lemma budgets_are_separate_witness :
  RateLimitMiddleware.allowed
    (fst (RateLimitMiddleware.check_rate_limit Examples.limiter
            RedisCache.Up RedisCache.Up RedisCache.Up 30
            (Examples.anonymous None "10.0.0.1")
            (snd (RateLimitMiddleware.check_rate_limit Examples.limiter
                    RedisCache.Up RedisCache.Up RedisCache.Up 30
                    (Examples.anonymous (Some "203.0.113.7, 10.0.0.1")
                       "10.0.0.1")
                    Examples.spent))))
  = false.
Proof.
  rewrite (budgets_are_separate Examples.limiter
             RedisCache.Up RedisCache.Up RedisCache.Up
             RedisCache.Up RedisCache.Up RedisCache.Up 30 30
             (Examples.anonymous (Some "203.0.113.7, 10.0.0.1") "10.0.0.1")
             (Examples.anonymous None "10.0.0.1") Examples.spent).
  - reflexivity.
  - left. intros E. vm_compute in E. discriminate E.
Defined.

(* ================================================================== *)
(** * Further properties: tenant resolution                            *)
(* ================================================================== *)

Section TenantFacts.

Import TenantMiddleware.

Lemma get_tenant_by_subdomain_some (st : AuthService.storage) (d : Db.t)
    (subdomain : string) (tenant : Tenant.t) :
  get_tenant_by_subdomain st d subdomain = Some tenant ->
  In tenant (Db.tenants d)
  /\ Tenant.subdomain tenant = subdomain
  /\ Tenant.is_active tenant = true
  /\ Tenant.is_suspended tenant = false.
Proof.
  unfold get_tenant_by_subdomain, AuthService.execute.
  destruct st; simpl; try discriminate;
    (destruct (filter _ (Db.tenants d)) as [|r [|r2 rest]] eqn:Hf; simpl;
     try discriminate;
     intros H; inversion H; subst r;
     destruct (filter_singleton_In _ _ _ Hf) as [Hin HP];
     unfold live in HP;
     apply andb_true_iff in HP; destruct HP as [Hs HP];
     apply andb_true_iff in HP; destruct HP as [Ha Hn];
     apply String.eqb_eq in Hs; apply negb_true_iff in Hn; auto).
Qed.

Lemma get_tenant_by_id_some (st : AuthService.storage) (d : Db.t)
    (tenant_id : string) (tenant : Tenant.t) :
  get_tenant_by_id st d tenant_id = Some tenant ->
  In tenant (Db.tenants d)
  /\ Tenant.id tenant = tenant_id
  /\ Tenant.is_active tenant = true
  /\ Tenant.is_suspended tenant = false.
Proof.
  unfold get_tenant_by_id, AuthService.execute.
  destruct st; simpl; try discriminate;
    (destruct (filter _ (Db.tenants d)) as [|r [|r2 rest]] eqn:Hf; simpl;
     try discriminate;
     intros H; inversion H; subst r;
     destruct (filter_singleton_In _ _ _ Hf) as [Hin HP];
     unfold live in HP;
     apply andb_true_iff in HP; destruct HP as [Hs HP];
     apply andb_true_iff in HP; destruct HP as [Ha Hn];
     apply String.eqb_eq in Hs; apply negb_true_iff in Hn; auto).
Qed.

Lemma resolve_tenant_of (st1 st2 st3 : AuthService.storage) (d : Db.t)
    (request : Request) (tenant : Tenant.t) :
  resolve_tenant st1 st2 st3 d request = Some (OfTenant tenant) ->
  (exists s,
      host_label (match host request with Some h => h | None => "" end)
      = Some s
      /\ get_tenant_by_subdomain st1 d s = Some tenant)
  \/ (exists h, x_tenant_id request = Some h
                /\ get_tenant_by_id st2 d h = Some tenant)
  \/ (exists p, path_identifier (path request) = Some p
                /\ get_tenant_by_subdomain st3 d p = Some tenant).
Proof.
  unfold resolve_tenant.
  destruct (host_label _) as [s|] eqn:Hlabel.
  - destruct (get_tenant_by_subdomain st1 d s) as [t1|] eqn:H1.
    + intros H. inversion H. subst t1. left. exists s. auto.
    + destruct (x_tenant_id request) as [h|] eqn:Hx; simpl.
      * destruct (negb (String.eqb h "")).
        -- destruct (get_tenant_by_id st2 d h) as [t2|] eqn:H2.
           ++ intros H. inversion H. subst t2. right. left. exists h. auto.
           ++ destruct (path_identifier (path request)) as [p|] eqn:Hp.
              ** destruct (get_tenant_by_subdomain st3 d p) as [t3|] eqn:H3;
                   [|destruct (String.prefix _ _); discriminate].
                 intros H. inversion H. subst t3. right. right. exists p. auto.
              ** destruct (String.prefix _ _); discriminate.
        -- destruct (path_identifier (path request)) as [p|] eqn:Hp.
           ++ destruct (get_tenant_by_subdomain st3 d p) as [t3|] eqn:H3;
                [|destruct (String.prefix _ _); discriminate].
              intros H. inversion H. subst t3. right. right. exists p. auto.
           ++ destruct (String.prefix _ _); discriminate.
      * destruct (path_identifier (path request)) as [p|] eqn:Hp.
        -- destruct (get_tenant_by_subdomain st3 d p) as [t3|] eqn:H3;
             [|destruct (String.prefix _ _); discriminate].
           intros H. inversion H. subst t3. right. right. exists p. auto.
        -- destruct (String.prefix _ _); discriminate.
  - destruct (x_tenant_id request) as [h|] eqn:Hx; simpl.
    + destruct (negb (String.eqb h "")).
      * destruct (get_tenant_by_id st2 d h) as [t2|] eqn:H2.
        -- intros H. inversion H. subst t2. right. left. exists h. auto.
        -- destruct (path_identifier (path request)) as [p|] eqn:Hp.
           ++ destruct (get_tenant_by_subdomain st3 d p) as [t3|] eqn:H3;
                [|destruct (String.prefix _ _); discriminate].
              intros H. inversion H. subst t3. right. right. exists p. auto.
           ++ destruct (String.prefix _ _); discriminate.
      * destruct (path_identifier (path request)) as [p|] eqn:Hp.
        -- destruct (get_tenant_by_subdomain st3 d p) as [t3|] eqn:H3;
             [|destruct (String.prefix _ _); discriminate].
           intros H. inversion H. subst t3. right. right. exists p. auto.
        -- destruct (String.prefix _ _); discriminate.
    + destruct (path_identifier (path request)) as [p|] eqn:Hp.
      * destruct (get_tenant_by_subdomain st3 d p) as [t3|] eqn:H3;
          [|destruct (String.prefix _ _); discriminate].
        intros H. inversion H. subst t3. right. right. exists p. auto.
      * destruct (String.prefix _ _); discriminate.
Qed.

(** X25.  Which tenant a request gets.  A tenant that [__call__] puts
    into the request state is a row of the tenants table that is active
    and not suspended, and it was named by the first label of the host,
    by the [X-Tenant-ID] header or by the path; the default tenant is
    given only to a host that begins with "localhost"; and the system
    paths get none. *)
Theorem tenant_resolution_sound (st1 st2 st3 : AuthService.storage)
    (d : Db.t) (is_http : bool) (request : Request) :
  let host_text := match host request with Some h => h | None => "" end in
  (forall tenant,
      call st1 st2 st3 d is_http request = Some (OfTenant tenant) ->
      In tenant (Db.tenants d)
      /\ Tenant.is_active tenant = true
      /\ Tenant.is_suspended tenant = false
      /\ (host_label host_text = Some (Tenant.subdomain tenant)
          \/ x_tenant_id request = Some (Tenant.id tenant)
          \/ path_identifier (path request) = Some (Tenant.subdomain tenant)))
  /\ (call st1 st2 st3 d is_http request = Some DefaultTenant ->
      String.prefix "localhost" host_text = true)
  /\ (str_in (path request)
        ["/health"; "/metrics"; "/docs"; "/redoc"; "/openapi.json"] = true ->
      call st1 st2 st3 d is_http request = None).
Proof.
  intros host_text. unfold call.
  split; [|split].
  - intros tenant. destruct is_http; [|discriminate].
    destruct (str_in (path request) _); [discriminate|].
    intros H. apply resolve_tenant_of in H. fold host_text in H.
    destruct H as [[s [Hs H]]|[[h [Hh H]]|[p [Hp H]]]].
    + destruct (get_tenant_by_subdomain_some _ _ _ _ H) as [Hin [<- [Ha Hn]]].
      repeat split; auto.
    + destruct (get_tenant_by_id_some _ _ _ _ H) as [Hin [<- [Ha Hn]]].
      repeat split; auto.
    + destruct (get_tenant_by_subdomain_some _ _ _ _ H) as [Hin [<- [Ha Hn]]].
      repeat split; auto.
  - destruct is_http; [|discriminate].
    destruct (str_in (path request) _); [discriminate|].
    unfold resolve_tenant. fold host_text.
    destruct (match host_label host_text with
              | Some s => get_tenant_by_subdomain st1 d s
              | None => None end); [discriminate|].
    destruct (if truthy_str (x_tenant_id request) then _ else None);
      [discriminate|].
    destruct (match path_identifier (path request) with
              | Some s => get_tenant_by_subdomain st3 d s
              | None => None end); [discriminate|].
    destruct (String.prefix "localhost" host_text); [reflexivity|discriminate].
  - intros ->. destruct is_http; reflexivity.
Qed.

End TenantFacts.

(** The subdomain "one" gets [tenant1]. *)
Lemma tenant_resolution_sound_witness :
  TenantMiddleware.call AuthService.Healthy AuthService.Healthy
    AuthService.Healthy Examples.db0 true Examples.to_tenant1
  = Some (TenantMiddleware.OfTenant Examples.tenant1)
  /\ Tenant.is_suspended Examples.tenant1 = false.
Proof.
  split; [reflexivity|].
  destruct (tenant_resolution_sound AuthService.Healthy AuthService.Healthy
              AuthService.Healthy Examples.db0 true Examples.to_tenant1)
    as [H _].
  destruct (H Examples.tenant1 eq_refl) as [_ [_ [Hs _]]]. exact Hs.
Defined.

(* ================================================================== *)
(** * Further properties: the endpoints                                *)
(* ================================================================== *)

Section EndpointFacts.
Context `{G : Globals}.

Import Endpoints.

Lemma authenticate_user_ok (d d1 : Db.t) (email password : string)
    (now : datetime) (user : User.t) :
  AuthService.authenticate_user d email password now = (Ok user, d1) ->
  exists user0,
    AuthService.select_user_by_email d email = Ok (Some user0)
    /\ AuthService.locked user0 now = false
    /\ User.verify_password user0 password = true
    /\ user = AuthService.reset_failed_attempts user0
    /\ d1 = Db.commit_user user d.
Proof.
  unfold AuthService.authenticate_user.
  destruct (AuthService.select_user_by_email d email) as [[user0|]|e] eqn:Hs;
    try discriminate.
  destruct (AuthService.locked user0 now) eqn:Hl; [discriminate|].
  destruct (User.verify_password user0 password) eqn:Hv; simpl;
    [|discriminate].
  intros H. inversion H. subst. exists user0. repeat split; auto.
Qed.

Lemma authenticate_user_raises (d d1 : Db.t) (email password : string)
    (now : datetime) (e : exn) :
  AuthService.authenticate_user d email password now = (Raise e, d1) ->
  (exists message, e = AuthenticationError message)
  \/ e = MultipleResultsFound.
Proof.
  unfold AuthService.authenticate_user.
  destruct (AuthService.select_user_by_email d email) as [[user0|]|e0] eqn:Hs.
  - destruct (AuthService.locked user0 now).
    + intros H. inversion H. left. eauto.
    + destruct (negb (User.verify_password user0 password));
        intros H; inversion H. left. eauto.
  - intros H. inversion H. left. eauto.
  - intros H. inversion H. subst. right.
    unfold AuthService.select_user_by_email in Hs.
    destruct (filter _ _) as [|x [|y rest]]; simpl in Hs; inversion Hs.
    reflexivity.
Qed.

Lemma get_current_user_rejects (d : Db.t) (credentials : option Security.token)
    (now : datetime) (e : AuthMiddleware.HTTPException) :
  AuthMiddleware.get_current_user d credentials now = AuthMiddleware.Rejects e ->
  AuthMiddleware.status_code e = 401.
Proof.
  unfold AuthMiddleware.get_current_user.
  destruct credentials as [tok|].
  - destruct (AuthMiddleware.current_user_body d tok now) as [u|[]];
      intros H; inversion H; reflexivity.
  - intros H. inversion H. reflexivity.
Qed.

(** The rows of a key after a write of that key. *)
Lemma written_row {A : Type} (pk : A -> string) (obj x : A) (rows : list A) :
  In x (Sql.write pk obj rows) -> pk x = pk obj -> x = obj.
Proof.
  intros Hin Hpk. apply (In_write_strict pk) in Hin.
  destruct Hin as [[_ Hne]|H]; [contradiction|exact H].
Qed.

(** X26.  What [login] answers.  It sends a token pair only when the
    address selects one user who is not locked out, the password
    verifies and the user has no enabled 2FA credential; the pair is
    then the one [create_tokens] makes for that user.  A user who has
    2FA enabled is answered 500 "Login failed" although the password
    was right, and gets no token row.  Every other answer is a 401 or
    that 500; no exception leaves the function. *)
Theorem login_sound (l_session : RedisCache.link) (d : Db.t)
    (s : RedisSession.store) (email password : string) (remember_me : bool)
    (ip_address user_agent new_token_id new_session_id : string)
    (now : datetime) :
  let answer := login l_session d s email password remember_me ip_address
                  user_agent new_token_id new_session_id now in
  (forall tokens,
      fst (fst answer) = Sends tokens ->
      exists user0,
        AuthService.select_user_by_email d email = Ok (Some user0)
        /\ AuthService.locked user0 now = false
        /\ User.verify_password user0 password = true
        /\ TOTPStatus.is_2fa_enabled d (User.id user0) = Ok false
        /\ tokens
           = fst (AuthService.create_tokens
                    (Db.commit_user (AuthService.reset_failed_attempts user0) d)
                    (AuthService.reset_failed_attempts user0)
                    ip_address user_agent new_token_id now))
  /\ (forall user d1,
      AuthService.authenticate_user d email password now = (Ok user, d1) ->
      TOTPStatus.is_2fa_enabled d1 (User.id user) = Ok true ->
      answer = (Fails (http 500 "Login failed"), d1, s))
  /\ (forall e, fst (fst answer) = Fails e ->
                AuthMiddleware.status_code e = 401
                \/ e = http 500 "Login failed")
  /\ (forall e, fst (fst answer) <> Crashes e).
Proof.
  intros answer. unfold answer, login.
  destruct (AuthService.authenticate_user d email password now)
    as [[user|e0] d1] eqn:Ha.
  - destruct (authenticate_user_ok _ _ _ _ _ _ Ha)
      as [user0 [Hs [Hl [Hv [Hu Hd1]]]]].
    assert (H2fa : TOTPStatus.is_2fa_enabled d1 (User.id user)
                   = TOTPStatus.is_2fa_enabled d (User.id user0)).
    { subst. reflexivity. }
    destruct (TOTPStatus.is_2fa_enabled d1 (User.id user)) as [[|]|e1] eqn:H2.
    + split; [|split; [|split]].
      * intros tokens Ht. discriminate Ht.
      * intros u d1' Hu' _. inversion Hu'. reflexivity.
      * intros e He. inversion He. right. reflexivity.
      * intros e He. discriminate He.
    + destruct (AuthService.create_tokens d1 user ip_address user_agent
                  new_token_id now) as [tokens d2] eqn:Hc.
      split; [|split; [|split]].
      * intros tokens' Ht. simpl in Ht. inversion Ht. subst tokens'.
        exists user0. repeat split; auto.
        rewrite <- Hu, <- Hd1, Hc. reflexivity.
      * intros u d1' Hu' H2'. inversion Hu'. subst u d1'.
        rewrite H2 in H2'. discriminate.
      * intros e He. discriminate He.
      * intros e He. discriminate He.
    + split; [|split; [|split]].
      * intros tokens Ht. simpl in Ht. destruct e1; discriminate Ht.
      * intros u d1' Hu' H2'. inversion Hu'. subst u d1'.
        rewrite H2 in H2'. discriminate.
      * intros e He. simpl in He. destruct e1; inversion He; auto.
      * intros e He. simpl in He. destruct e1; discriminate He.
  - split; [|split; [|split]].
    + intros tokens Ht. simpl in Ht. destruct e0; discriminate Ht.
    + intros u d1' Hu'. discriminate Hu'.
    + intros e He. simpl in He. destruct e0; inversion He; auto.
    + intros e He. simpl in He. destruct e0; discriminate He.
Qed.

(** X27.  What [login_with_2fa] answers.  It sends a token pair only
    when the password check passed and the one enabled credential of
    the user accepts the code as a TOTP code.  A backup code never logs
    in: a code that is a stored backup code and no TOTP code makes the
    function raise [UnboundLocalError], which no handler catches.  A
    user without enabled credential is answered 401 "Invalid 2FA
    code". *)
Theorem login_with_2fa_sound (d : Db.t) (email password totp_code : string)
    (ip_address user_agent new_token_id : string) (now : datetime) :
  let answer := login_with_2fa d email password totp_code ip_address
                  user_agent new_token_id now in
  (forall tokens,
      fst answer = Sends tokens ->
      exists user0 r,
        AuthService.select_user_by_email d email = Ok (Some user0)
        /\ AuthService.locked user0 now = false
        /\ User.verify_password user0 password = true
        /\ TOTPService.select_enabled_2fa d (User.id user0) = [r]
        /\ TOTPService.verify_totp_code
             (Encryption.decrypt (TwoFactorAuth.secret_key r)) totp_code now
             TOTPService.default_window = true)
  /\ (forall user d1 r,
      AuthService.authenticate_user d email password now = (Ok user, d1) ->
      TOTPService.select_enabled_2fa d1 (User.id user) = [r] ->
      TOTPService.verify_totp_code
        (Encryption.decrypt (TwoFactorAuth.secret_key r)) totp_code now
        TOTPService.default_window = false ->
      fst (TOTPService.verify_backup_code
             (Encryption.decrypt (TwoFactorAuth.backup_codes r)) totp_code)
      = true ->
      answer = (Crashes (UnboundLocalError "datetime"), d1))
  /\ (forall user d1,
      AuthService.authenticate_user d email password now = (Ok user, d1) ->
      TOTPService.select_enabled_2fa d1 (User.id user) = [] ->
      answer = (Fails (http 401 "Invalid 2FA code"), d1)).
Proof.
  intros answer. unfold answer, login_with_2fa.
  split; [|split].
  - intros tokens.
    destruct (AuthService.authenticate_user d email password now)
      as [[user|e0] d1] eqn:Ha.
    + destruct (authenticate_user_ok _ _ _ _ _ _ Ha)
        as [user0 [Hs [Hl [Hv [Hu Hd1]]]]].
      destruct (TOTPService.verify_2fa_login d1 (User.id user) totp_code now)
        as [[[|]|e1] d2] eqn:H2.
      * destruct (verify_2fa_login_true _ _ _ _ _ H2) as [r [Hr [Hc _]]].
        intros _. exists user0, r. subst. repeat split; auto.
      * simpl. discriminate.
      * simpl. destruct e1; discriminate.
    + simpl. destruct e0; discriminate.
  - intros user d1 r Ha Hr Hno Hb. rewrite Ha.
    rewrite (verify_2fa_login_backup_branch d1 (User.id user) totp_code now r
               Hr Hno Hb).
    reflexivity.
  - intros user d1 Ha Hr. rewrite Ha.
    unfold TOTPService.verify_2fa_login. rewrite Hr. reflexivity.
Qed.

(** X28.  A deactivated user at [login].  [authenticate_user] does not
    look at [is_active]: a deactivated user with the right password and
    no 2FA is sent a token pair.  The pair is of no use: at every time
    [get_current_user] rejects the access token with a 401 and the
    refresh endpoint answers the refresh token with 401 "Token refresh
    failed", changing nothing. *)
Theorem deactivated_user_login (l_session : RedisCache.link) (d : Db.t)
    (s : RedisSession.store) (email password : string) (remember_me : bool)
    (ip_address user_agent new_token_id new_session_id : string)
    (now : datetime) (user0 : User.t) :
  AuthService.select_user_by_email d email = Ok (Some user0) ->
  User.is_active user0 = false ->
  AuthService.locked user0 now = false ->
  User.verify_password user0 password = true ->
  TOTPStatus.is_2fa_enabled d (User.id user0) = Ok false ->
  exists tokens d' s',
    login l_session d s email password remember_me ip_address user_agent
      new_token_id new_session_id now = (Sends tokens, d', s')
    /\ forall t,
         (exists e,
             AuthMiddleware.get_current_user d'
               (Some (AuthService.access_token tokens)) t
             = AuthMiddleware.Rejects e
             /\ AuthMiddleware.status_code e = 401)
         /\ refresh_token d' (AuthService.refresh_token tokens) t
            = (Fails (http 401 "Token refresh failed"), d').
Proof.
  intros Hs Hina Hl Hv H2.
  set (user := AuthService.reset_failed_attempts user0).
  assert (Hrow : forall u, In u (Sql.write User.id user (Db.users d)) ->
                           User.id u = User.id user0 ->
                           User.is_active u = false).
  { intros u Hin Hid. rewrite (written_row User.id user u _ Hin Hid).
    exact Hina. }
  unfold login.
  rewrite (authenticate_user_success d email password user0 now Hs Hl Hv).
  fold user.
  change (TOTPStatus.is_2fa_enabled (Db.commit_user user d) (User.id user))
    with (TOTPStatus.is_2fa_enabled d (User.id user0)).
  rewrite H2.
  destruct (AuthService.create_tokens (Db.commit_user user d) user ip_address
              user_agent new_token_id now) as [tokens d2] eqn:Hc.
  unfold AuthService.create_tokens in Hc. inversion Hc as [[Ht Hd2]].
  eexists. eexists. eexists. split; [reflexivity|].
  intros t. split.
  - destruct (AuthMiddleware.get_current_user _ _ t) as [u|e] eqn:E.
    + exfalso.
      destruct (get_current_user_returns _ _ _ _ E) as [tok [Htok Hb]].
      inversion Htok. subst tok.
      destruct (current_user_body_ok _ _ _ _ Hb)
        as [claims [Hver [Hsub [Hin Hact]]]].
      destruct (verify_token_ok _ _ _ _ Hver) as [Hsig _].
      unfold Security.create_access_token in Hsig. inversion Hsig. subst claims.
      simpl in Hsub. inversion Hsub as [Hid].
      simpl in Hin. rewrite (Hrow u Hin (eq_sym Hid)) in Hact. discriminate.
    + exists e. split; [reflexivity|].
      apply (get_current_user_rejects _ _ _ _ E).
  - unfold refresh_token.
    destruct (AuthService.refresh_access_token _ _ t) as [[response|e] d3] eqn:E.
    + exfalso.
      destruct (refresh_access_token_ok _ _ _ _ _ E)
        as [payload [uid [r [u [Hver [Hsub [_ [_ [_ [Hu Hact]]]]]]]]]].
      destruct (verify_token_ok _ _ _ _ Hver) as [Hsig _].
      unfold Security.create_refresh_token in Hsig. inversion Hsig.
      subst payload. simpl in Hsub. inversion Hsub. subst uid.
      unfold AuthService.select_user_by_id in Hu.
      apply scalar_one_or_none_some in Hu.
      destruct (filter_singleton_In _ _ _ Hu) as [Hin HP].
      apply String.eqb_eq in HP. simpl in Hin.
      rewrite (Hrow u Hin HP) in Hact. discriminate.
    + unfold AuthService.refresh_access_token in E.
      destruct (AuthService.refresh_body _ _ t) as [[response d4]|e1];
        inversion E. reflexivity.
Qed.

(** X29.  What [logout] and [logout_all_sessions] answer.  For an
    authenticated caller [logout] answers "Logged out successfully"
    whatever refresh token is presented and whatever the storage does:
    the result of [revoke_token] is dropped.  When the caller has no
    refresh row for the token, or the storage fails, nothing was
    revoked: the database is the one before the call.
    [logout_all_sessions] answers with the number of unrevoked refresh
    rows the caller had when the storage works, and with "Logged out
    from 0 sessions", the database unchanged, when it fails. *)
Theorem logout_always_succeeds (st : AuthService.storage) (d : Db.t)
    (credentials : option Security.token) (refresh_token : Security.token)
    (now : datetime) (current_user : User.t) :
  AuthMiddleware.get_current_user d credentials now
  = AuthMiddleware.Returns current_user ->
  fst (logout st d credentials refresh_token now)
  = Sends "Logged out successfully"
  /\ (AuthService.select_token_of_user d
        (Security.hash_token refresh_token) (User.id current_user) = []
      \/ st <> AuthService.Healthy ->
      snd (logout st d credentials refresh_token now) = d)
  /\ fst (logout_all_sessions AuthService.Healthy d credentials now)
     = Sends ("Logged out from "
              ++ Text.str
                   (Z.of_nat
                      (length (AuthService.select_active_tokens d
                                 (User.id current_user))))
              ++ " sessions")
  /\ (st <> AuthService.Healthy ->
      logout_all_sessions st d credentials now
      = (Sends "Logged out from 0 sessions", d)).
Proof.
  intros Hu. unfold logout, logout_all_sessions. rewrite Hu.
  split; [|split; [|split]].
  - unfold AuthService.revoke_token, AuthService.revoke_token_body,
      AuthService.execute, AuthService.commit.
    destruct st; simpl; try reflexivity;
      destruct (AuthService.select_token_of_user d _ _) as [|r [|r2 rest]];
      reflexivity.
  - unfold AuthService.revoke_token, AuthService.revoke_token_body,
      AuthService.execute, AuthService.commit.
    intros [Hnone|Hst].
    + rewrite Hnone. destruct st; reflexivity.
    + destruct st; [contradiction| |]; simpl; try reflexivity.
      destruct (AuthService.select_token_of_user d _ _) as [|r [|r2 rest]];
        reflexivity.
  - pose proof (revoke_all_healthy_count d (User.id current_user)) as Hcount.
    destruct (AuthService.revoke_all_user_tokens AuthService.Healthy d
                (User.id current_user)) as [[n|e] d1]; simpl in Hcount;
      inversion Hcount. reflexivity.
  - intros Hst.
    unfold AuthService.revoke_all_user_tokens, AuthService.revoke_all_body,
      AuthService.execute, AuthService.commit.
    destruct st; [contradiction| |]; simpl; [reflexivity|].
    destruct (AuthService.revoke_each _ 0 d). reflexivity.
Qed.

(** X30.  The 400 answers that are never sent.  [change_password],
    [verify_2fa_setup] and [disable_2fa] build a 400 for a wrong
    password or code inside their [try] block, where their own
    [except Exception] replaces it: every failure of the three endpoints
    is the 401 of the bearer check or a 500.  A wrong current password
    gives 500 "Failed to change password" and leaves the database as it
    was. *)
Theorem bad_request_is_never_sent (st : AuthService.storage) (d : Db.t)
    (credentials : option Security.token)
    (current_password new_password code : string) (now : datetime) :
  (forall e,
      fst (change_password st d credentials current_password new_password now)
      = Fails e
      \/ fst (verify_2fa_setup d credentials code now) = Fails e
      \/ fst (disable_2fa d credentials code now) = Fails e ->
      AuthMiddleware.status_code e = 401 \/ AuthMiddleware.status_code e = 500)
  /\ (forall current_user,
      AuthMiddleware.get_current_user d credentials now
      = AuthMiddleware.Returns current_user ->
      User.verify_password current_user current_password = false ->
      change_password st d credentials current_password new_password now
      = (Fails (http 500 "Failed to change password"), d))
  /\ (forall current_user d1,
      AuthMiddleware.get_current_user d credentials now
      = AuthMiddleware.Returns current_user ->
      TOTPService.verify_2fa_setup d (User.id current_user) code now
      = (Ok false, d1) ->
      verify_2fa_setup d credentials code now
      = (Fails (http 500 "Failed to verify 2FA"), d1)).
Proof.
  split; [|split].
  - intros e.
    unfold change_password, verify_2fa_setup, disable_2fa.
    destruct (AuthMiddleware.get_current_user d credentials now)
      as [u|e0] eqn:Hu.
    + intros [H|[H|H]]; right.
      * destruct (negb (User.verify_password u current_password));
          [inversion H; reflexivity|].
        destruct (AuthService.commit st d _) as [[[]|e1] d1];
          [|inversion H; reflexivity].
        destruct (AuthService.revoke_all_user_tokens st d1 (User.id u))
          as [[n|e2] d2]; inversion H; reflexivity.
      * destruct (TOTPService.verify_2fa_setup d (User.id u) code now)
          as [[[|]|e1] d1]; inversion H; reflexivity.
      * destruct (TOTPService.disable_2fa d (User.id u) code now)
          as [[[|]|e1] d1]; inversion H; reflexivity.
    + intros [H|[H|H]]; left; inversion H; subst;
        apply (get_current_user_rejects _ _ _ _ Hu).
  - intros u Hu Hv. unfold change_password. rewrite Hu, Hv. reflexivity.
  - intros u d1 Hu Hc. unfold verify_2fa_setup. rewrite Hu, Hc. reflexivity.
Qed.

End EndpointFacts.

(** Alice has 2FA enabled: the right password is answered 500. *)
Lemma login_sound_witness :
  Endpoints.login (G := Examples.globals) RedisCache.Up Examples.db2 []
    "alice@x.com" "correct horse" false "10.0.0.1" "agent" "tok-2" "sess-2" 0
  = (Endpoints.Fails (Endpoints.http 500 "Login failed"),
     Db.commit_user (AuthService.reset_failed_attempts Examples.alice)
       Examples.db2,
     []).
Proof.
  destruct (login_sound (G := Examples.globals) RedisCache.Up Examples.db2 []
              "alice@x.com" "correct horse" false "10.0.0.1" "agent"
              "tok-2" "sess-2" 0) as [_ [H _]].
  apply (H (AuthService.reset_failed_attempts Examples.alice)); reflexivity.
Defined.

(** Alice presents one of her backup codes. *)
Lemma login_with_2fa_sound_witness :
  Endpoints.login_with_2fa (G := Examples.globals) Examples.db2
    "alice@x.com" "correct horse" "ABCD1234" "10.0.0.1" "agent" "tok-2" 0
  = (Endpoints.Crashes (UnboundLocalError "datetime"),
     Db.commit_user (AuthService.reset_failed_attempts Examples.alice)
       Examples.db2).
Proof.
  destruct (login_with_2fa_sound (G := Examples.globals) Examples.db2
              "alice@x.com" "correct horse" "ABCD1234" "10.0.0.1" "agent"
              "tok-2" 0) as [_ [H _]].
  apply (H (AuthService.reset_failed_attempts Examples.alice) _
           Examples.alice_2fa); reflexivity.
Defined.

(** Bob was deactivated; his password still gets him a pair, which the
    refresh endpoint refuses. *)
Lemma deactivated_user_login_witness :
  exists tokens d' s',
    Endpoints.login (G := Examples.globals) RedisCache.Up Examples.db0 []
      "bob@x.com" "old password" false "10.0.0.9" "agent" "tok-9" "sess-9" 0
    = (Endpoints.Sends tokens, d', s')
    /\ Endpoints.refresh_token (G := Examples.globals) d'
         (AuthService.refresh_token tokens) 100
       = (Endpoints.Fails (Endpoints.http 401 "Token refresh failed"), d').
Proof.
  destruct (deactivated_user_login (G := Examples.globals) RedisCache.Up
              Examples.db0 [] "bob@x.com" "old password" false "10.0.0.9"
              "agent" "tok-9" "sess-9" 0 Examples.bob
              eq_refl eq_refl eq_refl eq_refl eq_refl)
    as [tokens [d' [s' [Hlogin H]]]].
  exists tokens, d', s'. split; [exact Hlogin|]. apply (H 100).
Defined.

(** Alice logs out with a token that is not hers. *)
Lemma logout_always_succeeds_witness :
  Endpoints.logout (G := Examples.globals) AuthService.Healthy Examples.db1
    (Some (AuthService.access_token (fst Examples.alice_login)))
    Examples.forged_refresh_token 600
  = (Endpoints.Sends "Logged out successfully", Examples.db1).
Proof.
  destruct (logout_always_succeeds (G := Examples.globals)
              AuthService.Healthy Examples.db1
              (Some (AuthService.access_token (fst Examples.alice_login)))
              Examples.forged_refresh_token 600 Examples.alice eq_refl)
    as [H1 [H2 _]].
  rewrite (surjective_pairing (Endpoints.logout _ _ _ _ _)).
  rewrite H1, H2; [reflexivity|]. left. reflexivity.
Defined.

(** Alice mistypes her current password. *)
Lemma bad_request_is_never_sent_witness :
  Endpoints.change_password (G := Examples.globals) AuthService.Healthy
    Examples.db1
    (Some (AuthService.access_token (fst Examples.alice_login)))
    "correct hose" "N3w password" 600
  = (Endpoints.Fails (Endpoints.http 500 "Failed to change password"),
     Examples.db1).
Proof.
  destruct (bad_request_is_never_sent (G := Examples.globals)
              AuthService.Healthy Examples.db1
              (Some (AuthService.access_token (fst Examples.alice_login)))
              "correct hose" "N3w password" "000000" 600) as [_ [H _]].
  apply (H Examples.alice); reflexivity.
Defined.

(** Cleaning twice at the same time: the second run finds nothing. *)
Lemma cleanup_expired_tokens_effect_witness :
  fst (Cleanup.cleanup_expired_tokens 100 Examples.db4) = 1%nat
  /\ Cleanup.cleanup_expired_tokens 100
       (snd (Cleanup.cleanup_expired_tokens 100 Examples.db4))
     = (0%nat, snd (Cleanup.cleanup_expired_tokens 100 Examples.db4)).
Proof.
  split; [reflexivity|].
  destruct (cleanup_expired_tokens_effect 100 Examples.db4)
    as [_ [_ [_ [_ [_ H]]]]].
  exact H.
Defined.
